(** * The MCP test client and server: protocol engine

    A shallow embedding of [simple_mcp_server.py] (class [SimpleMCPServer])
    and of the request path of [mcp_client_simulator.py] (class
    [MCPClientSimulator]), with the part of Python's [json] module
    that both rely on.

    Conventions.
    - A Python [str] is the list of its code points.
    - A decoded JSON document is a [json] value; a Python [dict] keeps its
      insertion order, so it is an association list with distinct keys.
    - Python [int] is [Z].  Python [float] is kept abstract: the
      operations the code applies to floats are the fields of [PyRuntime].
    - A Python call either returns or raises: [outcome].
    - Standard input and output are lists of lines of text, without their
      encoding as bytes.
    - The interpreter's resource limits (recursion depth, memory, the
      digit limit of [int]) and stream failures are outside the model.

    Characters are written by their code: 34 is the double quote, 92 the
    backslash, 117 [u], 44 the comma, 58 the colon, 91 and 93 the square
    brackets, 123 and 125 the braces, 45 the minus sign, 46 the point,
    48 to 57 the digits, 32 the space, 10 the line feed. *)

From Stdlib Require Import ZArith NArith List String Ascii Bool Lia.
From Stdlib Require Import Decimal DecimalZ DecimalPos DecimalFacts.
Import ListNotations.

Set Warnings "-register-all,-notation-for-abbreviation".
Local Open Scope N_scope.

(** ** Python strings *)

Notation pychar := N (only parsing).
Notation pystr := (list N) (only parsing).

(** A literal of the source, as a Python string. *)
Definition py (s : string) : pystr := map N_of_ascii (list_ascii_of_string s).

Fixpoint pystr_eqb (a b : pystr) : bool :=
  match a, b with
  | [], [] => true
  | x :: a', y :: b' => (x =? y) && pystr_eqb a' b'
  | _, _ => false
  end.

Fixpoint starts_with (prefix s : pystr) : bool :=
  match prefix, s with
  | [], _ => true
  | x :: p', y :: s' => (x =? y) && starts_with p' s'
  | _ :: _, [] => false
  end.

(** [needle in haystack] on two strings. *)
Fixpoint is_substring (needle haystack : pystr) : bool :=
  starts_with needle haystack ||
  match haystack with
  | [] => false
  | _ :: h' => is_substring needle h'
  end.

(** ** Exceptions *)

Inductive pytype := TNone | TBool | TInt | TFloat | TStr | TList | TDict.

Inductive pyop := OpIn | OpGetItem | OpSlice | OpHash | OpAdd | OpMul.

(** The exceptions the modelled code can raise; what each constructor
    carries is what the exception's message is computed from. *)
Inductive pyexn :=
| JSONDecodeError
| RecursionError
| KeyError (key : pystr)
| TypeError (op : pyop) (operands : list pytype)
| AttributeError (obj : pytype) (attr : pystr)
| OverflowError
| NotImplementedError (msg : pystr).

Inductive outcome (A : Type) :=
| Return (a : A)
| Raise (e : pyexn).
Arguments Return {A} a.
Arguments Raise {A} e.

Definition bind {A B} (m : outcome A) (k : A -> outcome B) : outcome B :=
  match m with
  | Return a => k a
  | Raise e => Raise e
  end.

Notation "x <- m ;; k" := (bind m (fun x => k))
  (at level 61, m at next level, right associativity).

(** ** What the interpreter provides *)

Class PyRuntime (F : Type) := {
  (** [float(lexeme)], also for the constants NaN, Infinity, -Infinity *)
  float_of_literal : pystr -> F;
  (** [float.__repr__] *)
  float_repr : F -> pystr;
  (** how [json.dumps] writes a float *)
  float_dumps : F -> pystr;
  (** [float(n)] for an [int]; [None] is OverflowError *)
  float_of_int : Z -> option F;
  float_add : F -> F -> F;
  float_mul : F -> F -> F;
  (** [bool(x)] *)
  float_truth : F -> bool;
  (** [repr] of a [str] *)
  str_repr : pystr -> pystr;
  (** [str(e)] of an exception *)
  exn_str : pyexn -> pystr
}.

(** An interpreter to run the examples on: it has one float, and one
    message for every exception. *)
#[local] Instance toy_runtime : PyRuntime unit := {
  float_of_literal _ := tt;
  float_repr _ := py "0.0";
  float_dumps _ := py "0.0";
  float_of_int _ := Some tt;
  float_add _ _ := tt;
  float_mul _ _ := tt;
  float_truth _ := false;
  str_repr s := 39 :: s ++ [39];
  exn_str _ := py "error"
}.

(** ** Text of a JSON document: strings and numbers

    What [json.dumps] writes for a string and for an integer. *)

Definition hex_digit (d : N) : pychar := if d <? 10 then 48 + d else 87 + d.

Definition hex4 (n : N) : pystr :=
  [hex_digit (n / 4096 mod 16); hex_digit (n / 256 mod 16);
   hex_digit (n / 16 mod 16); hex_digit (n mod 16)].

Definition u_escape (n : N) : pystr := 92 :: 117 :: hex4 n.

(** One character of [encode_basestring_ascii]: the quote, the backslash,
    line feed, carriage return, tab, backspace and form feed have their
    two-letter escapes, the other printable ASCII characters stand for
    themselves, and the rest is written [\uXXXX], as a surrogate pair
    above 0xFFFF. *)
Definition escape_char (c : pychar) : pystr :=
  if c =? 34 then [92; 34]
  else if c =? 92 then [92; 92]
  else if c =? 10 then [92; 110]
  else if c =? 13 then [92; 114]
  else if c =? 9 then [92; 116]
  else if c =? 8 then [92; 98]
  else if c =? 12 then [92; 102]
  else if (32 <=? c) && (c <=? 126) then [c]
  else if c <? 65536 then u_escape c
  else
    let v := c - 65536 in
    u_escape (55296 + (v / 1024) mod 1024) ++ u_escape (56320 + v mod 1024).

Definition escape_body (s : pystr) : pystr := flat_map escape_char s.

Definition encode_basestring_ascii (s : pystr) : pystr :=
  34 :: escape_body s ++ [34].

Fixpoint uint_chars (d : uint) : pystr :=
  match d with
  | Nil => []
  | D0 d' => 48 :: uint_chars d'
  | D1 d' => 49 :: uint_chars d'
  | D2 d' => 50 :: uint_chars d'
  | D3 d' => 51 :: uint_chars d'
  | D4 d' => 52 :: uint_chars d'
  | D5 d' => 53 :: uint_chars d'
  | D6 d' => 54 :: uint_chars d'
  | D7 d' => 55 :: uint_chars d'
  | D8 d' => 56 :: uint_chars d'
  | D9 d' => 57 :: uint_chars d'
  end.

(** [int.__repr__] *)
Definition int_repr (n : Z) : pystr :=
  match Z.to_int n with
  | Pos d => uint_chars d
  | Neg d => 45 :: uint_chars d
  end.

(** What [json.loads] reads.  The scanner is the one of the C
    accelerator, which [json.loads] uses by default: ASCII digits only,
    strict hexadecimal escapes, control characters refused inside
    strings.  A scan ends on a value and the rest of the input, or finds
    no value, or runs out of fuel. *)

Inductive scan (A : Type) :=
| Scanned (a : A) (rest : pystr)
| NoParse
| OutOfFuel.
Arguments Scanned {A} a rest.
Arguments NoParse {A}.
Arguments OutOfFuel {A}.

Definition scan_map {A B} (f : A -> B) (r : scan A) : scan B :=
  match r with
  | Scanned a rest => Scanned (f a) rest
  | NoParse => NoParse
  | OutOfFuel => OutOfFuel
  end.

Definition is_ws (c : pychar) : bool :=
  (c =? 32) || (c =? 9) || (c =? 10) || (c =? 13).

Fixpoint skip_ws (s : pystr) : pystr :=
  match s with
  | c :: t => if is_ws c then skip_ws t else s
  | [] => []
  end.

Definition is_digit (c : pychar) : bool := (48 <=? c) && (c <=? 57).

Definition hex_val (c : pychar) : option N :=
  if is_digit c then Some (c - 48)
  else if (97 <=? c) && (c <=? 102) then Some (c - 87)
  else if (65 <=? c) && (c <=? 70) then Some (c - 55)
  else None.

Definition decode_hex4 (a b c d : pychar) : option N :=
  match hex_val a, hex_val b, hex_val c, hex_val d with
  | Some x, Some y, Some z, Some w => Some (x * 4096 + y * 256 + z * 16 + w)
  | _, _, _, _ => None
  end.

Definition is_high_surrogate (c : N) : bool := (55296 <=? c) && (c <=? 56319).
Definition is_low_surrogate (c : N) : bool := (56320 <=? c) && (c <=? 57343).

Definition join_surrogates (hi lo : N) : N :=
  65536 + ((hi - 55296) * 1024 + (lo - 56320)).

(** The character a one-letter escape stands for: the quote, the
    backslash, the slash, and [b], [f], [n], [r], [t]. *)
Definition unescape (e : pychar) : option pychar :=
  if e =? 34 then Some 34
  else if e =? 92 then Some 92
  else if e =? 47 then Some 47
  else if e =? 98 then Some 8
  else if e =? 102 then Some 12
  else if e =? 110 then Some 10
  else if e =? 114 then Some 13
  else if e =? 116 then Some 9
  else None.

(** [scanstring], entered after the opening quote.  A [\uXXXX] escape
    for a high surrogate, directly followed by one for a low surrogate,
    is read as the one code point the pair encodes. *)
Fixpoint scanstring (s : pystr) : scan pystr :=
  match s with
  | [] => NoParse
  | c :: t =>
      if c =? 34 then Scanned [] t
      else if c =? 92 then
        match t with
        | [] => NoParse
        | e :: t1 =>
            if e =? 117 then
              match t1 with
              | h1 :: h2 :: h3 :: h4 :: t2 =>
                  match decode_hex4 h1 h2 h3 h4 with
                  | None => NoParse
                  | Some uni =>
                      match t2 with
                      | b :: u :: r =>
                          if is_high_surrogate uni && (b =? 92) && (u =? 117)
                          then
                            match r with
                            | g1 :: g2 :: g3 :: g4 :: t3 =>
                                match decode_hex4 g1 g2 g3 g4 with
                                | None => NoParse
                                | Some uni2 =>
                                    if is_low_surrogate uni2
                                    then scan_map (cons (join_surrogates uni uni2))
                                                  (scanstring t3)
                                    else scan_map (cons uni) (scanstring t2)
                                end
                            | _ => NoParse
                            end
                          else scan_map (cons uni) (scanstring t2)
                      | _ => scan_map (cons uni) (scanstring t2)
                      end
                  end
              | _ => NoParse
              end
            else
              match unescape e with
              | Some ch => scan_map (cons ch) (scanstring t1)
              | None => NoParse
              end
        end
      else if c <? 32 then NoParse
      else scan_map (cons c) (scanstring t)
  end.

(** The longest prefix of ASCII digits, and what follows it. *)
Fixpoint span_digits (s : pystr) : pystr * pystr :=
  match s with
  | c :: t =>
      if is_digit c then let (ds, r) := span_digits t in (c :: ds, r)
      else ([], s)
  | [] => ([], [])
  end.

(** [_match_number], group by group: an optional minus sign, *)
Definition match_sign (s : pystr) : pystr * pystr :=
  match s with
  | c :: t => if c =? 45 then ([45], t) else ([], s)
  | [] => ([], s)
  end.

(** a zero or a run of digits not starting with zero, *)
Definition match_int (s : pystr) : option (pystr * pystr) :=
  match s with
  | [] => None
  | c :: t =>
      if c =? 48 then Some ([48], t)
      else if is_digit c then let (ds, r) := span_digits t in Some (c :: ds, r)
      else None
  end.

(** a point followed by at least one digit, if there is one, *)
Definition match_frac (s : pystr) : pystr * pystr :=
  match s with
  | dot :: d :: _ =>
      if (dot =? 46) && is_digit d
      then let (fs, r) := span_digits (tl s) in (46 :: fs, r)
      else ([], s)
  | _ => ([], s)
  end.

(** and an exponent with at least one digit, if there is one. *)
Definition match_exp (s : pystr) : pystr * pystr :=
  match s with
  | e :: t =>
      if (e =? 101) || (e =? 69) then
        let (esign, t') :=
          match t with
          | sg :: t'' => if (sg =? 45) || (sg =? 43) then ([sg], t'') else ([], t)
          | [] => ([], t)
          end in
        let (es, r) := span_digits t' in
        match es with
        | [] => ([], s)
        | _ :: _ => (e :: esign ++ es, r)
        end
      else ([], s)
  | [] => ([], s)
  end.

(** The integer part, the fraction, the exponent (the last two possibly
    empty) and the rest of the input. *)
Definition match_number (s : pystr) : option (pystr * pystr * pystr * pystr) :=
  let (sign, s1) := match_sign s in
  match match_int s1 with
  | None => None
  | Some (ds, s2) =>
      let (frac, s3) := match_frac s2 in
      let (exp, s4) := match_exp s3 in
      Some (sign ++ ds, frac, exp, s4)
  end.

Fixpoint digits_uint (ds : pystr) : uint :=
  match ds with
  | [] => Nil
  | c :: t =>
      let d := digits_uint t in
      if c =? 48 then D0 d else if c =? 49 then D1 d
      else if c =? 50 then D2 d else if c =? 51 then D3 d
      else if c =? 52 then D4 d else if c =? 53 then D5 d
      else if c =? 54 then D6 d else if c =? 55 then D7 d
      else if c =? 56 then D8 d else D9 d
  end.

(** [int(lexeme)] on a lexeme accepted by [match_number]. *)
Definition parse_int (lexeme : pystr) : Z :=
  match lexeme with
  | c :: t => if c =? 45 then Z.of_int (Neg (digits_uint t))
              else Z.of_int (Pos (digits_uint lexeme))
  | [] => 0%Z
  end.

(** ** JSON values *)

Inductive json (F : Type) :=
| JNull
| JBool (b : bool)
| JInt (n : Z)
| JFloat (f : F)
| JStr (s : pystr)
| JList (items : list (json F))
| JDict (items : list (pystr * json F)).
Arguments JNull {F}.
Arguments JBool {F} b.
Arguments JInt {F} n.
Arguments JFloat {F} f.
Arguments JStr {F} s.
Arguments JList {F} items.
Arguments JDict {F} items.

Section Json.
Context {F : Type} {RT : PyRuntime F}.
Local Notation json := (json F).

(** *** Dictionaries *)

Fixpoint dict_get (d : list (pystr * json)) (k : pystr) : option json :=
  match d with
  | [] => None
  | (k', v) :: d' => if pystr_eqb k' k then Some v else dict_get d' k
  end.

(** [d[k] = v]: an existing key keeps its place. *)
Fixpoint dict_set (d : list (pystr * json)) (k : pystr) (v : json)
  : list (pystr * json) :=
  match d with
  | [] => [(k, v)]
  | (k', v') :: d' =>
      if pystr_eqb k' k then (k', v) :: d' else (k', v') :: dict_set d' k v
  end.

Definition dict_of_pairs (pairs : list (pystr * json)) : list (pystr * json) :=
  fold_left (fun d kv => dict_set d (fst kv) (snd kv)) pairs [].

(** *** json.dumps *)

(** [json.dumps(v)] with the default separators and [ensure_ascii]. *)
Fixpoint json_dumps (v : json) : pystr :=
  match v with
  | JNull => py "null"
  | JBool true => py "true"
  | JBool false => py "false"
  | JInt n => int_repr n
  | JFloat f => float_dumps f
  | JStr s => encode_basestring_ascii s
  | JList items =>
      91 :: (fix elements (l : list json) : pystr :=
               match l with
               | [] => []
               | x :: l' =>
                   json_dumps x ++
                   match l' with
                   | [] => []
                   | _ :: _ => py ", " ++ elements l'
                   end
               end) items ++ [93]
  | JDict items =>
      123 :: (fix members (l : list (pystr * json)) : pystr :=
                match l with
                | [] => []
                | (k, x) :: l' =>
                    encode_basestring_ascii k ++ py ": " ++ json_dumps x ++
                    match l' with
                    | [] => []
                    | _ :: _ => py ", " ++ members l'
                    end
                end) items ++ [125]
  end.

(** *** json.loads *)

Section Containers.
Variable scan_value : pystr -> scan json.

(** The elements of an array, entered at the first element. *)
Fixpoint parse_array_items (fuel : nat) (s : pystr) : scan (list json) :=
  match fuel with
  | O => OutOfFuel
  | S fuel' =>
      match scan_value s with
      | Scanned v r =>
          match skip_ws r with
          | c :: t =>
              if c =? 93 then Scanned [v] t
              else if c =? 44
              then scan_map (cons v) (parse_array_items fuel' (skip_ws t))
              else NoParse
          | [] => NoParse
          end
      | NoParse => NoParse
      | OutOfFuel => OutOfFuel
      end
  end.

(** [_parse_array], entered after the opening bracket. *)
Definition parse_array (fuel : nat) (s : pystr) : scan (list json) :=
  match skip_ws s with
  | c :: t => if c =? 93 then Scanned [] t
              else parse_array_items fuel (skip_ws s)
  | [] => NoParse
  end.

(** The members of an object, entered where a key is expected. *)
Fixpoint parse_object_items (fuel : nat) (s : pystr)
  : scan (list (pystr * json)) :=
  match fuel with
  | O => OutOfFuel
  | S fuel' =>
      match s with
      | q :: t0 =>
          if q =? 34 then
            match scanstring t0 with
            | Scanned key r0 =>
                match skip_ws r0 with
                | colon :: r1 =>
                    if colon =? 58 then
                      match scan_value (skip_ws r1) with
                      | Scanned v r =>
                          match skip_ws r with
                          | c :: t =>
                              if c =? 125 then Scanned [(key, v)] t
                              else if c =? 44
                              then scan_map (cons (key, v))
                                     (parse_object_items fuel' (skip_ws t))
                              else NoParse
                          | [] => NoParse
                          end
                      | NoParse => NoParse
                      | OutOfFuel => OutOfFuel
                      end
                    else NoParse
                | [] => NoParse
                end
            | NoParse => NoParse
            | OutOfFuel => OutOfFuel
            end
          else NoParse
      | [] => NoParse
      end
  end.

(** [_parse_object], entered after the opening brace. *)
Definition parse_object (fuel : nat) (s : pystr) : scan (list (pystr * json)) :=
  match skip_ws s with
  | c :: t => if c =? 125 then Scanned [] t
              else parse_object_items fuel (skip_ws s)
  | [] => NoParse
  end.

End Containers.

(** [scan_once]: one JSON value at the head of the input. *)
Fixpoint scan_once (fuel : nat) (s : pystr) : scan json :=
  match fuel with
  | O => OutOfFuel
  | S fuel' =>
      match s with
      | [] => NoParse
      | c :: t =>
          if c =? 34 then scan_map JStr (scanstring t)
          else if c =? 123
          then scan_map (fun ps => JDict (dict_of_pairs ps))
                 (parse_object (scan_once fuel') fuel' t)
          else if c =? 91
          then scan_map JList (parse_array (scan_once fuel') fuel' t)
          else if starts_with (py "null") s then Scanned JNull (skipn 4 s)
          else if starts_with (py "true") s then Scanned (JBool true) (skipn 4 s)
          else if starts_with (py "false") s then Scanned (JBool false) (skipn 5 s)
          else
            match match_number s with
            | Some (integer, frac, exp, rest) =>
                match frac ++ exp with
                | [] => Scanned (JInt (parse_int integer)) rest
                | _ :: _ =>
                    Scanned (JFloat (float_of_literal (integer ++ frac ++ exp))) rest
                end
            | None =>
                if starts_with (py "NaN") s
                then Scanned (JFloat (float_of_literal (py "NaN"))) (skipn 3 s)
                else if starts_with (py "Infinity") s
                then Scanned (JFloat (float_of_literal (py "Infinity"))) (skipn 8 s)
                else if starts_with (py "-Infinity") s
                then Scanned (JFloat (float_of_literal (py "-Infinity"))) (skipn 9 s)
                else NoParse
            end
      end
  end.

(** [json.loads(s)]: one value, surrounded by optional whitespace. *)
Definition json_loads (s : pystr) : outcome json :=
  match scan_once (S (List.length s)) (skip_ws s) with
  | Scanned v rest =>
      match skip_ws rest with
      | [] => Return v
      | _ :: _ => Raise JSONDecodeError
      end
  | NoParse => Raise JSONDecodeError
  | OutOfFuel => Raise RecursionError
  end.

(** ** Python operations on decoded values *)

Definition type_of (v : json) : pytype :=
  match v with
  | JNull => TNone
  | JBool _ => TBool
  | JInt _ => TInt
  | JFloat _ => TFloat
  | JStr _ => TStr
  | JList _ => TList
  | JDict _ => TDict
  end.

(** [bool(v)] *)
Definition py_truth (v : json) : bool :=
  match v with
  | JNull => false
  | JBool b => b
  | JInt n => negb (n =? 0)%Z
  | JFloat f => float_truth f
  | JStr s => match s with [] => false | _ :: _ => true end
  | JList l => match l with [] => false | _ :: _ => true end
  | JDict d => match d with [] => false | _ :: _ => true end
  end.

(** [v == k] for a string [k] *)
Definition py_eq_str (v : json) (k : pystr) : bool :=
  match v with
  | JStr s => pystr_eqb s k
  | _ => false
  end.

(** [k in c] for a string [k] *)
Definition py_in (k : pystr) (c : json) : outcome bool :=
  match c with
  | JDict d => Return (match dict_get d k with Some _ => true | None => false end)
  | JList l => Return (existsb (fun v => py_eq_str v k) l)
  | JStr s => Return (is_substring k s)
  | _ => Raise (TypeError OpIn [type_of c])
  end.

(** [c.get(k, default)] *)
Definition py_get (c : json) (k : pystr) (default : json) : outcome json :=
  match c with
  | JDict d => Return (match dict_get d k with Some v => v | None => default end)
  | _ => Raise (AttributeError (type_of c) (py "get"))
  end.

(** [c[k]] for a string [k] *)
Definition py_getitem (c : json) (k : pystr) : outcome json :=
  match c with
  | JDict d =>
      match dict_get d k with
      | Some v => Return v
      | None => Raise (KeyError k)
      end
  | _ => Raise (TypeError OpGetItem [type_of c; TStr])
  end.

(** [bool] is a subclass of [int]. *)
Definition as_int (v : json) : option Z :=
  match v with
  | JInt n => Some n
  | JBool b => Some (if b then 1 else 0)%Z
  | _ => None
  end.

Definition to_float (n : Z) : outcome F :=
  match float_of_int n with
  | Some x => Return x
  | None => Raise OverflowError
  end.

(** [a + b] *)
Definition py_add (a b : json) : outcome json :=
  match as_int a, as_int b with
  | Some x, Some y => Return (JInt (x + y))
  | _, _ =>
      match a, b with
      | JFloat x, JFloat y => Return (JFloat (float_add x y))
      | JFloat x, (JInt _ | JBool _) =>
          match as_int b with
          | Some n => y <- to_float n ;; Return (JFloat (float_add x y))
          | None => Raise (TypeError OpAdd [type_of a; type_of b])
          end
      | (JInt _ | JBool _), JFloat y =>
          match as_int a with
          | Some n => x <- to_float n ;; Return (JFloat (float_add x y))
          | None => Raise (TypeError OpAdd [type_of a; type_of b])
          end
      | JStr x, JStr y => Return (JStr (x ++ y))
      | JList x, JList y => Return (JList (x ++ y))
      | _, _ => Raise (TypeError OpAdd [type_of a; type_of b])
      end
  end.

(** [seq * n]: [n] copies, none when [n] is not positive. *)
Definition seq_repeat {A} (l : list A) (n : Z) : list A :=
  List.concat (repeat l (Z.to_nat n)).

(** [a * b] *)
Definition py_mul (a b : json) : outcome json :=
  match as_int a, as_int b with
  | Some x, Some y => Return (JInt (x * y))
  | Some n, None =>
      match b with
      | JFloat y => x <- to_float n ;; Return (JFloat (float_mul x y))
      | JStr s => Return (JStr (seq_repeat s n))
      | JList l => Return (JList (seq_repeat l n))
      | _ => Raise (TypeError OpMul [type_of a; type_of b])
      end
  | None, Some n =>
      match a with
      | JFloat x => y <- to_float n ;; Return (JFloat (float_mul x y))
      | JStr s => Return (JStr (seq_repeat s n))
      | JList l => Return (JList (seq_repeat l n))
      | _ => Raise (TypeError OpMul [type_of a; type_of b])
      end
  | None, None =>
      match a, b with
      | JFloat x, JFloat y => Return (JFloat (float_mul x y))
      | _, _ => Raise (TypeError OpMul [type_of a; type_of b])
      end
  end.

(** [v[::-1]] *)
Definition py_reversed (v : json) : outcome json :=
  match v with
  | JStr s => Return (JStr (List.rev s))
  | JList l => Return (JList (List.rev l))
  | _ => Raise (TypeError OpSlice [type_of v])
  end.

(** [repr(v)] *)
Fixpoint py_repr (v : json) : pystr :=
  match v with
  | JNull => py "None"
  | JBool true => py "True"
  | JBool false => py "False"
  | JInt n => int_repr n
  | JFloat f => float_repr f
  | JStr s => str_repr s
  | JList items =>
      91 :: (fix elements (l : list json) : pystr :=
               match l with
               | [] => []
               | x :: l' =>
                   py_repr x ++
                   match l' with
                   | [] => []
                   | _ :: _ => py ", " ++ elements l'
                   end
               end) items ++ [93]
  | JDict items =>
      123 :: (fix members (l : list (pystr * json)) : pystr :=
                match l with
                | [] => []
                | (k, x) :: l' =>
                    str_repr k ++ py ": " ++ py_repr x ++
                    match l' with
                    | [] => []
                    | _ :: _ => py ", " ++ members l'
                    end
                end) items ++ [125]
  end.

(** [str(v)], as an f-string formats a value *)
Definition py_str (v : json) : pystr :=
  match v with
  | JStr s => s
  | _ => py_repr v
  end.

Definition newline_indent (level : nat) : pystr := 10 :: repeat 32 (2 * level).

(** [json.dumps(v, indent=2)], at nesting depth [level] *)
Fixpoint json_dumps_indent (level : nat) (v : json) : pystr :=
  match v with
  | JList [] => py "[]"
  | JList items =>
      91 :: newline_indent (S level) ++
      (fix elements (l : list json) : pystr :=
         match l with
         | [] => []
         | x :: l' =>
             json_dumps_indent (S level) x ++
             match l' with
             | [] => []
             | _ :: _ => 44 :: newline_indent (S level) ++ elements l'
             end
         end) items ++ newline_indent level ++ [93]
  | JDict [] => py "{}"
  | JDict items =>
      123 :: newline_indent (S level) ++
      (fix members (l : list (pystr * json)) : pystr :=
         match l with
         | [] => []
         | (k, x) :: l' =>
             encode_basestring_ascii k ++ py ": " ++
             json_dumps_indent (S level) x ++
             match l' with
             | [] => []
             | _ :: _ => 44 :: newline_indent (S level) ++ members l'
             end
         end) items ++ newline_indent level ++ [125]
  | _ => json_dumps v
  end.

End Json.

(** ** The server: class [SimpleMCPServer] *)

Module Server.

Record arg_spec := { arg_type : pystr; arg_description : pystr }.

(** An entry of [self.prompts] or of [self.tools]. *)
Record entry := { description : pystr; args : list (pystr * arg_spec) }.

(** An entry of [self.resources]. *)
Record resource := { mime_type : pystr; content : pystr }.

Fixpoint assoc {A} (k : pystr) (reg : list (pystr * A)) : option A :=
  match reg with
  | [] => None
  | (k', a) :: reg' => if pystr_eqb k' k then Some a else assoc k reg'
  end.

Section Defs.
Context {F : Type} {RT : PyRuntime F}.
Local Notation json := (json F).

(** The attributes of the object, and the standard output of its process:
    one entry per [print] call. *)
Record server := {
  request_id : Z;
  running : bool;
  capabilities : json;
  resources : list (pystr * resource);
  prompts : list (pystr * entry);
  tools : list (pystr * entry);
  stdout : list pystr
}.

Definition number_arg (d : string) : arg_spec :=
  {| arg_type := py "number"; arg_description := py d |}.

Definition string_arg (d : string) : arg_spec :=
  {| arg_type := py "string"; arg_description := py d |}.

(** [__init__] *)
Definition init : server := {|
  request_id := 0;
  running := true;
  capabilities := JDict [
    (py "resources", JDict [(py "list", JDict []); (py "get", JDict [])]);
    (py "prompts", JDict [(py "list", JDict []); (py "execute", JDict [])]);
    (py "tools", JDict [(py "list", JDict []); (py "execute", JDict [])])];
  resources := [
    (py "sample_text",
     {| mime_type := py "text/plain";
        content := py "This is a sample text resource." |});
    (py "sample_image",
     {| mime_type := py "image/png";
        content := py "base64encodedimagedatawouldgohere" |})];
  prompts := [
    (py "echo",
     {| description := py "Echo the input text";
        args := [(py "text", string_arg "Text to echo")] |});
    (py "reverse",
     {| description := py "Reverse the input text";
        args := [(py "text", string_arg "Text to reverse")] |})];
  tools := [
    (py "add",
     {| description := py "Add two numbers";
        args := [(py "a", number_arg "First number");
                 (py "b", number_arg "Second number")] |});
    (py "multiply",
     {| description := py "Multiply two numbers";
        args := [(py "a", number_arg "First number");
                 (py "b", number_arg "Second number")] |})];
  stdout := []
|}.

Definition print (text : pystr) (srv : server) : server :=
  {| request_id := request_id srv; running := running srv;
     capabilities := capabilities srv; resources := resources srv;
     prompts := prompts srv; tools := tools srv;
     stdout := stdout srv ++ [text] |}.

Definition set_running (b : bool) (srv : server) : server :=
  {| request_id := request_id srv; running := b;
     capabilities := capabilities srv; resources := resources srv;
     prompts := prompts srv; tools := tools srv;
     stdout := stdout srv |}.

(** A method: it returns or raises, and leaves a server state. *)
Definition action (A : Type) := server -> outcome A * server.

Definition lift {A} (m : outcome A) : action A := fun srv => (m, srv).

Definition and_then {A B} (m : action A) (k : A -> action B) : action B :=
  fun srv =>
    match m srv with
    | (Return a, srv') => k a srv'
    | (Raise e, srv') => (Raise e, srv')
    end.

(** The envelope of a successful response. *)
Definition result_response (id result : json) : pystr :=
  json_dumps (JDict [(py "jsonrpc", JStr (py "2.0")); (py "id", id);
                     (py "result", result)]).

Definition create_error_response (id : json) (code : Z) (message : pystr)
  : pystr :=
  json_dumps (JDict [(py "jsonrpc", JStr (py "2.0")); (py "id", id);
                     (py "error", JDict [(py "code", JInt code);
                                         (py "message", JStr message)])]).

Definition args_json (a : list (pystr * arg_spec)) : json :=
  JDict (map (fun kv =>
                (fst kv, JDict [(py "type", JStr (arg_type (snd kv)));
                                (py "description",
                                 JStr (arg_description (snd kv)))])) a).

(** [k in registry], then [registry[k]]: a list or a dict cannot be
    hashed, and no other value equals a string key. *)
Definition registry_find {A} (reg : list (pystr * A)) (k : json)
  : outcome (option A) :=
  match k with
  | JStr s => Return (assoc s reg)
  | JList _ | JDict _ => Raise (TypeError OpHash [type_of k])
  | _ => Return None
  end.

(** The argument check of the two execute handlers: the first declared
    name that is not [in args]. *)
Fixpoint missing_argument (names : list pystr) (args : json)
  : outcome (option pystr) :=
  match names with
  | [] => Return None
  | arg_name :: names' =>
      present <- py_in arg_name args ;;
      if present then missing_argument names' args else Return (Some arg_name)
  end.

Definition handle_initialize (id params : json) : action pystr := fun srv =>
  match (client_capabilities <- py_get params (py "capabilities") (JDict []) ;;
         client_info <- py_get params (py "clientInfo") (JDict []) ;;
         name <- py_get client_info (py "name") (JStr (py "Unknown")) ;;
         version <- py_get client_info (py "version") (JStr (py "Unknown")) ;;
         Return (client_capabilities, name, version)) with
  | Raise e => (Raise e, srv)
  | Return (client_capabilities, name, version) =>
      let srv1 :=
        print (py "Client connected: " ++ py_str name ++ py " " ++ py_str version)
              srv in
      let srv2 :=
        print (py "Client capabilities: " ++ json_dumps_indent 0 client_capabilities)
              srv1 in
      (Return (result_response id
                 (JDict [(py "capabilities", capabilities srv);
                         (py "serverInfo",
                          JDict [(py "name", JStr (py "Simple MCP Server"));
                                 (py "version", JStr (py "1.0.0"))])])),
       srv2)
  end.

Definition handle_shutdown (id params : json) : action pystr := fun srv =>
  (Return (result_response id (JDict [])), set_running false srv).

Definition handle_resources_list (srv : server) (id params : json)
  : outcome pystr :=
  let resources_list :=
    map (fun kv => JDict [(py "uri", JStr (fst kv));
                          (py "type", JStr (mime_type (snd kv)))])
        (resources srv) in
  Return (result_response id (JDict [(py "resources", JList resources_list)])).

Definition handle_resources_get (srv : server) (id params : json)
  : outcome pystr :=
  uri <- py_get params (py "uri") JNull ;;
  let not_found :=
    create_error_response id (-32602) (py "Resource not found: " ++ py_str uri) in
  if negb (py_truth uri) then Return not_found
  else
    found <- registry_find (resources srv) uri ;;
    match found with
    | None => Return not_found
    | Some resource =>
        Return (result_response id
                  (JDict [(py "uri", uri);
                          (py "type", JStr (mime_type resource));
                          (py "content", JStr (content resource))]))
    end.

Definition handle_prompts_list (srv : server) (id params : json)
  : outcome pystr :=
  let prompts_list :=
    map (fun kv => JDict [(py "id", JStr (fst kv));
                          (py "description", JStr (description (snd kv)));
                          (py "args", args_json (args (snd kv)))])
        (prompts srv) in
  Return (result_response id (JDict [(py "prompts", JList prompts_list)])).

(** The block [# Execute prompt] of [handle_prompts_execute]. *)
Definition run_prompt (prompt_id args : json) : outcome json :=
  if py_eq_str prompt_id (py "echo") then py_getitem args (py "text")
  else if py_eq_str prompt_id (py "reverse")
  then text <- py_getitem args (py "text") ;; py_reversed text
  else Return (JStr (py "Unknown prompt")).

Definition handle_prompts_execute (srv : server) (id params : json)
  : outcome pystr :=
  prompt_id <- py_get params (py "id") JNull ;;
  args <- py_get params (py "args") (JDict []) ;;
  let not_found :=
    create_error_response id (-32602) (py "Prompt not found: " ++ py_str prompt_id) in
  if negb (py_truth prompt_id) then Return not_found
  else
    found <- registry_find (prompts srv) prompt_id ;;
    match found with
    | None => Return not_found
    | Some prompt =>
        missing <- missing_argument (map fst (Server.args prompt)) args ;;
        match missing with
        | Some arg_name =>
            Return (create_error_response id (-32602)
                      (py "Missing argument: " ++ arg_name))
        | None =>
            result <- run_prompt prompt_id args ;;
            Return (result_response id (JDict [(py "result", result)]))
        end
    end.

Definition handle_tools_list (srv : server) (id params : json)
  : outcome pystr :=
  let tools_list :=
    map (fun kv => JDict [(py "id", JStr (fst kv));
                          (py "description", JStr (description (snd kv)));
                          (py "args", args_json (args (snd kv)))])
        (tools srv) in
  Return (result_response id (JDict [(py "tools", JList tools_list)])).

(** The block [# Execute tool] of [handle_tools_execute]. *)
Definition run_tool (tool_id args : json) : outcome json :=
  if py_eq_str tool_id (py "add")
  then a <- py_getitem args (py "a") ;;
       b <- py_getitem args (py "b") ;; py_add a b
  else if py_eq_str tool_id (py "multiply")
  then a <- py_getitem args (py "a") ;;
       b <- py_getitem args (py "b") ;; py_mul a b
  else Return (JStr (py "Unknown tool")).

Definition handle_tools_execute (srv : server) (id params : json)
  : outcome pystr :=
  tool_id <- py_get params (py "id") JNull ;;
  args <- py_get params (py "args") (JDict []) ;;
  let not_found :=
    create_error_response id (-32602) (py "Tool not found: " ++ py_str tool_id) in
  if negb (py_truth tool_id) then Return not_found
  else
    found <- registry_find (tools srv) tool_id ;;
    match found with
    | None => Return not_found
    | Some tool =>
        missing <- missing_argument (map fst (Server.args tool)) args ;;
        match missing with
        | Some arg_name =>
            Return (create_error_response id (-32602)
                      (py "Missing argument: " ++ arg_name))
        | None =>
            result <- run_tool tool_id args ;;
            Return (result_response id (JDict [(py "result", result)]))
        end
    end.

(** The [if]/[elif] chain of [handle_request] over the method name.
    Every branch of the source begins by evaluating [request["id"]]: it
    is evaluated once by [dispatch], before the chain, and passed as [id]. *)
Definition route (method id params : json) : action pystr :=
  if py_eq_str method (py "initialize") then handle_initialize id params
  else if py_eq_str method (py "shutdown") then handle_shutdown id params
  else if py_eq_str method (py "resources/list")
  then fun srv => (handle_resources_list srv id params, srv)
  else if py_eq_str method (py "resources/get")
  then fun srv => (handle_resources_get srv id params, srv)
  else if py_eq_str method (py "prompts/list")
  then fun srv => (handle_prompts_list srv id params, srv)
  else if py_eq_str method (py "prompts/execute")
  then fun srv => (handle_prompts_execute srv id params, srv)
  else if py_eq_str method (py "tools/list")
  then fun srv => (handle_tools_list srv id params, srv)
  else if py_eq_str method (py "tools/execute")
  then fun srv => (handle_tools_execute srv id params, srv)
  else lift (Return (create_error_response id (-32601)
                       (py "Method not found: " ++ py_str method))).

(** The body of the [try] of [handle_request]. *)
Definition dispatch (request_str : pystr) : action pystr :=
  and_then (lift (json_loads request_str)) (fun request =>
  and_then (lift (py_in (py "method") request)) (fun has_method =>
  if negb has_method then
    lift (id <- py_get request (py "id") JNull ;;
          Return (create_error_response id (-32600) (py "Invalid Request")))
  else
    and_then (lift (py_getitem request (py "method"))) (fun method =>
    and_then (lift (py_get request (py "params") (JDict []))) (fun params =>
    and_then (lift (py_getitem request (py "id"))) (fun id =>
    route method id params))))).

(** [handle_request]: the [try] and its two [except] clauses. *)
Definition handle_request (request_str : pystr) (srv : server)
  : pystr * server :=
  match dispatch request_str srv with
  | (Return response, srv') => (response, srv')
  | (Raise JSONDecodeError, srv') =>
      (create_error_response JNull (-32700) (py "Parse error"), srv')
  | (Raise e, srv') =>
      (create_error_response JNull (-32603) (py "Internal error: " ++ exn_str e),
       srv')
  end.

(** The [while self.running] loop of [run] on the lines still to come on
    standard input; [input()] raises EOFError when there are none left.
    It returns the final state and the lines it has not read. *)
Fixpoint run_loop (srv : server) (stdin : list pystr) : server * list pystr :=
  if running srv then
    match stdin with
    | [] => (srv, [])
    | request_str :: stdin' =>
        let (response_str, srv') := handle_request request_str srv in
        run_loop (print response_str srv') stdin'
    end
  else (srv, stdin).

Definition run (srv : server) (stdin : list pystr) : server * list pystr :=
  let srv0 := print (py "Waiting for requests...")
                (print (py "Simple MCP Server started") srv) in
  let (srv1, unread) := run_loop srv0 stdin in
  (print (py "Simple MCP Server stopped") srv1, unread).

End Defs.
End Server.

(** ** The client: class [MCPClientSimulator] *)

Module Client.
Section Defs.
Context {F : Type} {RT : PyRuntime F}.
Local Notation json := (json F).

(** The attributes of the object and its two streams: what has been
    written to [writer], and the lines [reader.readline()] is still to
    deliver, each with its line terminator, as text. *)
Record client := {
  server_url : option pystr;
  transport : pystr;
  request_id : Z;
  capabilities : json;
  connected : bool;
  server_capabilities : option json;
  writer : list pystr;
  reader : list pystr
}.

(** [__init__], given the peer's future lines *)
Definition init (server_url : option pystr) (transport : pystr)
  (incoming : list pystr) : client := {|
  server_url := server_url;
  transport := transport;
  request_id := 0;
  capabilities := JDict [(py "resources", JDict []); (py "prompts", JDict []);
                         (py "tools", JDict []); (py "sampling", JDict [])];
  connected := false;
  server_capabilities := None;
  writer := [];
  reader := incoming
|}.

Definition set_request_id (n : Z) (c : client) : client :=
  {| server_url := server_url c; transport := transport c; request_id := n;
     capabilities := capabilities c; connected := connected c;
     server_capabilities := server_capabilities c;
     writer := writer c; reader := reader c |}.

Definition set_streams (w r : list pystr) (c : client) : client :=
  {| server_url := server_url c; transport := transport c;
     request_id := request_id c; capabilities := capabilities c;
     connected := connected c; server_capabilities := server_capabilities c;
     writer := w; reader := r |}.

Definition set_connected (b : bool) (caps : option json) (c : client) : client :=
  {| server_url := server_url c; transport := transport c;
     request_id := request_id c; capabilities := capabilities c;
     connected := b; server_capabilities := caps;
     writer := writer c; reader := reader c |}.

Definition next_id (c : client) : Z * client :=
  let c' := set_request_id (request_id c + 1) c in
  (request_id c', c').

(** [send_request]; [None] is Python's [None]. *)
Definition send_request (request : json) (c : client)
  : outcome (option json) * client :=
  let request_str := json_dumps request ++ [10] in
  if pystr_eqb (transport c) (py "stdio") then
    let sent := writer c ++ [request_str] in
    match reader c with
    | [] => (Return None, set_streams sent [] c)
    | response_line :: incoming =>
        let c' := set_streams sent incoming c in
        match response_line with
        | [] => (Return None, c')
        | _ :: _ =>
            match json_loads response_line with
            | Return response => (Return (Some response), c')
            | Raise JSONDecodeError => (Return None, c')
            | Raise e => (Raise e, c')
            end
        end
    end
  else
    (Raise (NotImplementedError (py "HTTP/SSE transport not yet implemented")), c).

(** The request every caller of [send_request] builds. *)
Definition make_request (id : Z) (method : string) (params : json) : json :=
  JDict [(py "jsonrpc", JStr (py "2.0")); (py "id", JInt id);
         (py "method", JStr (py method)); (py "params", params)].

(** [response and "result" in response], for a decoded response *)
Definition has_result (response : option json) : outcome bool :=
  match response with
  | None => Return false
  | Some r => if py_truth r then py_in (py "result") r else Return false
  end.

Definition execute_tool (id : pystr) (args : option json) (c : client)
  : outcome (option json) * client :=
  if negb (connected c) then (Return None, c)
  else
    let (n, c1) := next_id c in
    let request :=
      make_request n "tools/execute"
        (JDict [(py "id", JStr id);
                (py "args", match args with
                            | Some a => if py_truth a then a else JDict []
                            | None => JDict []
                            end)]) in
    match send_request request c1 with
    | (Raise e, c2) => (Raise e, c2)
    | (Return response, c2) =>
        match (ok <- has_result response ;;
               if ok then
                 match response with
                 | Some r => result <- py_getitem r (py "result") ;;
                             Return (Some result)
                 | None => Return None
                 end
               else Return None) with
        | Raise e => (Raise e, c2)
        | Return result => (Return result, c2)
        end
    end.

(** What the methods above [send_request] raise: an exception of the
    calls below them, or the TypeError of [len] on a value without
    length, in the log line of the three list methods. *)
Inductive failure :=
| Exn (e : pyexn)
| LenTypeError (t : pytype).

Inductive reply (A : Type) :=
| Reply (a : A)
| Fail (f : failure).
Arguments Reply {A} a.
Arguments Fail {A} f.

Definition of_outcome {A} (o : outcome A) : reply A :=
  match o with
  | Return a => Reply a
  | Raise e => Fail (Exn e)
  end.

(** Whether [len(v)] is defined. *)
Definition has_len (v : json) : bool :=
  match v with
  | JStr _ | JList _ | JDict _ => true
  | _ => false
  end.

(** [initialize] *)
Definition initialize (c : client) : outcome bool * client :=
  let (n, c1) := next_id c in
  let initialize_request :=
    make_request n "initialize"
      (JDict [(py "capabilities", capabilities c);
              (py "clientInfo",
               JDict [(py "name", JStr (py "MCP Client Simulator"));
                      (py "version", JStr (py "1.0.0"))])]) in
  match send_request initialize_request c1 with
  | (Raise e, c2) => (Raise e, c2)
  | (Return response, c2) =>
      match has_result response with
      | Raise e => (Raise e, c2)
      | Return false => (Return false, c2)
      | Return true =>
          match response with
          | None => (Return false, c2)
          | Some r =>
              match (result <- py_getitem r (py "result") ;;
                     py_getitem result (py "capabilities")) with
              | Raise e => (Raise e, c2)
              | Return caps => (Return true, set_connected true (Some caps) c2)
              end
          end
      end
  end.

(** [connect]; the two streams are those the client was created with. *)
Definition connect (c : client) : outcome unit * client :=
  if pystr_eqb (transport c) (py "stdio") then
    match initialize c with
    | (Return _, c') => (Return tt, c')
    | (Raise e, c') => (Raise e, c')
    end
  else
    (Raise (NotImplementedError (py "HTTP/SSE transport not yet implemented")), c).

(** The body shared by [list_resources], [list_prompts] and [list_tools]:
    the method to call and the member of the result to return. *)
Definition list_call (method : string) (member : string) (c : client)
  : reply json * client :=
  if negb (connected c) then (Reply (JList []), c)
  else
    let (n, c1) := next_id c in
    let request := make_request n method (JDict []) in
    match send_request request c1 with
    | (Raise e, c2) => (Fail (Exn e), c2)
    | (Return response, c2) =>
        match has_result response with
        | Raise e => (Fail (Exn e), c2)
        | Return false => (Reply (JList []), c2)
        | Return true =>
            match response with
            | None => (Reply (JList []), c2)
            | Some r =>
                match (result <- py_getitem r (py "result") ;;
                       py_getitem result (py member)) with
                | Raise e => (Fail (Exn e), c2)
                | Return listed =>
                    if has_len listed then (Reply listed, c2)
                    else (Fail (LenTypeError (type_of listed)), c2)
                end
            end
        end
    end.

Definition list_resources : client -> reply json * client :=
  list_call "resources/list" "resources".

Definition list_prompts : client -> reply json * client :=
  list_call "prompts/list" "prompts".

Definition list_tools : client -> reply json * client :=
  list_call "tools/list" "tools".

(** The body shared by [get_resource], [execute_prompt] and
    [execute_tool]: the method to call and its params. *)
Definition result_call (method : string) (params : json) (c : client)
  : outcome (option json) * client :=
  if negb (connected c) then (Return None, c)
  else
    let (n, c1) := next_id c in
    let request := make_request n method params in
    match send_request request c1 with
    | (Raise e, c2) => (Raise e, c2)
    | (Return response, c2) =>
        match (ok <- has_result response ;;
               if ok then
                 match response with
                 | Some r => result <- py_getitem r (py "result") ;;
                             Return (Some result)
                 | None => Return None
                 end
               else Return None) with
        | Raise e => (Raise e, c2)
        | Return result => (Return result, c2)
        end
    end.

Definition get_resource (uri : pystr) : client -> outcome (option json) * client :=
  result_call "resources/get" (JDict [(py "uri", JStr uri)]).

(** [args or {}] *)
Definition args_or_empty (args : option json) : json :=
  match args with
  | Some a => if py_truth a then a else JDict []
  | None => JDict []
  end.

Definition execute_prompt (id : pystr) (args : option json)
  : client -> outcome (option json) * client :=
  result_call "prompts/execute"
    (JDict [(py "id", JStr id); (py "args", args_or_empty args)]).

(** [shutdown] *)
Definition shutdown (c : client) : outcome unit * client :=
  if negb (connected c) then (Return tt, c)
  else
    let (n, c1) := next_id c in
    let request := make_request n "shutdown" (JDict []) in
    match send_request request c1 with
    | (Raise e, c2) => (Raise e, c2)
    | (Return _, c2) =>
        (Return tt, set_connected false (server_capabilities c2) c2)
    end.

(** [main] without [--interactive]: what it prints besides the requests,
    one entry per [print] call, and the exception it ends on if any.  The
    [finally] clause runs [shutdown] on every path. *)
Definition main (server_url : option pystr) (transport : pystr)
  (incoming : list pystr) : reply unit * list pystr * client :=
  let c0 := init server_url transport incoming in
  let finally (r : reply unit) (printed : list pystr) (c : client) :=
    match shutdown c with
    | (Return _, c') => (r, printed, c')
    | (Raise e, c') => (Fail (Exn e), printed, c')
    end in
  match connect c0 with
  | (Raise e, c1) => finally (Fail (Exn e)) [] c1
  | (Return _, c1) =>
      match list_resources c1 with
      | (Fail f, c2) => finally (Fail f) [] c2
      | (Reply resources, c2) =>
          let p1 := [py "Resources:"; json_dumps_indent 0 resources] in
          match list_prompts c2 with
          | (Fail f, c3) => finally (Fail f) p1 c3
          | (Reply prompts, c3) =>
              let p2 := p1 ++ [10 :: py "Prompts:"; json_dumps_indent 0 prompts] in
              match list_tools c3 with
              | (Fail f, c4) => finally (Fail f) p2 c4
              | (Reply tools, c4) =>
                  finally (Reply tt)
                    (p2 ++ [10 :: py "Tools:"; json_dumps_indent 0 tools]) c4
              end
          end
      end
  end.

End Defs.

Arguments Reply {A} a.
Arguments Fail {A} f.

End Client.

(** * Vocabulary of the statements *)

Section CodecVocabulary.
Context {F : Type} {RT : PyRuntime F}.
Local Notation json := (json F).

(** A scan of [s] that ends, ends on a strict suffix of [s]. *)
Definition consumes {A} (r : scan A) (s : pystr) : Prop :=
  match r with
  | Scanned _ rest => (List.length rest < List.length s)%nat
  | NoParse => True
  | OutOfFuel => False
  end.

(** The strings that survive: code points of Python (below 0x110000), and
    no high surrogate directly before a low one. *)
Fixpoint no_surrogate_pair (s : pystr) : bool :=
  match s with
  | c :: t =>
      match t with
      | d :: _ => negb (is_high_surrogate c && is_low_surrogate d)
      | [] => true
      end && no_surrogate_pair t
  | [] => true
  end.

Definition valid_str (s : pystr) : bool :=
  forallb (fun c => c <? 1114112) s && no_surrogate_pair s.

(** Whether the input begins with the escape of a low surrogate, or with
    an escape [scanstring] would refuse. *)
Definition low_escape_ahead (x : pystr) : bool :=
  match x with
  | b :: u :: r =>
      (b =? 92) && (u =? 117) &&
      match r with
      | g1 :: g2 :: g3 :: g4 :: _ =>
          match decode_hex4 g1 g2 g3 g4 with
          | Some uni2 => is_low_surrogate uni2
          | None => true
          end
      | _ => true
      end
  | _ => false
  end.

(** What may follow a number for it to be read whole. *)
Definition delimited (rest : pystr) : bool :=
  match rest with
  | [] => true
  | c :: _ => negb (is_digit c || (c =? 46) || (c =? 101) || (c =? 69))
  end.

Fixpoint dumps_elements (l : list json) : pystr :=
  match l with
  | [] => []
  | x :: l' =>
      json_dumps x ++
      match l' with
      | [] => []
      | _ :: _ => py ", " ++ dumps_elements l'
      end
  end.

Fixpoint dumps_members (l : list (pystr * json)) : pystr :=
  match l with
  | [] => []
  | (k, x) :: l' =>
      encode_basestring_ascii k ++ py ": " ++ json_dumps x ++
      match l' with
      | [] => []
      | _ :: _ => py ", " ++ dumps_members l'
      end
  end.

Definition distinct_keys (d : list (pystr * json)) : bool :=
  (fix go (d : list (pystr * json)) : bool :=
     match d with
     | [] => true
     | (k, _) :: d' =>
         match dict_get d' k with Some _ => false | None => true end && go d'
     end) d.

(** The documents that survive: no float, strings as in [valid_str], and
    in every dict distinct keys. *)
Fixpoint wire_safe (v : json) : bool :=
  match v with
  | JNull | JBool _ | JInt _ => true
  | JFloat _ => false
  | JStr s => valid_str s
  | JList items =>
      (fix all (l : list json) : bool :=
         match l with
         | [] => true
         | x :: l' => wire_safe x && all l'
         end) items
  | JDict items =>
      distinct_keys items &&
      (fix all (l : list (pystr * json)) : bool :=
         match l with
         | [] => true
         | (k, x) :: l' => valid_str k && wire_safe x && all l'
         end) items
  end.

Fixpoint json_induction (P : json -> Prop)
  (Hnull : P JNull) (Hbool : forall b, P (JBool b))
  (Hint : forall n, P (JInt n)) (Hfloat : forall f, P (JFloat f))
  (Hstr : forall s, P (JStr s))
  (Hlist : forall l, Forall P l -> P (JList l))
  (Hdict : forall d, Forall (fun kv => P (snd kv)) d -> P (JDict d))
  (v : json) {struct v} : P v :=
  match v with
  | JNull => Hnull
  | JBool b => Hbool b
  | JInt n => Hint n
  | JFloat f => Hfloat f
  | JStr s => Hstr s
  | JList l =>
      Hlist l
        ((fix go (l : list json) : Forall P l :=
            match l with
            | [] => Forall_nil P
            | x :: l' =>
                Forall_cons x
                  (json_induction P Hnull Hbool Hint Hfloat Hstr Hlist Hdict x)
                  (go l')
            end) l)
  | JDict d =>
      Hdict d
        ((fix go (d : list (pystr * json))
            : Forall (fun kv => P (snd kv)) d :=
            match d with
            | [] => Forall_nil _
            | kv :: d' =>
                Forall_cons kv
                  (json_induction P Hnull Hbool Hint Hfloat Hstr Hlist Hdict
                     (snd kv))
                  (go d')
            end) d)
  end.

(** A character a document can start with: not a blank, not a closing
    bracket. *)
Definition value_start (c : pychar) : bool := negb (is_ws c) && negb (c =? 93).

(** The statement proved of each document, by induction on it. *)
Definition reads_back (v : json) : Prop :=
  wire_safe v = true ->
  forall (fuel : nat) (rest : pystr),
    (List.length (json_dumps v) <= fuel)%nat ->
    delimited rest = true ->
    scan_once fuel (json_dumps v ++ rest) = Scanned v rest.

End CodecVocabulary.

Section ServerVocabulary.
Context {F : Type} {RT : PyRuntime F}.
Local Notation json := (json F).
Import Server.
Local Notation server := (@server F).

(** The method names [route] knows. *)
Definition known_methods : list pystr :=
  [py "initialize"; py "shutdown"; py "resources/list"; py "resources/get";
   py "prompts/list"; py "prompts/execute"; py "tools/list"; py "tools/execute"].

(** [request.get("params", {})] on the members of a request *)
Definition params_of (items : list (pystr * json)) : json :=
  match dict_get items (py "params") with
  | Some p => p
  | None => JDict []
  end.

(** The two envelopes a response can be. *)
Inductive envelope : pystr -> Prop :=
| envelope_result (id result : json) : envelope (result_response id result)
| envelope_error (id : json) (code : Z) (message : pystr) :
    envelope (create_error_response id code message).

Definition has_member (k : string) (v : json) : bool :=
  match v with
  | JDict d => match dict_get d (py k) with Some _ => true | None => false end
  | _ => false
  end.

(** A response object with exactly one of [result] and [error]. *)
Definition exactly_one_payload (v : json) : bool :=
  xorb (has_member "result" v) (has_member "error" v).

(** What a handler may do for [handle_request] to answer well: return an
    envelope, or raise something the second [except] clause takes. *)
Definition handled (o : outcome pystr) : Prop :=
  match o with
  | Return r => envelope r
  | Raise e => e <> JSONDecodeError
  end.

Definition raises_safely {A} (o : outcome A) : Prop :=
  match o with
  | Return _ => True
  | Raise e => e <> JSONDecodeError
  end.

(** The name [missing_argument] reports on a dict: the first declared
    name that is not a key. *)
Definition first_absent (names : list pystr) (d : list (pystr * json))
  : option pystr :=
  find (fun n => match dict_get d n with Some _ => false | None => true end)
       names.

(** [request.get("args", {})] on the members of [params] *)
Definition args_of (pitems : list (pystr * json)) : json :=
  match dict_get pitems (py "args") with
  | Some a => a
  | None => JDict []
  end.

(** The two execute methods, their registries and their execute blocks. *)
Inductive execute_kind := Tools | Prompts.

Definition execute_method (kind : execute_kind) : pystr :=
  match kind with
  | Tools => py "tools/execute"
  | Prompts => py "prompts/execute"
  end.

Definition registry (kind : execute_kind) (srv : server) : list (pystr * entry) :=
  match kind with
  | Tools => tools srv
  | Prompts => prompts srv
  end.

Definition run_entry (kind : execute_kind) : json -> json -> outcome json :=
  match kind with
  | Tools => run_tool
  | Prompts => run_prompt
  end.

(** A line that is not a request: not JSON, not an object, or an object
    without a method. *)
Definition malformed (request_str : pystr) : Prop :=
  match json_loads request_str with
  | Return (JDict items) => dict_get items (py "method") = None
  | _ => True
  end.

(** What a reader of a response line finds in it: the code of its error,
    and its id. *)
Definition error_code (response_str : pystr) : option Z :=
  match json_loads response_str with
  | Return (JDict d) =>
      match dict_get d (py "error") with
      | Some (JDict e) =>
          match dict_get e (py "code") with
          | Some (JInt code) => Some code
          | _ => None
          end
      | _ => None
      end
  | _ => None
  end.

Definition response_id (response_str : pystr) : option json :=
  match json_loads response_str with
  | Return (JDict d) => dict_get d (py "id")
  | _ => None
  end.

End ServerVocabulary.

Section ClientVocabulary.
Context {F : Type} {RT : PyRuntime F}.
Local Notation json := (json F).
Import Client.
Local Notation client := (@client F).

(** What a caller does with a client, as far as ids are concerned. *)
Inductive call :=
| NextId
| SendRequest (request : json).

(** A run of calls; the ids [next_id] returned, in order. *)
Fixpoint session (calls : list call) (c : client) : list Z * client :=
  match calls with
  | [] => ([], c)
  | NextId :: calls' =>
      let (n, c1) := next_id c in
      let (ids, c2) := session calls' c1 in
      (n :: ids, c2)
  | SendRequest request :: calls' => session calls' (snd (send_request request c))
  end.

Definition allocations (calls : list call) : nat :=
  List.length (filter (fun x => match x with NextId => true | _ => false end)
                      calls).

(** A caller sending requests one after the other; what each call of
    [send_request] gave back. *)
Fixpoint exchange (requests : list json) (c : client)
  : list (outcome (option json)) * client :=
  match requests with
  | [] => ([], c)
  | request :: requests' =>
      let (answer, c1) := send_request request c in
      let (answers, c2) := exchange requests' c1 in
      (answer :: answers, c2)
  end.

(** The [id] member of a message *)
Definition message_id (v : json) : option json :=
  match v with
  | JDict d => dict_get d (py "id")
  | _ => None
  end.

End ClientVocabulary.

(** * Examples

    The requests of the scenarios, as the client builds them, on an
    interpreter whose floats play no part. *)

Module Examples.

Definition J : Type := json unit.

Definition add_args (a b : J) : J :=
  JDict [(py "id", JStr (py "add"));
         (py "args", JDict [(py "a", a); (py "b", b)])].

(** Scenario A: add 2 and 3 *)
Definition add_2_3 : J :=
  Client.make_request 1 "tools/execute" (add_args (JInt 2) (JInt 3)).

(** Scenario B: add without [b] *)
Definition add_without_b : J :=
  Client.make_request 2 "tools/execute"
    (JDict [(py "id", JStr (py "add")); (py "args", JDict [(py "a", JInt 2)])]).

(** Scenario C: a method no handler has *)
Definition nonexistent : J :=
  Client.make_request 3 "nonexistent" (JDict []).

(** Scenario D: a line that is not JSON *)
Definition garbage : pystr := py "{not json".

(** The same method in a request without id *)
Definition nonexistent_without_id : J :=
  JDict [(py "jsonrpc", JStr (py "2.0")); (py "method", JStr (py "nonexistent"));
         (py "params", JDict [])].

(** add on two texts, and on a number and a text *)
Definition add_texts : J :=
  Client.make_request 4 "tools/execute"
    (add_args (JStr (py "2")) (JStr (py "x"))).

Definition add_number_text : J :=
  Client.make_request 5 "tools/execute" (add_args (JInt 2) (JStr (py "x"))).

Definition shutdown : J := Client.make_request 6 "shutdown" (JDict []).

(** reverse on a text of two code points: a low surrogate, then a high one *)
Definition reverse_surrogates : J :=
  Client.make_request 7 "prompts/execute"
    (JDict [(py "id", JStr (py "reverse"));
            (py "args", JDict [(py "text", JStr [56832; 55357])])]).

(** A response with id 2 *)
Definition response_2 : J :=
  JDict [(py "jsonrpc", JStr (py "2.0")); (py "id", JInt 2);
         (py "result", JDict [])].

Definition members (v : J) : list (pystr * J) :=
  match v with
  | JDict d => d
  | _ => []
  end.

Definition add_entry : Server.entry :=
  {| Server.description := py "Add two numbers";
     Server.args := [(py "a", Server.number_arg "First number");
                     (py "b", Server.number_arg "Second number")] |}.

End Examples.

(** * Vocabulary of the further statements *)

Section ServerVocabularyMore.
Context {F : Type} {RT : PyRuntime F}.
Local Notation json := (json F).
Import Server.
Local Notation server := (@server F).

(** What [__init__] sets and no method assigns again. *)
Definition same_tables (srv srv' : server) : Prop :=
  request_id srv = request_id srv' /\
  capabilities srv = capabilities srv' /\
  resources srv = resources srv' /\
  prompts srv = prompts srv' /\
  tools srv = tools srv'.

(** The method a line asks for, when it is a request. *)
Definition method_of (request_str : pystr) : option json :=
  match json_loads request_str with
  | Return (JDict items) => dict_get items (py "method")
  | _ => None
  end.

Definition is_shutdown (request_str : pystr) : Prop :=
  method_of request_str = Some (JStr (py "shutdown")).

(** A printable ASCII character. *)
Definition printable (c : pychar) : bool := (32 <=? c) && (c <=? 126).

(** The methods whose handlers read [params]. *)
Definition param_readers : list pystr :=
  [py "initialize"; py "resources/get"; py "prompts/execute"; py "tools/execute"].

(** What is said of an identifier that is not found. *)
Definition not_found_prefix (kind : execute_kind) : pystr :=
  match kind with
  | Tools => py "Tool not found: "
  | Prompts => py "Prompt not found: "
  end.

(** [params.get(key)] on the members of [params] *)
Definition param (pitems : list (pystr * json)) (key : string) : json :=
  match dict_get pitems (py key) with
  | Some v => v
  | None => JNull
  end.

(** The methods whose handlers never look at [params]. *)
Definition param_ignorers : list pystr :=
  [py "shutdown"; py "resources/list"; py "prompts/list"; py "tools/list"].

(** Whether a line makes the loop of [run] stop: a request for the
    shutdown method that carries an id. *)
Definition stops (request_str : pystr) : bool :=
  match json_loads request_str with
  | Return (JDict items) =>
      match dict_get items (py "method"), dict_get items (py "id") with
      | Some method, Some _ => py_eq_str method (py "shutdown")
      | _, _ => false
      end
  | _ => false
  end.

(** The lines up to and including the first that stops the loop. *)
Fixpoint until_stop (stdin : list pystr) : list pystr :=
  match stdin with
  | [] => []
  | line :: stdin' => line :: (if stops line then [] else until_stop stdin')
  end.

(** What is printed for a line: what its handler logs, then the
    response. *)
Definition printed_for (srv : server) (request_str : pystr) : list pystr :=
  skipn (List.length (stdout srv)) (stdout (snd (handle_request request_str srv)))
  ++ [fst (handle_request request_str srv)].

(** The result of a successful add or multiply. *)
Definition arithmetic (target : pystr) (x y : Z) : Z :=
  if pystr_eqb target (py "add") then (x + y)%Z else (x * y)%Z.

End ServerVocabularyMore.

Section ClientVocabularyMore.
Context {F : Type} {RT : PyRuntime F}.
Local Notation json := (json F).
Import Client.
Local Notation client := (@client F).

(** The methods of the client that send a request when connected. *)
Inductive api :=
| ListResources
| GetResource (uri : pystr)
| ListPrompts
| ExecutePrompt (id : pystr) (args : option json)
| ListTools
| ExecuteTool (id : pystr) (args : option json)
| Shutdown.

(** The client after a call, whatever the call returned or raised. *)
Definition after (a : api) (c : client) : client :=
  match a with
  | ListResources => snd (list_resources c)
  | GetResource uri => snd (get_resource uri c)
  | ListPrompts => snd (list_prompts c)
  | ExecutePrompt id args => snd (execute_prompt id args c)
  | ListTools => snd (list_tools c)
  | ExecuteTool id args => snd (execute_tool id args c)
  | Shutdown => snd (shutdown c)
  end.

(** The request a call sends under the id [n]. *)
Definition request_of (a : api) (n : Z) : json :=
  match a with
  | ListResources => make_request n "resources/list" (JDict [])
  | GetResource uri => make_request n "resources/get" (JDict [(py "uri", JStr uri)])
  | ListPrompts => make_request n "prompts/list" (JDict [])
  | ExecutePrompt id args =>
      make_request n "prompts/execute"
        (JDict [(py "id", JStr id); (py "args", args_or_empty args)])
  | ListTools => make_request n "tools/list" (JDict [])
  | ExecuteTool id args =>
      make_request n "tools/execute"
        (JDict [(py "id", JStr id); (py "args", args_or_empty args)])
  | Shutdown => make_request n "shutdown" (JDict [])
  end.

(** A caller making calls one after the other. *)
Definition after_all (calls : list api) (c : client) : client :=
  fold_left (fun c a => after a c) calls c.

(** The lines [calls] send from the id after [n] on. *)
Fixpoint lines_of (calls : list api) (n : Z) : list pystr :=
  match calls with
  | [] => []
  | a :: calls' =>
      (json_dumps (request_of a (n + 1)) ++ [10]) :: lines_of calls' (n + 1)
  end.

Definition is_shutdown_call (a : api) : bool :=
  match a with
  | Shutdown => true
  | _ => false
  end.

(** The calls that send something on a connected client: those up to and
    including the first shutdown. *)
Fixpoint sent (calls : list api) : list api :=
  match calls with
  | [] => []
  | a :: calls' => a :: (if is_shutdown_call a then [] else sent calls')
  end.

(** The request of the handshake, under the id [n]. *)
Definition initialize_request (c : client) (n : Z) : json :=
  make_request n "initialize"
    (JDict [(py "capabilities", capabilities c);
            (py "clientInfo",
             JDict [(py "name", JStr (py "MCP Client Simulator"));
                    (py "version", JStr (py "1.0.0"))])]).

(** The three calls of [main] between the handshake and the shutdown. *)
Definition batch : list api := [ListResources; ListPrompts; ListTools].

(** One line of text: printable characters, then the line feed. *)
Definition one_line (line : pystr) : Prop :=
  exists body, line = body ++ [10] /\ forallb printable body = true.

(** Two clients that differ at most in their streams and their counter. *)
Definition same_session (c c' : client) : Prop :=
  server_url c = server_url c' /\ transport c = transport c' /\
  capabilities c = capabilities c' /\ connected c = connected c' /\
  server_capabilities c = server_capabilities c'.

End ClientVocabularyMore.

(** * Further examples *)

Module Sessions.
Import Examples.

Definition echo_hello : J :=
  Client.make_request 8 "prompts/execute"
    (JDict [(py "id", JStr (py "echo"));
            (py "args", JDict [(py "text", JStr (py "hello"))])]).

Definition get_sample_text : J :=
  Client.make_request 9 "resources/get" (JDict [(py "uri", JStr (py "sample_text"))]).

(** A tool the server does not have *)
Definition divide : J :=
  Client.make_request 10 "tools/execute"
    (JDict [(py "id", JStr (py "divide")); (py "args", JDict [])]).

(** resources/get with a list for params *)
Definition get_with_list : J := Client.make_request 11 "resources/get" (JList []).

Definition list_tools_with (params : J) : J :=
  Client.make_request 12 "tools/list" params.

(** A client as [main] creates it, and one that went through the
    handshake. *)
Definition fresh (incoming : list pystr) : Client.client (F := unit) :=
  Client.init None (py "stdio") incoming.

Definition connected_to (incoming : list pystr) : Client.client (F := unit) :=
  Client.set_connected true None (fresh incoming).

Definition hello : J := initialize_request (fresh []) 1.

(** An answer to the handshake *)
Definition welcome : J :=
  JDict [(py "jsonrpc", JStr (py "2.0")); (py "id", JInt 1);
         (py "result", JDict [(py "capabilities", JDict [])])].

Definition echo_entry : Server.entry :=
  {| Server.description := py "Echo the input text";
     Server.args := [(py "text", Server.string_arg "Text to echo")] |}.

Definition sample_text : Server.resource :=
  {| Server.mime_type := py "text/plain";
     Server.content := py "This is a sample text resource." |}.

(** What the server answers to a request of the client. *)
Definition answer (request : J) : pystr :=
  fst (Server.handle_request (json_dumps request) Server.init) ++ [10].

End Sessions.

(** * Properties *)

(** ** The decoder always has fuel enough *)

Section ScanFacts.
Context {F : Type} {RT : PyRuntime F}.
Local Notation json := (json F).

Lemma consumes_map {A B} (f : A -> B) (r : scan A) (s s' : pystr) :
  consumes r s -> (List.length s <= List.length s')%nat ->
  consumes (scan_map f r) s'.
Proof. destruct r; simpl; intros; try lia; auto. Qed.

Lemma skip_ws_length (s : pystr) :
  (List.length (skip_ws s) <= List.length s)%nat.
Proof.
  induction s as [|c t IH]; simpl; [lia|].
  destruct (is_ws c); simpl; lia.
Qed.

Lemma scanstring_consumes (s : pystr) : consumes (scanstring s) s.
Proof.
  remember (List.length s) as n eqn:Hn.
  assert (Hle : (List.length s <= n)%nat) by lia. clear Hn.
  revert s Hle. induction n as [|n IH]; intros s Hle.
  - destruct s; simpl in *; [exact I | lia].
  - destruct s as [|c t]; simpl; [exact I|].
    simpl in Hle.
    assert (Hrec : forall u, (List.length u <= List.length t)%nat ->
                             forall f : pystr -> pystr,
                             consumes (scan_map f (scanstring u)) (c :: t)).
    { intros u Hu f. apply consumes_map with (s := u).
      - apply IH; lia.
      - simpl; lia. }
    destruct (c =? 34); [simpl; lia|].
    destruct (c =? 92).
    + destruct t as [|e t1]; [exact I|].
      destruct (e =? 117).
      * destruct t1 as [|h1 [|h2 [|h3 [|h4 t2]]]]; try exact I.
        destruct (decode_hex4 h1 h2 h3 h4) as [uni|]; [|exact I].
        destruct t2 as [|b [|u r]];
          try (apply Hrec; simpl; lia).
        destruct (is_high_surrogate uni && (b =? 92) && (u =? 117));
          [|apply Hrec; simpl; lia].
        destruct r as [|g1 [|g2 [|g3 [|g4 t3]]]]; try exact I.
        destruct (decode_hex4 g1 g2 g3 g4) as [uni2|]; [|exact I].
        destruct (is_low_surrogate uni2); apply Hrec; simpl; lia.
      * destruct (unescape e); [apply Hrec; simpl; lia | exact I].
    + destruct (c <? 32); [exact I | apply Hrec; lia].
Qed.

Lemma span_digits_length (s : pystr) :
  (List.length (snd (span_digits s)) <= List.length s)%nat.
Proof.
  induction s as [|c t IH]; simpl; [lia|].
  destruct (is_digit c); simpl; [|lia].
  destruct (span_digits t); simpl in *; lia.
Qed.

Lemma match_sign_length (s : pystr) :
  (List.length (snd (match_sign s)) <= List.length s)%nat.
Proof.
  destruct s as [|c t]; simpl; [lia|].
  destruct (c =? 45); simpl; lia.
Qed.

Lemma match_int_length (s ds r : pystr) :
  match_int s = Some (ds, r) -> (List.length r < List.length s)%nat.
Proof.
  destruct s as [|c t]; simpl; [discriminate|].
  destruct (c =? 48); [intros [= <- <-]; lia|].
  destruct (is_digit c); [|discriminate].
  pose proof (span_digits_length t) as Hs.
  destruct (span_digits t); intros [= <- <-]. simpl in Hs. lia.
Qed.

Lemma match_frac_length (s : pystr) :
  (List.length (snd (match_frac s)) <= List.length s)%nat.
Proof.
  destruct s as [|dot [|d s']]; simpl; try lia.
  destruct ((dot =? 46) && is_digit d); simpl; [|lia].
  pose proof (span_digits_length s') as Hs.
  destruct (is_digit d); simpl.
  - destruct (span_digits s'); simpl in *; lia.
  - lia.
Qed.

Lemma match_exp_length (s : pystr) :
  (List.length (snd (match_exp s)) <= List.length s)%nat.
Proof.
  destruct s as [|e t]; simpl; [lia|].
  destruct ((e =? 101) || (e =? 69)); simpl; [|lia].
  destruct t as [|sg t'']; simpl; [lia|].
  destruct ((sg =? 45) || (sg =? 43)).
  - pose proof (span_digits_length t'') as Hs.
    destruct (span_digits t'') as [es r]. simpl in Hs.
    destruct es; simpl; lia.
  - pose proof (span_digits_length (sg :: t'')) as Hs.
    destruct (span_digits (sg :: t'')) as [es r]. simpl in Hs.
    destruct es; simpl; lia.
Qed.

Lemma match_number_length (s integer frac exp rest : pystr) :
  match_number s = Some (integer, frac, exp, rest) ->
  (List.length rest < List.length s)%nat.
Proof.
  unfold match_number.
  pose proof (match_sign_length s) as H1.
  destruct (match_sign s) as [sign s1]. simpl in H1.
  destruct (match_int s1) as [[ds s2]|] eqn:E2; [|discriminate].
  apply match_int_length in E2.
  pose proof (match_frac_length s2) as H3.
  destruct (match_frac s2) as [fr s3]. simpl in H3.
  pose proof (match_exp_length s3) as H4.
  destruct (match_exp s3) as [ex s4]. simpl in H4.
  intros [= _ _ _ <-]. lia.
Qed.

Lemma parse_array_items_consumes (scan_value : pystr -> scan json) (bound : nat) :
  (forall s, (List.length s < bound)%nat -> consumes (scan_value s) s) ->
  forall fuel s, (List.length s < fuel)%nat -> (List.length s < bound)%nat ->
                 consumes (parse_array_items scan_value fuel s) s.
Proof.
  intros Hv. induction fuel as [|fuel IH]; intros s Hf Hb; [lia|].
  simpl. specialize (Hv s Hb).
  destruct (scan_value s) as [v r| |]; simpl in *; auto.
  pose proof (skip_ws_length r) as Hr.
  destruct (skip_ws r) as [|c t]; simpl in *; auto.
  destruct (c =? 93); [simpl; lia|].
  destruct (c =? 44); [|exact I].
  pose proof (skip_ws_length t) as Ht.
  apply consumes_map with (s := skip_ws t); [apply IH|]; lia.
Qed.

Lemma parse_array_consumes (scan_value : pystr -> scan json) (bound : nat) :
  (forall s, (List.length s < bound)%nat -> consumes (scan_value s) s) ->
  forall fuel s, (List.length s < fuel)%nat -> (List.length s < bound)%nat ->
                 consumes (parse_array scan_value fuel s) (91 :: s).
Proof.
  intros Hv fuel s Hf Hb. unfold parse_array.
  pose proof (skip_ws_length s) as Hs.
  destruct (skip_ws s) as [|c t] eqn:E; simpl in *; auto.
  destruct (c =? 93); [simpl; lia|].
  pose proof (parse_array_items_consumes scan_value bound Hv fuel (c :: t)) as H.
  simpl in H.
  destruct (parse_array_items scan_value fuel (c :: t)); simpl in *; auto;
    try (apply H; lia).
  assert (List.length rest < S (List.length t))%nat by (apply H; lia). lia.
Qed.

Lemma parse_object_items_consumes (scan_value : pystr -> scan json) (bound : nat) :
  (forall s, (List.length s < bound)%nat -> consumes (scan_value s) s) ->
  forall fuel s, (List.length s < fuel)%nat -> (List.length s < bound)%nat ->
                 consumes (parse_object_items scan_value fuel s) s.
Proof.
  intros Hv. induction fuel as [|fuel IH]; intros s Hf Hb; [lia|].
  simpl. destruct s as [|q t0]; [exact I|].
  destruct (q =? 34); [|exact I].
  pose proof (scanstring_consumes t0) as Hk.
  destruct (scanstring t0) as [key r0| |]; simpl in *; auto.
  pose proof (skip_ws_length r0) as Hr0.
  destruct (skip_ws r0) as [|colon r1]; simpl in *; auto.
  destruct (colon =? 58); [|exact I].
  pose proof (skip_ws_length r1) as Hr1.
  assert (Hb1 : (List.length (skip_ws r1) < bound)%nat) by lia.
  specialize (Hv (skip_ws r1) Hb1).
  destruct (scan_value (skip_ws r1)) as [v r| |]; simpl in *; auto.
  pose proof (skip_ws_length r) as Hr.
  destruct (skip_ws r) as [|c t]; simpl in *; auto.
  destruct (c =? 125); [simpl; lia|].
  destruct (c =? 44); [|exact I].
  pose proof (skip_ws_length t) as Ht.
  apply consumes_map with (s := skip_ws t); [apply IH|simpl]; lia.
Qed.

Lemma parse_object_consumes (scan_value : pystr -> scan json) (bound : nat) :
  (forall s, (List.length s < bound)%nat -> consumes (scan_value s) s) ->
  forall fuel s, (List.length s < fuel)%nat -> (List.length s < bound)%nat ->
                 consumes (parse_object scan_value fuel s) (123 :: s).
Proof.
  intros Hv fuel s Hf Hb. unfold parse_object.
  pose proof (skip_ws_length s) as Hs.
  destruct (skip_ws s) as [|c t] eqn:E; simpl in *; auto.
  destruct (c =? 125); [simpl; lia|].
  pose proof (parse_object_items_consumes scan_value bound Hv fuel (c :: t)) as H.
  simpl in H.
  destruct (parse_object_items scan_value fuel (c :: t)); simpl in *; auto;
    try (apply H; lia).
  assert (List.length rest < S (List.length t))%nat by (apply H; lia). lia.
Qed.

Lemma skipn_length_lt (n : nat) (c : pychar) (t : pystr) :
  (0 < n)%nat -> (List.length (skipn n (c :: t)) < List.length (c :: t))%nat.
Proof.
  intros Hn. rewrite length_skipn.
  change (List.length (c :: t)) with (S (List.length t)). lia.
Qed.

Lemma scan_once_unfold (fuel : nat) (c : pychar) (t : pystr) :
  scan_once (S fuel) (c :: t) =
  let s := c :: t in
  if c =? 34 then scan_map JStr (scanstring t)
  else if c =? 123
  then scan_map (fun ps => JDict (dict_of_pairs ps))
         (parse_object (scan_once fuel) fuel t)
  else if c =? 91
  then scan_map JList (parse_array (scan_once fuel) fuel t)
  else if starts_with (py "null") s then Scanned JNull (skipn 4 s)
  else if starts_with (py "true") s then Scanned (JBool true) (skipn 4 s)
  else if starts_with (py "false") s then Scanned (JBool false) (skipn 5 s)
  else
    match match_number s with
    | Some (integer, frac, exp, rest) =>
        match frac ++ exp with
        | [] => Scanned (JInt (parse_int integer)) rest
        | _ :: _ =>
            Scanned (JFloat (float_of_literal (integer ++ frac ++ exp))) rest
        end
    | None =>
        if starts_with (py "NaN") s
        then Scanned (JFloat (float_of_literal (py "NaN"))) (skipn 3 s)
        else if starts_with (py "Infinity") s
        then Scanned (JFloat (float_of_literal (py "Infinity"))) (skipn 8 s)
        else if starts_with (py "-Infinity") s
        then Scanned (JFloat (float_of_literal (py "-Infinity"))) (skipn 9 s)
        else NoParse
    end.
Proof. reflexivity. Qed.

(** With more fuel than characters, [scan_once] never runs out. *)
Lemma scan_once_consumes (fuel : nat) (s : pystr) :
  (List.length s < fuel)%nat -> consumes (scan_once fuel s) s.
Proof.
  revert s. induction fuel as [|fuel IH]; intros s Hf; [lia|].
  destruct s as [|c t]; [exact I|].
  rewrite scan_once_unfold. cbv zeta.
  change (List.length (c :: t)) with (S (List.length t)) in Hf.
  destruct (c =? 34).
  { apply consumes_map with (s := t); [apply scanstring_consumes | simpl; lia]. }
  destruct (c =? 123).
  { pose proof (parse_object_consumes (scan_once fuel) fuel IH fuel t) as H.
    destruct (parse_object (scan_once fuel) fuel t); simpl in *; auto;
      apply H; lia. }
  destruct (c =? 91).
  { pose proof (parse_array_consumes (scan_once fuel) fuel IH fuel t) as H.
    destruct (parse_array (scan_once fuel) fuel t); simpl in *; auto;
      apply H; lia. }
  destruct (starts_with (py "null") (c :: t)).
  { apply skipn_length_lt; lia. }
  destruct (starts_with (py "true") (c :: t)).
  { apply skipn_length_lt; lia. }
  destruct (starts_with (py "false") (c :: t)).
  { apply skipn_length_lt; lia. }
  destruct (match_number (c :: t)) as [[[[integer frac] exp] rest]|] eqn:E.
  { apply match_number_length in E.
    destruct (frac ++ exp); exact E. }
  destruct (starts_with (py "NaN") (c :: t)).
  { apply skipn_length_lt; lia. }
  destruct (starts_with (py "Infinity") (c :: t)).
  { apply skipn_length_lt; lia. }
  destruct (starts_with (py "-Infinity") (c :: t)).
  { apply skipn_length_lt; lia. }
  exact I.
Qed.

(** [json.loads] returns a value or raises JSONDecodeError. *)
Lemma json_loads_outcome (s : pystr) :
  (exists v : json, json_loads s = Return v) \/
  json_loads s = Raise JSONDecodeError.
Proof.
  unfold json_loads.
  pose proof (skip_ws_length s) as Hs.
  pose proof (scan_once_consumes (S (List.length s)) (skip_ws s)) as H.
  destruct (scan_once (S (List.length s)) (skip_ws s)) as [v r| |].
  - destruct (skip_ws r); [left; eauto | right; reflexivity].
  - right; reflexivity.
  - exfalso. apply H. lia.
Qed.

End ScanFacts.

(** ** Strings survive the codec *)

Section StringFacts.

Lemma pystr_eqb_refl (a : pystr) : pystr_eqb a a = true.
Proof.
  induction a as [|x a IH]; simpl; [reflexivity|].
  rewrite N.eqb_refl. exact IH.
Qed.

Lemma pystr_eqb_eq (a b : pystr) : pystr_eqb a b = true <-> a = b.
Proof.
  split; [|intros ->; apply pystr_eqb_refl].
  revert b. induction a as [|x a IH]; destruct b as [|y b]; simpl;
    try discriminate; [reflexivity|].
  intros H. apply andb_true_iff in H. destruct H as [Hxy Hab].
  apply N.eqb_eq in Hxy. f_equal; auto.
Qed.

Lemma pystr_eqb_neq (a b : pystr) : pystr_eqb a b = false <-> a <> b.
Proof.
  split.
  - intros H E. apply pystr_eqb_eq in E. congruence.
  - intros H. destruct (pystr_eqb a b) eqn:E; [|reflexivity].
    apply pystr_eqb_eq in E. contradiction.
Qed.

Lemma hex_val_digit (d : N) : d < 16 -> hex_val (hex_digit d) = Some d.
Proof.
  intros H.
  assert (E : d = 0 \/ d = 1 \/ d = 2 \/ d = 3 \/ d = 4 \/ d = 5 \/ d = 6 \/
              d = 7 \/ d = 8 \/ d = 9 \/ d = 10 \/ d = 11 \/ d = 12 \/
              d = 13 \/ d = 14 \/ d = 15) by lia.
  repeat (destruct E as [->|E]; [reflexivity|]). subst d. reflexivity.
Qed.

Lemma decode_hex4_hex4 (n : N) :
  n < 65536 ->
  decode_hex4 (hex_digit (n / 4096 mod 16)) (hex_digit (n / 256 mod 16))
              (hex_digit (n / 16 mod 16)) (hex_digit (n mod 16)) = Some n.
Proof.
  intros H. unfold decode_hex4.
  rewrite !hex_val_digit by (apply N.mod_lt; discriminate).
  f_equal.
  pose proof (N.Div0.div_mod n 16) as E0.
  pose proof (N.Div0.div_mod (n / 16) 16) as E1.
  pose proof (N.Div0.div_mod (n / 256) 16) as E2.
  assert (D1 : n / 16 / 16 = n / 256) by (rewrite N.Div0.div_div; reflexivity).
  assert (D2 : n / 256 / 16 = n / 4096) by (rewrite N.Div0.div_div; reflexivity).
  rewrite D1 in E1. rewrite D2 in E2.
  assert (H3 : n / 4096 < 16) by (apply N.Div0.div_lt_upper_bound; lia).
  rewrite (N.mod_small (n / 4096) 16 H3).
  lia.
Qed.

Lemma scanstring_unfold (c : pychar) (t : pystr) :
  scanstring (c :: t) =
  if c =? 34 then Scanned [] t
  else if c =? 92 then
    match t with
    | [] => NoParse
    | e :: t1 =>
        if e =? 117 then
          match t1 with
          | h1 :: h2 :: h3 :: h4 :: t2 =>
              match decode_hex4 h1 h2 h3 h4 with
              | None => NoParse
              | Some uni =>
                  match t2 with
                  | b :: u :: r =>
                      if is_high_surrogate uni && (b =? 92) && (u =? 117)
                      then
                        match r with
                        | g1 :: g2 :: g3 :: g4 :: t3 =>
                            match decode_hex4 g1 g2 g3 g4 with
                            | None => NoParse
                            | Some uni2 =>
                                if is_low_surrogate uni2
                                then scan_map (cons (join_surrogates uni uni2))
                                              (scanstring t3)
                                else scan_map (cons uni) (scanstring t2)
                            end
                        | _ => NoParse
                        end
                      else scan_map (cons uni) (scanstring t2)
                  | _ => scan_map (cons uni) (scanstring t2)
                  end
              end
          | _ => NoParse
          end
        else
          match unescape e with
          | Some ch => scan_map (cons ch) (scanstring t1)
          | None => NoParse
          end
    end
  else if c <? 32 then NoParse
  else scan_map (cons c) (scanstring t).
Proof. reflexivity. Qed.

(** Reading back a [\uXXXX] escape that is not the first half of a pair. *)
Lemma scanstring_u_escape (n : N) (x : pystr) :
  n < 65536 ->
  is_high_surrogate n && low_escape_ahead x = false ->
  scanstring (u_escape n ++ x) = scan_map (cons n) (scanstring x).
Proof.
  intros Hn Hx. unfold u_escape, hex4.
  cbn [List.app]. rewrite scanstring_unfold.
  change (92 =? 34) with false. change (92 =? 92) with true.
  change (117 =? 117) with true. cbv iota.
  rewrite (decode_hex4_hex4 n Hn).
  destruct x as [|b [|u r]]; try reflexivity.
  destruct (is_high_surrogate n) eqn:Hh; [|reflexivity].
  simpl in Hx. cbn [andb].
  destruct ((b =? 92) && (u =? 117)) eqn:Hbu; [|reflexivity].
  simpl in Hx.
  destruct r as [|g1 [|g2 [|g3 [|g4 t3]]]]; try discriminate.
  destruct (decode_hex4 g1 g2 g3 g4) as [uni2|]; [|discriminate].
  rewrite Hx. reflexivity.
Qed.

(** Reading back the pair of escapes of a code point above 0xFFFF. *)
Lemma scanstring_pair (c : N) (x : pystr) :
  65536 <= c -> c < 1114112 ->
  scanstring (u_escape (55296 + (c - 65536) / 1024 mod 1024) ++
              u_escape (56320 + (c - 65536) mod 1024) ++ x)
  = scan_map (cons c) (scanstring x).
Proof.
  intros Hlo Hhi.
  remember (c - 65536) as v eqn:Ev.
  assert (Hv : v < 1048576) by lia.
  assert (Hq : v / 1024 < 1024) by (apply N.Div0.div_lt_upper_bound; lia).
  assert (Hr : v mod 1024 < 1024) by (apply N.mod_lt; discriminate).
  rewrite (N.mod_small _ _ Hq).
  remember (v / 1024) as q eqn:Eq. remember (v mod 1024) as r eqn:Er.
  remember (55296 + q) as hi eqn:Ehi. remember (56320 + r) as lo eqn:Elo.
  assert (Hhi1 : hi < 65536) by lia.
  assert (Hlo1 : lo < 65536) by lia.
  unfold u_escape at 1. unfold hex4 at 1. cbn [List.app].
  rewrite scanstring_unfold.
  change (92 =? 34) with false. change (92 =? 92) with true.
  change (117 =? 117) with true. cbv iota.
  rewrite (decode_hex4_hex4 hi Hhi1).
  unfold u_escape, hex4. cbn [List.app].
  assert (Hh : is_high_surrogate hi = true).
  { unfold is_high_surrogate. apply andb_true_iff.
    split; apply N.leb_le; lia. }
  rewrite Hh. change (92 =? 92) with true. change (117 =? 117) with true.
  cbn [andb]. rewrite (decode_hex4_hex4 lo Hlo1).
  assert (Hl : is_low_surrogate lo = true).
  { unfold is_low_surrogate. apply andb_true_iff.
    split; apply N.leb_le; lia. }
  rewrite Hl.
  assert (E : join_surrogates hi lo = c).
  { unfold join_surrogates.
    pose proof (N.Div0.div_mod v 1024) as D. rewrite <- Eq, <- Er in D. lia. }
  rewrite E. reflexivity.
Qed.

Ltac eqb_case c k :=
  let E := fresh "E" in
  destruct (N.eqb_spec c k) as [E|E]; [subst c|].

Lemma low_escape_ahead_u_escape (n : N) (y : pystr) :
  n < 65536 -> is_low_surrogate n = false ->
  low_escape_ahead (u_escape n ++ y) = false.
Proof.
  intros Hn Hl. unfold u_escape, hex4, low_escape_ahead. cbn [List.app].
  rewrite (decode_hex4_hex4 n Hn). rewrite Hl. reflexivity.
Qed.

Lemma low_escape_ahead_escape_char (c : pychar) (y : pystr) :
  c < 1114112 -> is_low_surrogate c = false ->
  low_escape_ahead (escape_char c ++ y) = false.
Proof.
  intros Hc Hl. unfold escape_char.
  eqb_case c 34; [reflexivity|].
  eqb_case c 92; [reflexivity|].
  eqb_case c 10; [reflexivity|].
  eqb_case c 13; [reflexivity|].
  eqb_case c 9; [reflexivity|].
  eqb_case c 8; [reflexivity|].
  eqb_case c 12; [reflexivity|].
  destruct ((32 <=? c) && (c <=? 126)).
  { cbn [List.app]. unfold low_escape_ahead.
    destruct y as [|u r]; [reflexivity|].
    destruct (N.eqb_spec c 92); [contradiction|reflexivity]. }
  destruct (N.ltb_spec c 65536) as [Hs|Hs].
  { apply low_escape_ahead_u_escape; assumption. }
  cbv zeta. rewrite <- app_assoc.
  remember (c - 65536) as v eqn:Ev.
  assert (Hq : v / 1024 < 1024) by (apply N.Div0.div_lt_upper_bound; lia).
  rewrite (N.mod_small _ _ Hq).
  apply low_escape_ahead_u_escape; [lia|].
  unfold is_low_surrogate. apply andb_false_iff. left. apply N.leb_gt. lia.
Qed.

Lemma scanstring_escape_char (c : pychar) (x : pystr) :
  c < 1114112 ->
  is_high_surrogate c && low_escape_ahead x = false ->
  scanstring (escape_char c ++ x) = scan_map (cons c) (scanstring x).
Proof.
  intros Hc Hx. unfold escape_char.
  eqb_case c 34; [reflexivity|].
  eqb_case c 92; [reflexivity|].
  eqb_case c 10; [reflexivity|].
  eqb_case c 13; [reflexivity|].
  eqb_case c 9; [reflexivity|].
  eqb_case c 8; [reflexivity|].
  eqb_case c 12; [reflexivity|].
  destruct ((32 <=? c) && (c <=? 126)) eqn:Hp.
  { apply andb_true_iff in Hp. destruct Hp as [Hp1 Hp2].
    apply N.leb_le in Hp1.
    cbn [List.app]. rewrite scanstring_unfold.
    destruct (N.eqb_spec c 34); [contradiction|].
    destruct (N.eqb_spec c 92); [contradiction|].
    destruct (N.ltb_spec c 32); [lia|reflexivity]. }
  destruct (N.ltb_spec c 65536) as [Hs|Hs].
  { apply scanstring_u_escape; assumption. }
  cbv zeta. rewrite <- app_assoc. apply scanstring_pair; assumption.
Qed.

(** [scanstring] reads back what [encode_basestring_ascii] wrote. *)
Lemma scanstring_escape_body (s rest : pystr) :
  valid_str s = true ->
  scanstring (escape_body s ++ 34 :: rest) = Scanned s rest.
Proof.
  unfold valid_str. intros H. apply andb_true_iff in H.
  destruct H as [Hb Hp]. revert Hb Hp.
  induction s as [|c s' IH]; intros Hb Hp.
  - reflexivity.
  - simpl in Hb. apply andb_true_iff in Hb. destruct Hb as [Hc Hb].
    apply N.ltb_lt in Hc.
    cbn [no_surrogate_pair] in Hp. apply andb_true_iff in Hp.
    destruct Hp as [Hpair Hp].
    unfold escape_body. cbn [flat_map]. fold (escape_body s').
    rewrite <- app_assoc. rewrite scanstring_escape_char; [| exact Hc |].
    + rewrite (IH Hb Hp). reflexivity.
    + destruct (is_high_surrogate c) eqn:Hh; [|reflexivity].
      cbn [andb]. destruct s' as [|d s''].
      * simpl. destruct rest; reflexivity.
      * cbn [andb] in Hpair. apply negb_true_iff in Hpair.
        simpl in Hb. apply andb_true_iff in Hb. destruct Hb as [Hd _].
        apply N.ltb_lt in Hd.
        unfold escape_body. cbn [flat_map]. rewrite <- app_assoc.
        apply low_escape_ahead_escape_char; assumption.
Qed.

End StringFacts.

(** ** Integers survive the codec *)

Section NumberFacts.

Lemma delimited_no_digit (rest : pystr) :
  delimited rest = true ->
  match rest with c :: _ => is_digit c = false | [] => True end.
Proof.
  destruct rest as [|c t]; simpl; [trivial|].
  intros H. apply negb_true_iff in H.
  repeat (apply orb_false_iff in H; destruct H as [H ?]). exact H.
Qed.

Lemma span_digits_uint_chars (d : uint) (rest : pystr) :
  match rest with c :: _ => is_digit c = false | [] => True end ->
  span_digits (uint_chars d ++ rest) = (uint_chars d, rest).
Proof.
  intros H. induction d; simpl;
    try (rewrite IHd; reflexivity).
  destruct rest as [|c t]; simpl; [reflexivity|]. rewrite H. reflexivity.
Qed.

Lemma digits_uint_chars (d : uint) : digits_uint (uint_chars d) = d.
Proof. induction d; simpl; congruence. Qed.

Lemma to_uint_no_leading_zero (p : positive) (u : uint) :
  Pos.to_uint p <> D0 u.
Proof.
  intros E.
  pose proof (DecimalPos.Unsigned.to_of (Pos.to_uint p)) as H.
  rewrite DecimalPos.Unsigned.of_to in H. simpl in H.
  rewrite E in H. rewrite unorm_D0 in H.
  assert (Hu : u = Nil \/ u <> Nil) by (destruct u; auto; right; discriminate).
  destruct Hu as [->|Hu].
  - apply (DecimalPos.Unsigned.to_uint_nonzero p). exact E.
  - pose proof (nb_digits_unorm u Hu) as L.
    rewrite <- H in L. simpl in L. lia.
Qed.

Lemma to_uint_head (p : positive) :
  exists c t, uint_chars (Pos.to_uint p) = c :: t /\
              is_digit c = true /\ (c =? 48) = false.
Proof.
  destruct (Pos.to_uint p) eqn:E;
    try (eexists; eexists; split; [reflexivity | split; reflexivity]).
  - exfalso. exact (DecimalPos.Unsigned.to_uint_nonnil p E).
  - exfalso. exact (to_uint_no_leading_zero p _ E).
Qed.

Lemma is_digit_not_minus (c : pychar) : is_digit c = true -> (c =? 45) = false.
Proof.
  unfold is_digit. intros H. apply andb_true_iff in H. destruct H as [H _].
  apply N.leb_le in H. apply N.eqb_neq. lia.
Qed.

Lemma match_frac_delimited (rest : pystr) :
  delimited rest = true -> match_frac rest = ([], rest).
Proof.
  destruct rest as [|c [|d t]]; simpl; try reflexivity.
  intros H. apply negb_true_iff in H.
  repeat (apply orb_false_iff in H; destruct H as [H ?]).
  replace (c =? 46) with false. reflexivity.
Qed.

Lemma match_exp_delimited (rest : pystr) :
  delimited rest = true -> match_exp rest = ([], rest).
Proof.
  destruct rest as [|c t]; simpl; try reflexivity.
  intros H. apply negb_true_iff in H.
  repeat (apply orb_false_iff in H; destruct H as [H ?]).
  replace (c =? 101) with false. replace (c =? 69) with false. reflexivity.
Qed.

Lemma match_int_to_uint (p : positive) (rest : pystr) :
  delimited rest = true ->
  match_int (uint_chars (Pos.to_uint p) ++ rest)
  = Some (uint_chars (Pos.to_uint p), rest).
Proof.
  intros H. apply delimited_no_digit in H.
  pose proof (span_digits_uint_chars (Pos.to_uint p) rest H) as Hs.
  destruct (to_uint_head p) as (c & t & E & Hd & Hz).
  rewrite E in *. cbn [List.app] in *. unfold match_int. rewrite Hz, Hd.
  simpl in Hs. rewrite Hd in Hs.
  destruct (span_digits (t ++ rest)) as [ds r].
  injection Hs as -> ->. reflexivity.
Qed.

(** [_match_number] reads back the whole of [int.__repr__], as an integer. *)
Lemma match_number_int_repr (n : Z) (rest : pystr) :
  delimited rest = true ->
  match_number (int_repr n ++ rest) = Some (int_repr n, [], [], rest).
Proof.
  intros H. unfold match_number, int_repr.
  destruct n as [|p|p]; simpl Z.to_int.
  - simpl. rewrite (match_frac_delimited rest H), (match_exp_delimited rest H).
    reflexivity.
  - destruct (to_uint_head p) as (c & t & E & Hd & Hz).
    assert (Hs : match_sign (uint_chars (Pos.to_uint p) ++ rest)
                 = ([], uint_chars (Pos.to_uint p) ++ rest)).
    { rewrite E. simpl. rewrite (is_digit_not_minus c Hd). reflexivity. }
    rewrite Hs. rewrite (match_int_to_uint p rest H).
    rewrite (match_frac_delimited rest H), (match_exp_delimited rest H).
    reflexivity.
  - cbn [List.app match_sign]. change (45 =? 45) with true. cbv iota.
    rewrite (match_int_to_uint p rest H).
    rewrite (match_frac_delimited rest H), (match_exp_delimited rest H).
    reflexivity.
Qed.

(** [int] reads back what [int.__repr__] wrote. *)
Lemma parse_int_int_repr (n : Z) : parse_int (int_repr n) = n.
Proof.
  rewrite <- (DecimalZ.of_to n) at 2. unfold int_repr, parse_int.
  destruct n as [|p|p]; simpl Z.to_int.
  - reflexivity.
  - destruct (to_uint_head p) as (c & t & E & Hd & Hz).
    rewrite <- (digits_uint_chars (Pos.to_uint p)) at 2.
    rewrite E. rewrite (is_digit_not_minus c Hd). reflexivity.
  - change (45 =? 45) with true. cbv iota.
    rewrite digits_uint_chars. reflexivity.
Qed.

Lemma int_repr_head (n : Z) :
  exists c t, int_repr n = c :: t /\ (is_digit c = true \/ c = 45).
Proof.
  unfold int_repr. destruct n as [|p|p]; simpl Z.to_int.
  - exists 48, []. split; [reflexivity | left; reflexivity].
  - destruct (to_uint_head p) as (c & t & E & Hd & Hz).
    exists c, t. split; [exact E | left; exact Hd].
  - eexists; eexists. split; [reflexivity | right; reflexivity].
Qed.

End NumberFacts.

(** ** Documents survive the codec *)

Section CodecFacts.
Context {F : Type} {RT : PyRuntime F}.
Local Notation json := (json F).

Lemma json_dumps_list (items : list json) :
  json_dumps (JList items) = 91 :: dumps_elements items ++ [93].
Proof. reflexivity. Qed.

Lemma json_dumps_dict (items : list (pystr * json)) :
  json_dumps (JDict items) = 123 :: dumps_members items ++ [125].
Proof. reflexivity. Qed.

Lemma wire_safe_list (items : list json) :
  wire_safe (JList items) = forallb wire_safe items.
Proof. simpl. induction items as [|x l IH]; [reflexivity|]. rewrite IH. reflexivity. Qed.

Lemma wire_safe_dict (items : list (pystr * json)) :
  wire_safe (JDict items) =
  distinct_keys items &&
  forallb (fun kv => valid_str (fst kv) && wire_safe (snd kv)) items.
Proof.
  simpl. f_equal. induction items as [|[k x] l IH]; [reflexivity|].
  rewrite IH. reflexivity.
Qed.

Lemma json_dumps_head (v : json) :
  wire_safe v = true ->
  exists c t, json_dumps v = c :: t /\ value_start c = true.
Proof.
  destruct v as [|[|]|n|f|s|l|d]; simpl; intros H; try discriminate;
    try (eexists; eexists; split; reflexivity).
  destruct (int_repr_head n) as (c & t & E & [Hd| ->]).
  - exists c, t. split; [exact E|].
    unfold is_digit in Hd. apply andb_true_iff in Hd. destruct Hd as [H1 H2].
    apply N.leb_le in H1, H2. unfold value_start, is_ws.
    repeat match goal with
           | |- context [c =? ?k] =>
               destruct (N.eqb_spec c k); [lia|]
           end. reflexivity.
  - exists 45, t. split; [exact E | reflexivity].
Qed.

Lemma skip_ws_start (c : pychar) (t : pystr) :
  is_ws c = false -> skip_ws (c :: t) = c :: t.
Proof. intros H. simpl. rewrite H. reflexivity. Qed.

Lemma starts_with_head_neq (p0 c : pychar) (p t : pystr) :
  p0 <> c -> starts_with (p0 :: p) (c :: t) = false.
Proof.
  intros H. simpl. destruct (N.eqb_spec p0 c); [contradiction|reflexivity].
Qed.

(** [scan_once] on the text of an integer *)
Lemma scan_once_int (n : Z) (fuel : nat) (rest : pystr) :
  delimited rest = true ->
  scan_once (S fuel) (int_repr n ++ rest) = Scanned (JInt n : json) rest.
Proof.
  intros Hrest.
  pose proof (match_number_int_repr n rest Hrest) as Hm.
  destruct (int_repr_head n) as (c & t & E & Hc).
  rewrite E in Hm |- *. cbn [List.app] in Hm |- *.
  rewrite scan_once_unfold. cbv zeta.
  assert (Hr : 45 <= c <= 57).
  { destruct Hc as [Hd| ->]; [|lia].
    unfold is_digit in Hd. apply andb_true_iff in Hd. destruct Hd as [H1 H2].
    apply N.leb_le in H1, H2. lia. }
  destruct (N.eqb_spec c 34); [lia|].
  destruct (N.eqb_spec c 123); [lia|].
  destruct (N.eqb_spec c 91); [lia|].
  change (py "null") with [110; 117; 108; 108].
  change (py "true") with [116; 114; 117; 101].
  change (py "false") with [102; 97; 108; 115; 101].
  rewrite !starts_with_head_neq by lia.
  rewrite Hm. cbn [List.app]. rewrite <- E. rewrite parse_int_int_repr.
  reflexivity.
Qed.

Lemma dumps_nonempty (v : json) :
  wire_safe v = true -> (1 <= List.length (json_dumps v))%nat.
Proof.
  intros H. destruct (json_dumps_head v H) as (c & t & E & _).
  rewrite E. simpl. lia.
Qed.

Lemma array_items_read_back (l : list json) :
  Forall reads_back l -> forallb wire_safe l = true -> l <> [] ->
  forall (f0 f : nat) (rest : pystr),
    (List.length (dumps_elements l) <= f0)%nat ->
    (List.length (dumps_elements l) <= f)%nat ->
    parse_array_items (scan_once f0) f (dumps_elements l ++ 93 :: rest)
    = Scanned l rest.
Proof.
  induction 1 as [|x l' Hx Hl' IH]; intros Hsafe Hne f0 f rest Hf0 Hf;
    [contradiction|].
  cbn [forallb] in Hsafe. apply andb_true_iff in Hsafe.
  destruct Hsafe as [Sx Sl'].
  pose proof (dumps_nonempty x Sx) as Lx.
  cbn [dumps_elements] in *. rewrite length_app in Hf0, Hf.
  destruct f as [|f']; [lia|].
  cbn [parse_array_items]. rewrite <- app_assoc.
  destruct l' as [|y l''].
  - cbn [List.app]. rewrite (Hx Sx f0 (93 :: rest)) by (try reflexivity; lia).
    reflexivity.
  - change (py ", ") with [44; 32] in *. cbn [List.app] in *.
    cbn [List.length] in Hf0, Hf.
    rewrite (Hx Sx f0) by (try reflexivity; lia).
    change (skip_ws (44 :: 32 :: dumps_elements (y :: l'') ++ 93 :: rest))
      with (44 :: 32 :: dumps_elements (y :: l'') ++ 93 :: rest).
    change (44 =? 93) with false. change (44 =? 44) with true. cbv iota.
    assert (Hskip : skip_ws (32 :: dumps_elements (y :: l'') ++ 93 :: rest)
                    = dumps_elements (y :: l'') ++ 93 :: rest).
    { cbn [forallb] in Sl'. apply andb_true_iff in Sl'. destruct Sl' as [Sy _].
      destruct (json_dumps_head y Sy) as (c & t & E & Hc).
      cbn [dumps_elements]. rewrite E. cbn [List.app].
      change (skip_ws (32 :: ?u)) with (skip_ws u).
      apply skip_ws_start. unfold value_start in Hc.
      apply andb_true_iff in Hc. destruct Hc as [Hc _].
      apply negb_true_iff in Hc. exact Hc. }
    rewrite Hskip.
    rewrite (IH Sl' ltac:(discriminate) f0 f' rest) by lia.
    reflexivity.
Qed.

Lemma members_shape (k : pystr) (x : json) (d' : list (pystr * json))
  (rest : pystr) :
  dumps_members ((k, x) :: d') ++ 125 :: rest
  = 34 :: escape_body k ++ 34 :: 58 :: 32 :: json_dumps x ++
    match d' with
    | [] => 125 :: rest
    | _ :: _ => 44 :: 32 :: dumps_members d' ++ 125 :: rest
    end.
Proof.
  cbn [dumps_members]. unfold encode_basestring_ascii.
  change (py ": ") with [58; 32]. change (py ", ") with [44; 32].
  destruct d' as [|kv d'']; cbn [List.app];
    try rewrite List.app_nil_r;
    repeat (rewrite <- app_assoc; cbn [List.app]); reflexivity.
Qed.

Lemma members_length (k : pystr) (x : json) (d' : list (pystr * json)) :
  (List.length (json_dumps x) + List.length (dumps_members d') + 4
   <= List.length (dumps_members ((k, x) :: d')))%nat.
Proof.
  cbn [dumps_members]. unfold encode_basestring_ascii.
  change (py ": ") with [58; 32]. change (py ", ") with [44; 32].
  destruct d' as [|kv d'']; cbn [List.app List.length];
    repeat (rewrite length_app; cbn [List.length]); cbn [dumps_members];
    cbn [List.length]; lia.
Qed.

Lemma object_items_read_back (d : list (pystr * json)) :
  Forall (fun kv => reads_back (snd kv)) d ->
  forallb (fun kv => valid_str (fst kv) && wire_safe (snd kv)) d = true ->
  d <> [] ->
  forall (f0 f : nat) (rest : pystr),
    (List.length (dumps_members d) <= f0)%nat ->
    (List.length (dumps_members d) <= f)%nat ->
    parse_object_items (scan_once f0) f (dumps_members d ++ 125 :: rest)
    = Scanned d rest.
Proof.
  induction 1 as [|[k x] d' Hx Hd' IH]; intros Hsafe Hne f0 f rest Hf0 Hf;
    [contradiction|].
  cbn [forallb fst snd] in Hsafe, Hx. apply andb_true_iff in Hsafe.
  destruct Hsafe as [Skx Sd']. apply andb_true_iff in Skx.
  destruct Skx as [Sk Sx].
  pose proof (members_length k x d') as L.
  pose proof (dumps_nonempty x Sx) as Lx.
  rewrite members_shape.
  destruct f as [|f']; [lia|].
  cbn [parse_object_items]. change (34 =? 34) with true. cbv iota.
  rewrite (scanstring_escape_body k _ Sk).
  change (skip_ws (58 :: ?u)) with (58 :: u).
  change (58 =? 58) with true. cbv iota.
  assert (Hskip : forall u, skip_ws (32 :: json_dumps x ++ u) = json_dumps x ++ u).
  { intros u. destruct (json_dumps_head x Sx) as (c & t & E & Hc).
    rewrite E. cbn [List.app].
    change (skip_ws (32 :: ?w)) with (skip_ws w).
    apply skip_ws_start. unfold value_start in Hc.
    apply andb_true_iff in Hc. destruct Hc as [Hc _].
    apply negb_true_iff in Hc. exact Hc. }
  rewrite Hskip.
  destruct d' as [|[k' y] d''].
  - rewrite (Hx Sx f0 (125 :: rest)) by (try reflexivity; lia).
    reflexivity.
  - rewrite (Hx Sx f0) by (try reflexivity; lia).
    change (skip_ws (44 :: ?u)) with (44 :: u).
    change (44 =? 125) with false. change (44 =? 44) with true. cbv iota.
    assert (Hk : skip_ws (32 :: dumps_members ((k', y) :: d'') ++ 125 :: rest)
                 = dumps_members ((k', y) :: d'') ++ 125 :: rest).
    { rewrite members_shape. reflexivity. }
    rewrite Hk.
    rewrite (IH Sd' ltac:(discriminate) f0 f' rest) by lia.
    reflexivity.
Qed.

Lemma dict_get_app (a b : list (pystr * json)) (k : pystr) :
  dict_get (a ++ b) k =
  match dict_get a k with Some v => Some v | None => dict_get b k end.
Proof.
  induction a as [|[k' v'] a IH]; simpl; [reflexivity|].
  destruct (pystr_eqb k' k); [reflexivity | exact IH].
Qed.

Lemma dict_set_absent (a : list (pystr * json)) (k : pystr) (v : json) :
  dict_get a k = None -> dict_set a k v = a ++ [(k, v)].
Proof.
  induction a as [|[k' v'] a IH]; simpl; [reflexivity|].
  destruct (pystr_eqb k' k); [discriminate|].
  intros H. rewrite (IH H). reflexivity.
Qed.

Lemma dict_get_in (l : list (pystr * json)) (k : pystr) (v : json) :
  In (k, v) l -> dict_get l k <> None.
Proof.
  induction l as [|[k' v'] l IH]; simpl; [contradiction|].
  intros [E|H].
  - injection E as -> ->. rewrite pystr_eqb_refl. discriminate.
  - destruct (pystr_eqb k' k); [discriminate | exact (IH H)].
Qed.

Lemma fold_dict_set_distinct (l acc : list (pystr * json)) :
  distinct_keys l = true ->
  (forall k v, In (k, v) l -> dict_get acc k = None) ->
  fold_left (fun d kv => dict_set d (fst kv) (snd kv)) l acc = acc ++ l.
Proof.
  revert acc. induction l as [|[k x] l IH]; intros acc Hd Hacc.
  - simpl. rewrite List.app_nil_r. reflexivity.
  - unfold distinct_keys in Hd. cbn in Hd.
    apply andb_true_iff in Hd. destruct Hd as [Hk Hd].
    cbn [fold_left fst snd].
    rewrite (dict_set_absent acc k x) by (apply (Hacc k x); left; reflexivity).
    rewrite IH.
    + rewrite <- app_assoc. reflexivity.
    + exact Hd.
    + intros k' v' Hin. rewrite dict_get_app.
      rewrite (Hacc k' v') by (right; exact Hin).
      simpl. destruct (pystr_eqb k k') eqn:E; [|reflexivity].
      apply pystr_eqb_eq in E. subst k'.
      apply dict_get_in in Hin. destruct (dict_get l k); [discriminate|].
      contradiction.
Qed.

Lemma dict_of_pairs_distinct (d : list (pystr * json)) :
  distinct_keys d = true -> dict_of_pairs d = d.
Proof.
  intros H. unfold dict_of_pairs.
  rewrite fold_dict_set_distinct; [reflexivity | exact H | reflexivity].
Qed.

(** [scan_once] reads back what [json.dumps] wrote. *)
Lemma scan_once_dumps (v : json) : reads_back v.
Proof.
  induction v as [|b|n|f|s|l IH|d IH] using json_induction;
    unfold reads_back; intros Hsafe fuel rest Hfuel Hrest.
  - destruct fuel; [simpl in Hfuel; lia | reflexivity].
  - destruct fuel; [destruct b; simpl in Hfuel; lia |].
    destruct b; reflexivity.
  - pose proof (dumps_nonempty (JInt n) Hsafe) as L.
    destruct fuel; [lia|]. apply scan_once_int. exact Hrest.
  - discriminate.
  - destruct fuel; [simpl in Hfuel; lia|].
    cbn [json_dumps]. unfold encode_basestring_ascii.
    cbn [List.app]. rewrite <- app_assoc. cbn [List.app].
    rewrite scan_once_unfold. cbv zeta. change (34 =? 34) with true. cbv iota.
    rewrite scanstring_escape_body by exact Hsafe. reflexivity.
  - rewrite wire_safe_list in Hsafe. rewrite json_dumps_list in Hfuel |- *.
    cbn [List.length] in Hfuel. rewrite length_app in Hfuel.
    cbn [List.length] in Hfuel.
    destruct fuel as [|fuel]; [lia|].
    cbn [List.app]. rewrite <- app_assoc. cbn [List.app].
    rewrite scan_once_unfold. cbv zeta.
    change (91 =? 34) with false. change (91 =? 123) with false.
    change (91 =? 91) with true. cbv iota.
    unfold parse_array.
    destruct l as [|x l'].
    + reflexivity.
    + destruct (json_dumps_head x) as (c & t & E & Hc).
      { cbn [forallb] in Hsafe. apply andb_true_iff in Hsafe. tauto. }
      assert (Hs : skip_ws (dumps_elements (x :: l') ++ 93 :: rest)
                   = dumps_elements (x :: l') ++ 93 :: rest).
      { cbn [dumps_elements]. rewrite E. cbn [List.app].
        apply skip_ws_start. unfold value_start in Hc.
        apply andb_true_iff in Hc. destruct Hc as [Hc _].
        apply negb_true_iff in Hc. exact Hc. }
      rewrite Hs.
      rewrite (array_items_read_back (x :: l') IH Hsafe ltac:(discriminate)
                 fuel fuel rest) by lia.
      cbn [dumps_elements]. rewrite E. cbn [List.app].
      unfold value_start in Hc. apply andb_true_iff in Hc.
      destruct Hc as [_ Hc]. apply negb_true_iff in Hc. rewrite Hc.
      reflexivity.
  - rewrite wire_safe_dict in Hsafe. apply andb_true_iff in Hsafe.
    destruct Hsafe as [Hkeys Hsafe].
    rewrite json_dumps_dict in Hfuel |- *.
    cbn [List.length] in Hfuel. rewrite length_app in Hfuel.
    cbn [List.length] in Hfuel.
    destruct fuel as [|fuel]; [lia|].
    cbn [List.app]. rewrite <- app_assoc. cbn [List.app].
    rewrite scan_once_unfold. cbv zeta.
    change (123 =? 34) with false. change (123 =? 123) with true. cbv iota.
    unfold parse_object.
    destruct d as [|[k x] d'].
    + reflexivity.
    + rewrite members_shape.
      change (skip_ws (34 :: ?u)) with (34 :: u). cbv iota.
      change (34 =? 125) with false. cbv iota.
      rewrite <- members_shape.
      rewrite (object_items_read_back ((k, x) :: d') IH Hsafe
                 ltac:(discriminate) fuel fuel rest) by lia.
      cbn [scan_map]. rewrite (dict_of_pairs_distinct _ Hkeys). reflexivity.
Qed.

(** [json.loads] reads back what [json.dumps] wrote, with or without the
    line terminator that follows it on the wire. *)
Lemma json_loads_dumps (v : json) (rest : pystr) :
  wire_safe v = true -> rest = [] \/ rest = [10] ->
  json_loads (json_dumps v ++ rest) = Return v.
Proof.
  intros Hsafe Hrest. unfold json_loads.
  destruct (json_dumps_head v Hsafe) as (c & t & E & Hc).
  assert (Hs : skip_ws (json_dumps v ++ rest) = json_dumps v ++ rest).
  { rewrite E. cbn [List.app]. apply skip_ws_start.
    unfold value_start in Hc. apply andb_true_iff in Hc.
    destruct Hc as [Hc _]. apply negb_true_iff in Hc. exact Hc. }
  rewrite Hs. rewrite (scan_once_dumps v Hsafe).
  - destruct Hrest as [-> | ->]; reflexivity.
  - rewrite length_app. lia.
  - destruct Hrest as [-> | ->]; reflexivity.
Qed.

End CodecFacts.

(** ** The server *)

Section ServerFacts.
Context {F : Type} {RT : PyRuntime F}.
Local Notation json := (json F).
Import Server.
Local Notation server := (@server F).

Lemma dispatch_request (request_str : pystr) (srv : server)
  (items : list (pystr * json)) (method id : json) :
  json_loads request_str = Return (JDict items) ->
  dict_get items (py "method") = Some method ->
  dict_get items (py "id") = Some id ->
  dispatch request_str srv = route method id (params_of items) srv.
Proof.
  intros Hl Hm Hi. unfold dispatch, and_then, lift, params_of.
  rewrite Hl. cbn [py_in py_getitem py_get negb]. rewrite Hm, Hi.
  reflexivity.
Qed.

Lemma handle_request_returned (request_str response : pystr) (srv srv' : server) :
  dispatch request_str srv = (Return response, srv') ->
  handle_request request_str srv = (response, srv').
Proof. intros H. unfold handle_request. rewrite H. reflexivity. Qed.

Lemma handle_request_raised (request_str : pystr) (e : pyexn) (srv srv' : server) :
  dispatch request_str srv = (Raise e, srv') -> e <> JSONDecodeError ->
  handle_request request_str srv
  = (create_error_response JNull (-32603) (py "Internal error: " ++ exn_str e),
     srv').
Proof.
  intros H Hne. unfold handle_request. rewrite H.
  destruct e; try reflexivity. contradiction.
Qed.

Lemma route_unknown (method id params : json) (srv : server) :
  existsb (py_eq_str method) known_methods = false ->
  route method id params srv
  = (Return (create_error_response id (-32601)
               (py "Method not found: " ++ py_str method)), srv).
Proof.
  unfold known_methods. cbn [existsb]. intros H.
  repeat (apply orb_false_iff in H; destruct H as [? H]).
  unfold route.
  repeat match goal with
         | E : py_eq_str method ?k = false |- _ => rewrite E; clear E
         end.
  reflexivity.
Qed.

(** *** No handler raises what the first [except] clause takes *)

Lemma py_get_safe (c : json) (k : pystr) (d : json) : raises_safely (py_get c k d).
Proof. destruct c; simpl; auto; discriminate. Qed.

Lemma py_getitem_safe (c : json) (k : pystr) : raises_safely (py_getitem c k).
Proof.
  destruct c; simpl; try discriminate.
  destruct (dict_get items k); simpl; auto; discriminate.
Qed.

Lemma py_in_safe (k : pystr) (c : json) : raises_safely (py_in k c).
Proof. destruct c; simpl; auto; discriminate. Qed.

Lemma registry_find_safe {A} (reg : list (pystr * A)) (k : json) :
  raises_safely (registry_find reg k).
Proof. destruct k; simpl; auto; discriminate. Qed.

Lemma to_float_safe (n : Z) : raises_safely (to_float n).
Proof. unfold to_float. destruct (float_of_int n); simpl; auto; discriminate. Qed.

Lemma bind_safe {A B} (m : outcome A) (k : A -> outcome B) :
  raises_safely m -> (forall a, raises_safely (k a)) ->
  raises_safely (bind m k).
Proof. destruct m; simpl; auto. Qed.

Lemma py_add_safe (a b : json) : raises_safely (py_add a b).
Proof.
  pose proof to_float_safe as T.
  unfold py_add. destruct a, b; simpl; auto; try discriminate;
    try (destruct b; simpl); try (destruct b0; simpl);
    try (apply bind_safe; [apply T | intros; exact I]);
    auto; try discriminate.
Qed.

Lemma py_mul_safe (a b : json) : raises_safely (py_mul a b).
Proof.
  pose proof to_float_safe as T.
  unfold py_mul. destruct a, b; simpl; auto; try discriminate;
    try (destruct b; simpl); try (destruct b0; simpl);
    try (apply bind_safe; [apply T | intros; exact I]);
    auto; try discriminate.
Qed.

Lemma py_reversed_safe (v : json) : raises_safely (py_reversed v).
Proof. destruct v; simpl; auto; discriminate. Qed.

Lemma missing_argument_safe (names : list pystr) (args : json) :
  raises_safely (missing_argument names args).
Proof.
  induction names as [|n names IH]; simpl; [exact I|].
  apply bind_safe; [apply py_in_safe|].
  intros []; [exact IH | exact I].
Qed.

Lemma bind_handled {A} (m : outcome A) (k : A -> outcome pystr) :
  raises_safely m -> (forall a, handled (k a)) -> handled (bind m k).
Proof. destruct m; simpl; auto. Qed.

Lemma handled_result (id result : json) :
  handled (Return (result_response id result)).
Proof. exact (envelope_result id result). Qed.

Lemma handled_error (id : json) (code : Z) (message : pystr) :
  handled (Return (create_error_response id code message)).
Proof. exact (envelope_error id code message). Qed.

Lemma run_prompt_safe (prompt_id args : json) :
  raises_safely (run_prompt prompt_id args).
Proof.
  unfold run_prompt.
  repeat match goal with
         | |- raises_safely (if ?b then _ else _) => destruct b
         | |- raises_safely (bind _ _) =>
             apply bind_safe; [auto using py_getitem_safe | intro]
         end; auto using py_getitem_safe, py_reversed_safe. exact I.
Qed.

Lemma run_tool_safe (tool_id args : json) :
  raises_safely (run_tool tool_id args).
Proof.
  unfold run_tool.
  repeat match goal with
         | |- raises_safely (if ?b then _ else _) => destruct b
         | |- raises_safely (bind _ _) =>
             apply bind_safe; [auto using py_getitem_safe | intro]
         end; auto using py_add_safe, py_mul_safe. exact I.
Qed.

Create HintDb handlers.
#[local] Hint Resolve run_prompt_safe run_tool_safe py_get_safe py_getitem_safe py_in_safe registry_find_safe
  py_add_safe py_mul_safe py_reversed_safe missing_argument_safe
  handled_result handled_error : handlers.

Ltac handler_steps :=
  repeat match goal with
         | |- handled (Return (result_response _ _)) => apply handled_result
         | |- handled (Return (create_error_response _ _ _)) =>
             apply handled_error
         | |- handled (bind _ _) =>
             apply bind_handled; [auto with handlers | intro]
         | |- raises_safely (bind _ _) =>
             apply bind_safe; [auto with handlers | intro]
         | |- handled (if ?b then _ else _) => destruct b
         | |- handled (match ?o with Some _ => _ | None => _ end) => destruct o
         | |- raises_safely (if ?b then _ else _) => destruct b
         | |- raises_safely (Return _) => exact I
         | |- raises_safely _ => solve [auto with handlers]
         | |- handled (let _ := _ in _) => cbv zeta
         end.

Lemma handle_resources_list_handled (srv : server) (id params : json) :
  handled (handle_resources_list srv id params).
Proof. unfold handle_resources_list. handler_steps. Qed.

Lemma handle_resources_get_handled (srv : server) (id params : json) :
  handled (handle_resources_get srv id params).
Proof. unfold handle_resources_get. handler_steps. Qed.

Lemma handle_prompts_list_handled (srv : server) (id params : json) :
  handled (handle_prompts_list srv id params).
Proof. unfold handle_prompts_list. handler_steps. Qed.

Lemma handle_prompts_execute_handled (srv : server) (id params : json) :
  handled (handle_prompts_execute srv id params).
Proof. unfold handle_prompts_execute. handler_steps. Qed.

Lemma handle_tools_list_handled (srv : server) (id params : json) :
  handled (handle_tools_list srv id params).
Proof. unfold handle_tools_list. handler_steps. Qed.

Lemma handle_tools_execute_handled (srv : server) (id params : json) :
  handled (handle_tools_execute srv id params).
Proof. unfold handle_tools_execute. handler_steps. Qed.

Lemma handle_initialize_handled (srv : server) (id params : json) :
  handled (fst (handle_initialize id params srv)).
Proof.
  unfold handle_initialize.
  match goal with
  | |- context [match ?m with Return _ => _ | Raise _ => _ end] =>
      assert (Hm : raises_safely m) by handler_steps; destruct m as [[[c n] v]|e]
  end; cbn [fst handled]; [apply envelope_result | exact Hm].
Qed.

Lemma handle_shutdown_handled (srv : server) (id params : json) :
  handled (fst (handle_shutdown id params srv)).
Proof. exact (envelope_result id (JDict [])). Qed.

Lemma route_handled (method id params : json) (srv : server) :
  handled (fst (route method id params srv)).
Proof.
  unfold route.
  repeat match goal with
         | |- context [if ?b then _ else _] => destruct b
         end; cbn [fst lift];
    auto using handle_initialize_handled, handle_shutdown_handled,
      handle_resources_list_handled, handle_resources_get_handled,
      handle_prompts_list_handled, handle_prompts_execute_handled,
      handle_tools_list_handled, handle_tools_execute_handled, handled_error.
Qed.

Lemma handle_request_envelope (request_str : pystr) (srv : server) :
  envelope (fst (handle_request request_str srv)).
Proof.
  unfold handle_request.
  assert (H : match fst (dispatch request_str srv) with
              | Return r => envelope r
              | Raise _ => True
              end).
  { unfold dispatch, and_then, lift.
    destruct (json_loads request_str) as [request|e]; [|exact I].
    destruct (py_in (py "method") request) as [[|]|e]; cbn [negb fst];
      [| |exact I].
    - destruct (py_getitem request (py "method")) as [method|e]; [|exact I].
      destruct (py_get request (py "params") (JDict [])) as [params|e];
        [|exact I].
      destruct (py_getitem request (py "id")) as [id|e]; [|exact I].
      pose proof (route_handled method id params srv) as Hr.
      destruct (route method id params srv) as [[r|e] srv']; [exact Hr|exact I].
    - destruct (py_get request (py "id") JNull) as [id|e]; [|exact I].
      apply envelope_error. }
  destruct (dispatch request_str srv) as [[r|e] srv']; cbn [fst] in *.
  - exact H.
  - destruct e; apply envelope_error.
Qed.

Lemma envelope_payload (r : pystr) :
  envelope r -> exists v : json, r = json_dumps v /\ exactly_one_payload v = true.
Proof.
  intros [id result|id code message]; eexists; split; reflexivity.
Qed.

Lemma route_tools_execute (id params : json) (srv : server) :
  route (JStr (py "tools/execute")) id params srv
  = (handle_tools_execute srv id params, srv).
Proof. reflexivity. Qed.

Lemma route_prompts_execute (id params : json) (srv : server) :
  route (JStr (py "prompts/execute")) id params srv
  = (handle_prompts_execute srv id params, srv).
Proof. reflexivity. Qed.

Lemma route_shutdown (id params : json) (srv : server) :
  route (JStr (py "shutdown")) id params srv
  = (Return (result_response id (JDict [])), set_running false srv).
Proof. reflexivity. Qed.

Lemma missing_argument_dict (names : list pystr) (d : list (pystr * json)) :
  missing_argument names (JDict d) = Return (first_absent names d).
Proof.
  induction names as [|n names IH]; [reflexivity|].
  cbn [missing_argument py_in bind first_absent find].
  destruct (dict_get d n); [exact IH | reflexivity].
Qed.

Lemma first_absent_some (names : list pystr) (d : list (pystr * json))
  (n : pystr) :
  In n names -> dict_get d n = None ->
  exists name, first_absent names d = Some name /\
               In name names /\ dict_get d name = None.
Proof.
  intros Hin Hn. unfold first_absent.
  destruct (find _ names) as [name|] eqn:E.
  - apply find_some in E. destruct E as [E1 E2].
    exists name. repeat split; auto.
    destruct (dict_get d name); [discriminate | reflexivity].
  - apply (find_none _ _ E) in Hin. rewrite Hn in Hin. discriminate.
Qed.

Lemma first_absent_none (names : list pystr) (d : list (pystr * json)) :
  (forall n, In n names -> dict_get d n <> None) ->
  first_absent names d = None.
Proof.
  intros H. unfold first_absent.
  destruct (find _ names) as [name|] eqn:E; [|reflexivity].
  apply find_some in E. destruct E as [E1 E2].
  specialize (H name E1). destruct (dict_get d name); [discriminate|].
  contradiction.
Qed.

(** The two execute handlers, up to the argument check. *)
Lemma handle_tools_execute_checked (srv : server) (id : json)
  (pitems aitems : list (pystr * json)) (target : pystr) (tool : entry) :
  dict_get pitems (py "id") = Some (JStr target) -> target <> [] ->
  assoc target (tools srv) = Some tool ->
  args_of pitems = JDict aitems ->
  handle_tools_execute srv id (JDict pitems)
  = match first_absent (map fst (args tool)) aitems with
    | Some arg_name =>
        Return (create_error_response id (-32602)
                  (py "Missing argument: " ++ arg_name))
    | None =>
        result <- run_tool (JStr target) (JDict aitems) ;;
        Return (result_response id (JDict [(py "result", result)]))
    end.
Proof.
  intros Hid Hne Hreg Hargs. unfold handle_tools_execute, args_of in *.
  cbn [py_get bind]. rewrite Hid. rewrite Hargs.
  destruct target as [|c t]; [contradiction|].
  cbn [py_truth negb registry_find bind]. rewrite Hreg.
  rewrite missing_argument_dict. reflexivity.
Qed.

Lemma handle_prompts_execute_checked (srv : server) (id : json)
  (pitems aitems : list (pystr * json)) (target : pystr) (prompt : entry) :
  dict_get pitems (py "id") = Some (JStr target) -> target <> [] ->
  assoc target (prompts srv) = Some prompt ->
  args_of pitems = JDict aitems ->
  handle_prompts_execute srv id (JDict pitems)
  = match first_absent (map fst (args prompt)) aitems with
    | Some arg_name =>
        Return (create_error_response id (-32602)
                  (py "Missing argument: " ++ arg_name))
    | None =>
        result <- run_prompt (JStr target) (JDict aitems) ;;
        Return (result_response id (JDict [(py "result", result)]))
    end.
Proof.
  intros Hid Hne Hreg Hargs. unfold handle_prompts_execute, args_of in *.
  cbn [py_get bind]. rewrite Hid. rewrite Hargs.
  destruct target as [|c t]; [contradiction|].
  cbn [py_truth negb registry_find bind]. rewrite Hreg.
  rewrite missing_argument_dict. reflexivity.
Qed.

Lemma execute_checked (kind : execute_kind) (srv : server)
  (request_str : pystr) (items pitems aitems : list (pystr * json))
  (id : json) (target : pystr) (e : entry) :
  json_loads request_str = Return (JDict items) ->
  dict_get items (py "method") = Some (JStr (execute_method kind)) ->
  dict_get items (py "id") = Some id ->
  dict_get items (py "params") = Some (JDict pitems) ->
  dict_get pitems (py "id") = Some (JStr target) -> target <> [] ->
  assoc target (registry kind srv) = Some e ->
  args_of pitems = JDict aitems ->
  dispatch request_str srv
  = (match first_absent (map fst (args e)) aitems with
     | Some arg_name =>
         Return (create_error_response id (-32602)
                   (py "Missing argument: " ++ arg_name))
     | None =>
         result <- run_entry kind (JStr target) (JDict aitems) ;;
         Return (result_response id (JDict [(py "result", result)]))
     end, srv).
Proof.
  intros Hl Hm Hi Hp Ht Hne Hreg Hargs.
  rewrite (dispatch_request request_str srv items _ id Hl Hm Hi).
  unfold params_of. rewrite Hp.
  destruct kind; cbn [execute_method registry run_entry] in *.
  - rewrite route_tools_execute.
    rewrite (handle_tools_execute_checked srv id pitems aitems target e);
      auto.
  - rewrite route_prompts_execute.
    rewrite (handle_prompts_execute_checked srv id pitems aitems target e);
      auto.
Qed.

(** C2 (as amended).  A request that carries an id and whose method is
    none of the names [route] knows is answered with error -32601 and
    that id, whatever its params. *)
Theorem unknown_method_not_found (srv : server) (request_str : pystr)
  (items : list (pystr * json)) (method id : json) :
  json_loads request_str = Return (JDict items) ->
  dict_get items (py "method") = Some method ->
  dict_get items (py "id") = Some id ->
  existsb (py_eq_str method) known_methods = false ->
  handle_request request_str srv
  = (create_error_response id (-32601)
       (py "Method not found: " ++ py_str method), srv).
Proof.
  intros Hl Hm Hi Hk. apply handle_request_returned.
  rewrite (dispatch_request request_str srv items method id Hl Hm Hi).
  apply route_unknown. exact Hk.
Qed.

(** C3 (as amended).  When the handler a request is routed to raises,
    the response is error -32603 with the message of the exception, and
    its id is null: the id of the request is not echoed. *)
Theorem handler_failure_internal_error (srv srv' : server)
  (request_str : pystr) (items : list (pystr * json)) (method id : json)
  (e : pyexn) :
  json_loads request_str = Return (JDict items) ->
  dict_get items (py "method") = Some method ->
  dict_get items (py "id") = Some id ->
  route method id (params_of items) srv = (Raise e, srv') ->
  handle_request request_str srv
  = (create_error_response JNull (-32603) (py "Internal error: " ++ exn_str e),
     srv').
Proof.
  intros Hl Hm Hi Hr. apply handle_request_raised.
  - rewrite (dispatch_request request_str srv items method id Hl Hm Hi).
    exact Hr.
  - pose proof (route_handled method id (params_of items) srv) as H.
    rewrite Hr in H. exact H.
Qed.



(** C6.  Whatever the line and the state, the response of
    [handle_request] is the text of an object with exactly one of the
    members result and error. *)
Theorem response_has_exactly_one_payload (request_str : pystr) (srv : server) :
  exists v : json,
    fst (handle_request request_str srv) = json_dumps v /\
    exactly_one_payload v = true.
Proof.
  apply envelope_payload. apply handle_request_envelope.
Qed.

Lemma run_loop_step (srv : server) (request_str : pystr) (stdin : list pystr) :
  running srv = true ->
  run_loop srv (request_str :: stdin)
  = run_loop (print (fst (handle_request request_str srv))
                    (snd (handle_request request_str srv))) stdin.
Proof.
  intros H. cbn [run_loop]. rewrite H.
  destruct (handle_request request_str srv). reflexivity.
Qed.

Lemma run_loop_stopped (srv : server) (stdin : list pystr) :
  running srv = false -> run_loop srv stdin = (srv, stdin).
Proof. intros H. destruct stdin; cbn [run_loop]; rewrite H; reflexivity. Qed.


Lemma handle_request_parse_error (request_str : pystr) (srv : server) :
  json_loads request_str = Raise JSONDecodeError ->
  handle_request request_str srv
  = (create_error_response JNull (-32700) (py "Parse error"), srv).
Proof.
  intros H. unfold handle_request, dispatch, and_then, lift. rewrite H.
  reflexivity.
Qed.

Lemma handle_request_not_object (request_str : pystr) (srv : server) (v : json) :
  json_loads request_str = Return v -> type_of v <> TDict ->
  exists e,
    handle_request request_str srv
    = (create_error_response JNull (-32603)
         (py "Internal error: " ++ exn_str e), srv).
Proof.
  intros H Hv.
  assert (Hd : exists e, dispatch request_str srv = (Raise e, srv) /\
                         e <> JSONDecodeError).
  { unfold dispatch, and_then, lift. rewrite H.
    destruct v as [|b|n|f|s|l|d]; cbn [py_in py_get py_getitem bind negb];
      try (eexists; split; [reflexivity | discriminate]).
    - destruct (is_substring (py "method") s); cbn [negb];
        eexists; split; try reflexivity; discriminate.
    - destruct (existsb (fun v => py_eq_str v (py "method")) l); cbn [negb];
        eexists; split; try reflexivity; discriminate.
    - contradiction Hv. reflexivity. }
  destruct Hd as (e & Hd & He). exists e.
  apply handle_request_raised; assumption.
Qed.

Lemma handle_request_no_method (request_str : pystr) (srv : server)
  (items : list (pystr * json)) :
  json_loads request_str = Return (JDict items) ->
  dict_get items (py "method") = None ->
  handle_request request_str srv
  = (create_error_response
       (match dict_get items (py "id") with Some i => i | None => JNull end)
       (-32600) (py "Invalid Request"), srv).
Proof.
  intros H Hm. apply handle_request_returned.
  unfold dispatch, and_then, lift. rewrite H.
  cbn [py_in py_get bind]. rewrite Hm. reflexivity.
Qed.

Lemma malformed_keeps_state (request_str : pystr) (srv : server) :
  malformed request_str -> snd (handle_request request_str srv) = srv.
Proof.
  unfold malformed. intros H.
  destruct (json_loads_outcome request_str) as [[v Hv]|He].
  - rewrite Hv in H. destruct v as [|b|n|f|s|l|d];
      try (destruct (handle_request_not_object request_str srv _ Hv
                       ltac:(discriminate)) as (e & E);
           rewrite E; reflexivity).
    rewrite (handle_request_no_method request_str srv d Hv H). reflexivity.
  - rewrite (handle_request_parse_error request_str srv He). reflexivity.
Qed.


End ServerFacts.

(** ** The client *)

Section ClientFacts.
Context {F : Type} {RT : PyRuntime F}.
Local Notation json := (json F).
Import Client.
Local Notation client := (@client F).

Lemma send_request_keeps_counter (request : json) (c : client) :
  request_id (snd (send_request request c)) = request_id c.
Proof.
  unfold send_request.
  destruct (pystr_eqb (transport c) (py "stdio")); [|reflexivity].
  destruct (reader c) as [|line incoming]; [reflexivity|].
  destruct line; [reflexivity|].
  destruct (json_loads _) as [v|[]]; reflexivity.
Qed.

Lemma session_ids (calls : list call) (c : client) :
  fst (session calls c)
  = map (fun k => (request_id c + Z.of_nat k)%Z) (seq 1 (allocations calls)).
Proof.
  revert c. induction calls as [|[|request] calls IH]; intros c.
  - reflexivity.
  - cbn [session next_id]. unfold allocations in *. cbn [filter List.length].
    specialize (IH (set_request_id (request_id c + 1) c)).
    destruct (session calls _) as [ids c2]. cbn [fst] in *.
    cbn [seq map]. f_equal.
    rewrite IH. cbn [request_id set_request_id].
    rewrite <- (seq_shift _ 1). rewrite map_map.
    apply map_ext. intros k. lia.
  - cbn [session]. unfold allocations in *. cbn [filter].
    rewrite IH. rewrite send_request_keeps_counter. reflexivity.
Qed.

(** C7.  On a fresh client, whatever requests are sent in between, the
    nth call of [next_id] returns n: the first id is 1 and each id is
    greater than all the ids before it. *)
Theorem next_id_counts_from_one (server_url : option pystr)
  (transport : pystr) (incoming : list pystr) (calls : list call) :
  let ids := fst (session calls (init server_url transport incoming)) in
  ids = map Z.of_nat (seq 1 (allocations calls)) /\
  (forall n, (1 <= n <= allocations calls)%nat ->
             nth_error ids (n - 1) = Some (Z.of_nat n)) /\
  (forall i j a b, (i < j)%nat -> nth_error ids i = Some a ->
                   nth_error ids j = Some b -> (a < b)%Z).
Proof.
  cbv zeta. rewrite session_ids. cbn [request_id init].
  assert (E : map (fun k => (0 + Z.of_nat k)%Z) (seq 1 (allocations calls))
              = map Z.of_nat (seq 1 (allocations calls))).
  { apply map_ext. intros k. lia. }
  rewrite E. split; [reflexivity|].
  assert (N : forall i a, nth_error (map Z.of_nat (seq 1 (allocations calls))) i
                          = Some a ->
                          (i < allocations calls)%nat /\ a = Z.of_nat (S i)).
  { intros i a H. rewrite nth_error_map in H.
    destruct (nth_error (seq 1 (allocations calls)) i) as [k|] eqn:Ek;
      [|discriminate].
    injection H as <-.
    assert (Hi : (i < allocations calls)%nat).
    { rewrite <- (length_seq (allocations calls) 1).
      apply nth_error_Some. rewrite Ek. discriminate. }
    split; [exact Hi|].
    rewrite (nth_error_nth' _ 0%nat) in Ek by (rewrite length_seq; exact Hi).
    rewrite seq_nth in Ek by exact Hi. injection Ek as <-. reflexivity. }
  split.
  - intros n Hn. rewrite nth_error_map.
    rewrite (nth_error_nth' _ 0%nat) by (rewrite length_seq; lia).
    rewrite seq_nth by lia. cbn [option_map]. f_equal. f_equal. lia.
  - intros i j a b Hij Ha Hb.
    apply N in Ha. apply N in Hb. lia.
Qed.

Lemma json_loads_empty : json_loads (F := F) [] = Raise JSONDecodeError.
Proof. reflexivity. Qed.

Lemma send_request_decodes_next_line (c : client) (request response : json)
  (line : pystr) (incoming : list pystr) :
  transport c = py "stdio" ->
  reader c = line :: incoming ->
  json_loads line = Return response ->
  send_request request c
  = (Return (Some response),
     set_streams (writer c ++ [json_dumps request ++ [10]]) incoming c).
Proof.
  intros Ht Hr Hl. unfold send_request. rewrite Ht, Hr.
  rewrite pystr_eqb_refl.
  destruct line as [|ch line'].
  - rewrite json_loads_empty in Hl. discriminate.
  - rewrite Hl. reflexivity.
Qed.


End ClientFacts.

(** ** The codec at both ends of the wire *)

Section WireFacts.
Context {F : Type} {RT : PyRuntime F}.
Local Notation json := (json F).


End WireFacts.

(** * The scenarios, checked *)

Section Scenarios.
Import Examples.



Lemma unknown_method_not_found_witness :
  Server.handle_request (json_dumps nonexistent) Server.init
  = (Server.create_error_response (JInt 3) (-32601)
       (py "Method not found: " ++ py_str (JStr (py "nonexistent") : J)),
     Server.init).
Proof.
  refine (unknown_method_not_found Server.init (json_dumps nonexistent)
            (members nonexistent) (JStr (py "nonexistent")) (JInt 3) _ _ _ _);
    vm_compute; reflexivity.
Defined.

(** C2, refuted as stated: without an id the unknown method is answered with
    error -32603 and a null id, not with -32601. *)
Lemma unknown_method_without_id :
  let response :=
    fst (Server.handle_request (json_dumps nonexistent_without_id) Server.init) in
  response
  = Server.create_error_response (JNull : J) (-32603)
      (py "Internal error: " ++ exn_str (KeyError (py "id"))) /\
  error_code response = Some (-32603)%Z /\
  error_code response <> Some (-32601)%Z /\
  response_id response = Some JNull.
Proof. vm_compute. repeat split. discriminate. Qed.

Lemma handler_failure_internal_error_witness :
  Server.handle_request (json_dumps add_number_text) Server.init
  = (Server.create_error_response (JNull : J) (-32603)
       (py "Internal error: " ++ exn_str (TypeError OpAdd [TInt; TStr])),
     Server.init).
Proof.
  refine (handler_failure_internal_error Server.init Server.init
            (json_dumps add_number_text) (members add_number_text)
            (JStr (py "tools/execute")) (JInt 5)
            (TypeError OpAdd [TInt; TStr]) _ _ _ _);
    vm_compute; reflexivity.
Defined.

(** C3, refuted as stated: add on a number and a text raises; the request
    has id 5, the response a null id. *)
Lemma handler_failure_drops_id :
  let response :=
    fst (Server.handle_request (json_dumps add_number_text) Server.init) in
  message_id add_number_text = Some (JInt 5) /\
  error_code response = Some (-32603)%Z /\
  response_id response = Some JNull /\
  response_id response <> Some (JInt 5).
Proof. vm_compute. repeat split. discriminate. Qed.




Lemma next_id_counts_from_one_witness :
  let ids :=
    fst (session [NextId; SendRequest add_2_3; NextId; NextId]
           (Client.init None (py "stdio") [])) in
  ids = [1; 2; 3]%Z.
Proof.
  cbv zeta.
  rewrite (proj1 (next_id_counts_from_one None (py "stdio") []
                    [NextId; SendRequest add_2_3; NextId; NextId])).
  reflexivity.
Defined.





End Scenarios.

(** * Further properties of the server *)

Section ServerState.
Context {F : Type} {RT : PyRuntime F}.
Local Notation json := (json F).
Import Server.
Local Notation server := (@server F).

Lemma same_tables_refl (srv : server) : same_tables srv srv.
Proof. repeat split. Qed.

Lemma same_tables_trans (a b c : server) :
  same_tables a b -> same_tables b c -> same_tables a c.
Proof.
  unfold same_tables. intros (A1 & A2 & A3 & A4 & A5) (B1 & B2 & B3 & B4 & B5).
  repeat split; congruence.
Qed.

Lemma same_tables_print (text : pystr) (srv : server) :
  same_tables srv (print text srv).
Proof. repeat split. Qed.

(** What a method does to the state: nothing, two log lines, or the
    clearing of [running], the last for the shutdown method only. *)
Lemma route_effect (method id params : json) (srv : server) :
  snd (route method id params srv) = srv \/
  (exists a b, snd (route method id params srv) = print b (print a srv)) \/
  (snd (route method id params srv) = set_running false srv /\
   method = JStr (py "shutdown")).
Proof.
  unfold route.
  destruct (py_eq_str method (py "initialize")).
  { unfold handle_initialize.
    match goal with
    | |- context [match ?m with Return _ => _ | Raise _ => _ end] =>
        destruct m as [[[c n] v]|e]
    end; cbn [snd]; [right; left; eauto | left; reflexivity]. }
  destruct (py_eq_str method (py "shutdown")) eqn:E.
  { right. right. split; [reflexivity|].
    destruct method; try discriminate. unfold py_eq_str in E.
    apply pystr_eqb_eq in E. subst. reflexivity. }
  repeat match goal with
         | |- context [if ?b then _ else _] => destruct b
         end; left; reflexivity.
Qed.

Lemma dispatch_effect (request_str : pystr) (srv : server) :
  snd (dispatch request_str srv) = srv \/
  (exists a b, snd (dispatch request_str srv) = print b (print a srv)) \/
  (snd (dispatch request_str srv) = set_running false srv /\
   is_shutdown request_str).
Proof.
  unfold dispatch, and_then, lift, is_shutdown, method_of.
  destruct (json_loads request_str) as [request|e]; [|left; reflexivity].
  destruct (py_in (py "method") request) as [[|]|e]; cbn [negb];
    try (left; reflexivity).
  destruct (py_getitem request (py "method")) as [method|e] eqn:Em;
      [|left; reflexivity].
    destruct (py_get request (py "params") (JDict [])) as [params|e];
      [|left; reflexivity].
    destruct (py_getitem request (py "id")) as [id|e]; [|left; reflexivity].
    destruct (route_effect method id params srv) as [H|[H|[H1 H2]]]; auto.
    right. right. split; [exact H1|].
    unfold py_getitem in Em. destruct request; try discriminate.
    destruct (dict_get items (py "method")); [|discriminate].
    congruence.
Qed.

Lemma handle_request_state (request_str : pystr) (srv : server) :
  snd (handle_request request_str srv) = snd (dispatch request_str srv).
Proof.
  unfold handle_request.
  destruct (dispatch request_str srv) as [[r|e] srv']; [reflexivity|].
  destruct e; reflexivity.
Qed.

Lemma handle_request_effect (request_str : pystr) (srv : server) :
  same_tables srv (snd (handle_request request_str srv)) /\
  (exists logs,
     stdout (snd (handle_request request_str srv)) = stdout srv ++ logs) /\
  (running (snd (handle_request request_str srv)) = running srv \/
   (running (snd (handle_request request_str srv)) = false /\
    is_shutdown request_str)).
Proof.
  rewrite handle_request_state.
  destruct (dispatch_effect request_str srv) as [H|[(a & b & H)|[H1 H2]]].
  - rewrite H. split; [apply same_tables_refl|].
    split; [exists []; rewrite List.app_nil_r; reflexivity | left; reflexivity].
  - rewrite H. split; [repeat split|].
    split; [|left; reflexivity].
    exists [a; b]. cbn [stdout print]. rewrite <- app_assoc. reflexivity.
  - rewrite H1. split; [repeat split|].
    split; [exists []; rewrite List.app_nil_r; reflexivity|].
    right. split; [reflexivity | exact H2].
Qed.

(** X1.  Handling a line never assigns the tables of the server (its
    capabilities, resources, prompts, tools, nor its unused counter); it
    only appends to standard output; and it clears [running] for a
    shutdown request only. *)
Theorem handle_request_keeps_tables (request_str : pystr) (srv : server) :
  same_tables srv (snd (handle_request request_str srv)) /\
  (exists logs,
     stdout (snd (handle_request request_str srv)) = stdout srv ++ logs) /\
  (running (snd (handle_request request_str srv)) = running srv \/
   (running (snd (handle_request request_str srv)) = false /\
    is_shutdown request_str)).
Proof. exact (handle_request_effect request_str srv). Qed.

Lemma handle_request_tables (request_str : pystr) (srv : server) :
  same_tables srv (snd (handle_request request_str srv)).
Proof.
  rewrite handle_request_state.
  destruct (dispatch_effect request_str srv) as [H|[(a & b & H)|[H1 H2]]];
    [rewrite H | rewrite H | rewrite H1]; repeat split.
Qed.

Lemma run_loop_tables (stdin : list pystr) (srv : server) :
  same_tables srv (fst (run_loop srv stdin)).
Proof.
  revert srv. induction stdin as [|line stdin IH]; intros srv.
  - cbn [run_loop]. destruct (running srv); apply same_tables_refl.
  - cbn [run_loop]. destruct (running srv); [|apply same_tables_refl].
    pose proof (handle_request_tables line srv) as H.
    destruct (handle_request line srv) as [response srv']. cbn [snd] in H.
    eapply same_tables_trans; [exact H|].
    eapply same_tables_trans; [apply (same_tables_print response)|].
    apply IH.
Qed.

Lemma route_response_tables (method id params : json) (srv srv' : server) :
  same_tables srv srv' ->
  fst (route method id params srv) = fst (route method id params srv').
Proof.
  intros (_ & Hc & Hr & Hp & Ht). unfold route.
  repeat match goal with
         | |- context [if ?b then _ else _] => destruct b
         end; cbn [fst lift]; try reflexivity.
  - unfold handle_initialize. rewrite Hc.
    match goal with
    | |- context [match ?m with Return _ => _ | Raise _ => _ end] =>
        destruct m as [[[c n] v]|e]
    end; reflexivity.
  - unfold handle_resources_list. rewrite Hr. reflexivity.
  - unfold handle_resources_get. rewrite Hr. reflexivity.
  - unfold handle_prompts_list. rewrite Hp. reflexivity.
  - unfold handle_prompts_execute. rewrite Hp. reflexivity.
  - unfold handle_tools_list. rewrite Ht. reflexivity.
  - unfold handle_tools_execute. rewrite Ht. reflexivity.
Qed.

Lemma handle_request_response_tables (request_str : pystr) (srv srv' : server) :
  same_tables srv srv' ->
  fst (handle_request request_str srv) = fst (handle_request request_str srv').
Proof.
  intros H.
  assert (E : fst (dispatch request_str srv) = fst (dispatch request_str srv')).
  { unfold dispatch, and_then, lift.
    destruct (json_loads request_str) as [request|e]; [|reflexivity].
    destruct (py_in (py "method") request) as [[|]|e]; cbn [negb];
      try reflexivity.
    destruct (py_getitem request (py "method")) as [method|e]; [|reflexivity].
    destruct (py_get request (py "params") (JDict [])) as [params|e];
      [|reflexivity].
    destruct (py_getitem request (py "id")) as [id|e]; [|reflexivity].
    apply route_response_tables. exact H. }
  unfold handle_request.
  destruct (dispatch request_str srv) as [[r|e] s1];
    destruct (dispatch request_str srv') as [[r'|e'] s2]; cbn [fst] in *;
    try discriminate.
  - congruence.
  - injection E as ->. destruct e'; reflexivity.
Qed.

(** X2.  The response to a line does not depend on what the server has
    handled before: after any lines read by the loop of [run], it is the
    response a server that has read nothing gives. *)
Theorem response_independent_of_history (history : list pystr)
  (request_str : pystr) (srv : server) :
  fst (handle_request request_str (fst (run_loop srv history)))
  = fst (handle_request request_str srv).
Proof.
  symmetry. apply handle_request_response_tables. apply run_loop_tables.
Qed.

Lemma run_loop_reads_all (stdin : list pystr) (srv : server) :
  running srv = true ->
  Forall (fun line => ~ is_shutdown line) stdin ->
  snd (run_loop srv stdin) = [] /\
  running (fst (run_loop srv stdin)) = true /\
  (List.length (stdout srv) + List.length stdin
   <= List.length (stdout (fst (run_loop srv stdin))))%nat.
Proof.
  intros Hrun Hall. revert srv Hrun.
  induction Hall as [|line stdin Hline Hall IH]; intros srv Hrun.
  - cbn [run_loop]. rewrite Hrun. cbn. repeat split; auto. lia.
  - cbn [run_loop]. rewrite Hrun.
    destruct (handle_request_effect line srv) as (_ & (logs & Ho) & Hr).
    destruct (handle_request line srv) as [response srv']. cbn [snd] in *.
    assert (Hrun' : running (print response srv') = true).
    { cbn [running print]. destruct Hr as [Hr|[_ Hr]]; [congruence|].
      contradiction. }
    destruct (IH (print response srv') Hrun') as (H1 & H2 & H3).
    repeat split; auto.
    cbn [stdout print] in H3. rewrite Ho in H3.
    rewrite !length_app in H3. cbn [List.length] in *. lia.
Qed.

(** X3.  The loop of [run] reads the lines in order and stops on the end
    of input or after a shutdown request, on nothing else: what it leaves
    unread is a suffix of the input, empty when [running] still holds; and
    when no line is a shutdown request it reads every line, malformed or
    not, and prints at least one line for each. *)
Theorem run_loop_stops_on_shutdown_only (stdin : list pystr) (srv : server) :
  (exists read, stdin = read ++ snd (run_loop srv stdin)) /\
  (running (fst (run_loop srv stdin)) = true -> snd (run_loop srv stdin) = []) /\
  (running srv = true ->
   Forall (fun line => ~ is_shutdown line) stdin ->
   snd (run_loop srv stdin) = [] /\
   running (fst (run_loop srv stdin)) = true /\
   (List.length (stdout srv) + List.length stdin
    <= List.length (stdout (fst (run_loop srv stdin))))%nat).
Proof.
  split; [|split; [|apply run_loop_reads_all]].
  - revert srv. induction stdin as [|line stdin IH]; intros srv.
    + exists []. cbn [run_loop]. destruct (running srv); reflexivity.
    + cbn [run_loop]. destruct (running srv).
      * destruct (handle_request line srv) as [response srv'].
        destruct (IH (print response srv')) as (read & E).
        exists (line :: read). cbn [List.app]. f_equal. exact E.
      * exists []. reflexivity.
  - revert srv. induction stdin as [|line stdin IH]; intros srv.
    + cbn [run_loop]. destruct (running srv); reflexivity.
    + cbn [run_loop]. destruct (running srv) eqn:E.
      * destruct (handle_request line srv) as [response srv']. apply IH.
      * cbn [fst]. congruence.
Qed.

End ServerState.

(** * Further properties of the handlers *)

Section HandlerFacts.
Context {F : Type} {RT : PyRuntime F}.
Local Notation json := (json F).
Import Server.
Local Notation server := (@server F).

Lemma run_tool_arithmetic (target : pystr) (aitems : list (pystr * json))
  (a b : json) (x y : Z) :
  target = py "add" \/ target = py "multiply" ->
  dict_get aitems (py "a") = Some a -> dict_get aitems (py "b") = Some b ->
  as_int a = Some x -> as_int b = Some y ->
  run_tool (JStr target) (JDict aitems) = Return (JInt (arithmetic target x y)).
Proof.
  intros Ht Ha Hb Hx Hy.
  destruct Ht as [-> | ->]; unfold run_tool, arithmetic.
  - change (py_eq_str (JStr (py "add")) (py "add")) with true.
    change (pystr_eqb (py "add") (py "add")) with true. cbv iota.
    cbn [py_getitem bind]. rewrite Ha, Hb. cbn [bind].
    unfold py_add. rewrite Hx, Hy. reflexivity.
  - change (py_eq_str (JStr (py "multiply")) (py "add")) with false.
    change (py_eq_str (JStr (py "multiply")) (py "multiply")) with true.
    change (pystr_eqb (py "multiply") (py "add")) with false. cbv iota.
    cbn [py_getitem bind]. rewrite Ha, Hb. cbn [bind].
    unfold py_mul. rewrite Hx, Hy. reflexivity.
Qed.

Lemma handle_request_arithmetic (srv : server) (request_str : pystr)
  (items pitems aitems : list (pystr * json))
  (id : json) (target : pystr) (e : entry) (a b : json) (x y : Z) :
  json_loads request_str = Return (JDict items) ->
  dict_get items (py "method") = Some (JStr (py "tools/execute")) ->
  dict_get items (py "id") = Some id ->
  dict_get items (py "params") = Some (JDict pitems) ->
  dict_get pitems (py "id") = Some (JStr target) ->
  target = py "add" \/ target = py "multiply" ->
  assoc target (tools srv) = Some e ->
  map fst (args e) = [py "a"; py "b"] ->
  args_of pitems = JDict aitems ->
  dict_get aitems (py "a") = Some a -> dict_get aitems (py "b") = Some b ->
  as_int a = Some x -> as_int b = Some y ->
  handle_request request_str srv
  = (result_response id (JDict [(py "result", JInt (arithmetic target x y))]),
     srv).
Proof.
  intros Hl Hm Hi Hp Ht Htarget Hreg Hdecl Hargs Ha Hb Hx Hy.
  apply handle_request_returned.
  rewrite (execute_checked Tools srv request_str items pitems aitems id
             target e Hl Hm Hi Hp Ht); auto.
  - rewrite first_absent_none.
    + cbn [run_entry]. rewrite (run_tool_arithmetic target aitems a b x y); auto.
    + rewrite Hdecl. intros n [<-|[<-|[]]]; congruence.
  - destruct Htarget as [-> | ->]; discriminate.
Qed.


Lemma run_prompt_echo (aitems : list (pystr * json)) (text : json) :
  dict_get aitems (py "text") = Some text ->
  run_prompt (JStr (py "echo")) (JDict aitems) = Return text.
Proof.
  intros H. unfold run_prompt.
  change (py_eq_str (JStr (py "echo")) (py "echo")) with true. cbv iota.
  cbn [py_getitem]. rewrite H. reflexivity.
Qed.

Lemma run_prompt_reverse (aitems : list (pystr * json)) (text : json) :
  dict_get aitems (py "text") = Some text ->
  run_prompt (JStr (py "reverse")) (JDict aitems) = py_reversed text.
Proof.
  intros H. unfold run_prompt.
  change (py_eq_str (JStr (py "reverse")) (py "echo")) with false.
  change (py_eq_str (JStr (py "reverse")) (py "reverse")) with true. cbv iota.
  cbn [py_getitem bind]. rewrite H. reflexivity.
Qed.

Lemma handle_request_echo_reverse (srv : server) (request_str : pystr)
  (items pitems aitems : list (pystr * json))
  (id text : json) (target : pystr) (e : entry) :
  json_loads request_str = Return (JDict items) ->
  dict_get items (py "method") = Some (JStr (py "prompts/execute")) ->
  dict_get items (py "id") = Some id ->
  dict_get items (py "params") = Some (JDict pitems) ->
  dict_get pitems (py "id") = Some (JStr target) ->
  assoc target (prompts srv) = Some e ->
  map fst (args e) = [py "text"] ->
  args_of pitems = JDict aitems ->
  dict_get aitems (py "text") = Some text ->
  (target = py "echo" ->
   handle_request request_str srv
   = (result_response id (JDict [(py "result", text)]), srv)) /\
  (target = py "reverse" ->
   (forall s, text = JStr s ->
      handle_request request_str srv
      = (result_response id (JDict [(py "result", JStr (List.rev s))]), srv)) /\
   (forall l, text = JList l ->
      handle_request request_str srv
      = (result_response id (JDict [(py "result", JList (List.rev l))]), srv))).
Proof.
  intros Hl Hm Hi Hp Ht Hreg Hdecl Hargs Htext.
  assert (Hd : target <> [] ->
               dispatch request_str srv
               = (result <- run_prompt (JStr target) (JDict aitems) ;;
                  Return (result_response id (JDict [(py "result", result)])),
                  srv)).
  { intros Hne.
    rewrite (execute_checked Prompts srv request_str items pitems aitems id
               target e Hl Hm Hi Hp Ht); auto.
    rewrite first_absent_none; [reflexivity|].
    rewrite Hdecl. intros n [<-|[]]. congruence. }
  split.
  - intros ->. apply handle_request_returned.
    rewrite Hd by discriminate. rewrite (run_prompt_echo aitems text Htext).
    reflexivity.
  - intros ->. split.
    + intros s' ->. apply handle_request_returned.
      rewrite Hd by discriminate.
      rewrite (run_prompt_reverse aitems _ Htext). reflexivity.
    + intros l ->. apply handle_request_returned.
      rewrite Hd by discriminate.
      rewrite (run_prompt_reverse aitems _ Htext). reflexivity.
Qed.

(** X5.  A prompts/execute request whose args hold [text] is answered,
    for echo, with that text as it is, of whatever type; for reverse on a
    text or a list, with its characters or elements in reverse order. *)
Theorem echo_and_reverse (srv : server) (request_str : pystr)
  (items pitems aitems : list (pystr * json))
  (id text : json) (target : pystr) (e : entry) :
  json_loads request_str = Return (JDict items) ->
  dict_get items (py "method") = Some (JStr (py "prompts/execute")) ->
  dict_get items (py "id") = Some id ->
  dict_get items (py "params") = Some (JDict pitems) ->
  dict_get pitems (py "id") = Some (JStr target) ->
  assoc target (prompts srv) = Some e ->
  map fst (args e) = [py "text"] ->
  args_of pitems = JDict aitems ->
  dict_get aitems (py "text") = Some text ->
  (target = py "echo" ->
   handle_request request_str srv
   = (result_response id (JDict [(py "result", text)]), srv)) /\
  (target = py "reverse" ->
   (forall s, text = JStr s ->
      handle_request request_str srv
      = (result_response id (JDict [(py "result", JStr (List.rev s))]), srv)) /\
   (forall l, text = JList l ->
      handle_request request_str srv
      = (result_response id (JDict [(py "result", JList (List.rev l))]), srv))).
Proof.
  exact (handle_request_echo_reverse srv request_str items pitems aitems id
           text target e).
Qed.

Lemma route_resources_get (id params : json) (srv : server) :
  route (JStr (py "resources/get")) id params srv
  = (handle_resources_get srv id params, srv).
Proof. reflexivity. Qed.

(** X6.  A resources/get request is answered with the type and content of
    the resource when [uri] is the key of one; when [uri] is missing,
    empty, or a text or scalar that is no key, with error -32602
    "Resource not found: <uri>".  Both carry the id of the request. *)
Theorem resources_get_found_or_not (srv : server) (request_str : pystr)
  (items pitems : list (pystr * json)) (id : json) :
  json_loads request_str = Return (JDict items) ->
  dict_get items (py "method") = Some (JStr (py "resources/get")) ->
  dict_get items (py "id") = Some id ->
  params_of items = JDict pitems ->
  (forall u r, param pitems "uri" = JStr u -> u <> [] ->
     assoc u (resources srv) = Some r ->
     handle_request request_str srv
     = (result_response id
          (JDict [(py "uri", JStr u); (py "type", JStr (mime_type r));
                  (py "content", JStr (content r))]), srv)) /\
  (py_truth (param pitems "uri") = false \/
   registry_find (resources srv) (param pitems "uri") = Return None ->
   handle_request request_str srv
   = (create_error_response id (-32602)
        (py "Resource not found: " ++ py_str (param pitems "uri")), srv)).
Proof.
  intros Hl Hm Hi Hp.
  assert (Hd : dispatch request_str srv
               = (handle_resources_get srv id (JDict pitems), srv)).
  { rewrite (dispatch_request request_str srv items _ id Hl Hm Hi).
    rewrite Hp. apply route_resources_get. }
  assert (Hu : py_get (JDict pitems) (py "uri") JNull
               = Return (param pitems "uri")) by reflexivity.
  split.
  - intros u r Eu Hne Hr. apply handle_request_returned. rewrite Hd.
    unfold handle_resources_get. rewrite Hu, Eu. cbn [bind].
    destruct u as [|ch u']; [contradiction|].
    cbn [py_truth negb registry_find bind]. rewrite Hr. reflexivity.
  - intros H. apply handle_request_returned. rewrite Hd.
    unfold handle_resources_get. rewrite Hu. cbn [bind].
    destruct (py_truth (param pitems "uri")) eqn:E; cbn [negb].
    + destruct H as [H|H]; [discriminate|]. rewrite H. reflexivity.
    + reflexivity.
Qed.

(** X7.  A tools/execute or prompts/execute request whose [id] is missing,
    empty, or a text or scalar that is no key of the registry is answered
    with error -32602 "Tool not found: <id>" or "Prompt not found: <id>"
    under the id of the request, whatever its args. *)
Theorem execute_unknown_entry (kind : execute_kind) (srv : server)
  (request_str : pystr) (items pitems : list (pystr * json)) (id : json) :
  json_loads request_str = Return (JDict items) ->
  dict_get items (py "method") = Some (JStr (execute_method kind)) ->
  dict_get items (py "id") = Some id ->
  params_of items = JDict pitems ->
  py_truth (param pitems "id") = false \/
  registry_find (registry kind srv) (param pitems "id") = Return None ->
  handle_request request_str srv
  = (create_error_response id (-32602)
       (not_found_prefix kind ++ py_str (param pitems "id")), srv).
Proof.
  intros Hl Hm Hi Hp H. apply handle_request_returned.
  rewrite (dispatch_request request_str srv items _ id Hl Hm Hi). rewrite Hp.
  assert (Hu : py_get (JDict pitems) (py "id") JNull
               = Return (param pitems "id")) by reflexivity.
  destruct kind; cbn [execute_method registry not_found_prefix] in *.
  - rewrite route_tools_execute. unfold handle_tools_execute.
    rewrite Hu. cbn [py_get bind].
    destruct (py_truth (param pitems "id")) eqn:E; cbn [negb].
    + destruct H as [H|H]; [discriminate|]. rewrite H. reflexivity.
    + reflexivity.
  - rewrite route_prompts_execute. unfold handle_prompts_execute.
    rewrite Hu. cbn [py_get bind].
    destruct (py_truth (param pitems "id")) eqn:E; cbn [negb].
    + destruct H as [H|H]; [discriminate|]. rewrite H. reflexivity.
    + reflexivity.
Qed.

(** X8.  A request for a method whose handler reads [params], with
    params that are not an object, is answered with error -32603 under a
    null id, and changes nothing. *)
Theorem params_must_be_object (srv : server) (request_str : pystr)
  (items : list (pystr * json)) (method : pystr) (id p : json) :
  json_loads request_str = Return (JDict items) ->
  dict_get items (py "method") = Some (JStr method) ->
  In method param_readers ->
  dict_get items (py "id") = Some id ->
  dict_get items (py "params") = Some p ->
  type_of p <> TDict ->
  handle_request request_str srv
  = (create_error_response JNull (-32603)
       (py "Internal error: " ++ exn_str (AttributeError (type_of p) (py "get"))),
     srv).
Proof.
  intros Hl Hm Hin Hi Hp Hty.
  apply handle_request_raised; [|discriminate].
  rewrite (dispatch_request request_str srv items _ id Hl Hm Hi).
  unfold params_of. rewrite Hp.
  assert (Hget : forall k d, py_get p k d = Raise (AttributeError (type_of p) (py "get"))).
  { intros k d. destruct p; try reflexivity. contradiction. }
  unfold param_readers in Hin. cbn [In] in Hin.
  destruct Hin as [<-|[<-|[<-|[<-|[]]]]].
  - change (route (JStr (py "initialize")) id p srv)
      with (handle_initialize id p srv).
    unfold handle_initialize. rewrite Hget. reflexivity.
  - rewrite route_resources_get. unfold handle_resources_get.
    rewrite Hget. reflexivity.
  - rewrite route_prompts_execute. unfold handle_prompts_execute.
    rewrite Hget. reflexivity.
  - rewrite route_tools_execute. unfold handle_tools_execute.
    rewrite Hget. reflexivity.
Qed.

(** X9.  The three list methods and shutdown never look at [params]: two
    requests for one of them with the same id are answered alike and leave
    the same state, whatever their params, objects or not. *)
Theorem params_ignored_by_listings (srv : server) (request1 request2 : pystr)
  (items1 items2 : list (pystr * json)) (method : pystr) (id : json) :
  json_loads request1 = Return (JDict items1) ->
  json_loads request2 = Return (JDict items2) ->
  dict_get items1 (py "method") = Some (JStr method) ->
  dict_get items2 (py "method") = Some (JStr method) ->
  dict_get items1 (py "id") = Some id ->
  dict_get items2 (py "id") = Some id ->
  In method param_ignorers ->
  handle_request request1 srv = handle_request request2 srv.
Proof.
  intros Hl1 Hl2 Hm1 Hm2 Hi1 Hi2 Hin.
  unfold handle_request.
  rewrite (dispatch_request request1 srv items1 _ id Hl1 Hm1 Hi1).
  rewrite (dispatch_request request2 srv items2 _ id Hl2 Hm2 Hi2).
  unfold param_ignorers in Hin. cbn [In] in Hin.
  destruct Hin as [<-|[<-|[<-|[<-|[]]]]]; reflexivity.
Qed.


End HandlerFacts.

(** * The lines on the wire *)

Section LineFacts.
Context {F : Type} {RT : PyRuntime F}.
Local Notation json := (json F).
Import Server.
Local Notation server := (@server F).

Lemma hex_digit_printable (d : N) :
  d < 16 -> printable (hex_digit d) = true.
Proof.
  intros H. unfold hex_digit, printable.
  destruct (d <? 10) eqn:E; apply andb_true_iff; split; apply N.leb_le;
    try (apply N.ltb_lt in E); try (apply N.ltb_ge in E); lia.
Qed.

Lemma u_escape_printable (n : N) : forallb printable (u_escape n) = true.
Proof.
  unfold u_escape, hex4. cbn [forallb].
  rewrite !hex_digit_printable by (apply N.mod_lt; discriminate).
  reflexivity.
Qed.

Lemma escape_char_printable (c : pychar) :
  forallb printable (escape_char c) = true.
Proof.
  unfold escape_char.
  repeat match goal with
         | |- context [if ?x =? ?k then _ else _] =>
             destruct (x =? k); [reflexivity|]
         end.
  destruct ((32 <=? c) && (c <=? 126)) eqn:E.
  { cbn [forallb]. unfold printable. rewrite E. reflexivity. }
  destruct (c <? 65536); [apply u_escape_printable|].
  rewrite forallb_app, !u_escape_printable. reflexivity.
Qed.

Lemma encode_basestring_ascii_printable (s : pystr) :
  forallb printable (encode_basestring_ascii s) = true.
Proof.
  unfold encode_basestring_ascii, escape_body. cbn [forallb].
  rewrite forallb_app. cbn [forallb]. rewrite andb_true_r.
  change (printable 34) with true. cbn [andb].
  induction s as [|c s IH]; [reflexivity|].
  cbn [flat_map]. rewrite forallb_app, escape_char_printable. exact IH.
Qed.

Lemma uint_chars_printable (d : uint) : forallb printable (uint_chars d) = true.
Proof. induction d; cbn [uint_chars forallb]; auto. Qed.

Lemma int_repr_printable (n : Z) : forallb printable (int_repr n) = true.
Proof.
  unfold int_repr. destruct (Z.to_int n); cbn [forallb];
    rewrite uint_chars_printable; reflexivity.
Qed.

Lemma json_dumps_printable (v : json) :
  (forall f, forallb printable (float_dumps f) = true) ->
  forallb printable (json_dumps v) = true.
Proof.
  intros Hfloat. induction v using json_induction.
  - reflexivity.
  - destruct b; reflexivity.
  - apply int_repr_printable.
  - apply Hfloat.
  - apply encode_basestring_ascii_printable.
  - rewrite json_dumps_list. cbn [forallb]. rewrite forallb_app.
    cbn [forallb]. rewrite andb_true_r. change (printable 91) with true.
    cbn [andb].
    induction H as [|x l Hx Hl IH]; [reflexivity|].
    cbn [dumps_elements]. rewrite forallb_app, Hx. cbn [andb].
    destruct l as [|y l']; [reflexivity|].
    rewrite forallb_app. rewrite IH. reflexivity.
  - rewrite json_dumps_dict. cbn [forallb]. rewrite forallb_app.
    cbn [forallb]. rewrite andb_true_r. change (printable 123) with true.
    cbn [andb].
    induction H as [|[k x] l Hx Hl IH]; [reflexivity|].
    cbn [dumps_members]. cbn [snd] in Hx.
    rewrite !forallb_app, encode_basestring_ascii_printable, Hx. cbn [andb].
    change (forallb printable (py ": ")) with true. cbn [andb].
    destruct l as [|y l']; [reflexivity|].
    rewrite forallb_app. rewrite IH. reflexivity.
Qed.

(** X11.  Every response is one line: whatever the request, it consists of
    printable ASCII characters only, so it holds no line terminator, given
    that the interpreter writes floats so. *)
Theorem response_is_one_line (request_str : pystr) (srv : server) :
  (forall f, forallb printable (float_dumps f) = true) ->
  forallb printable (fst (handle_request request_str srv)) = true /\
  ~ In 10 (fst (handle_request request_str srv)).
Proof.
  intros Hfloat.
  assert (H : forallb printable (fst (handle_request request_str srv)) = true).
  { destruct (handle_request_envelope request_str srv);
      apply json_dumps_printable; exact Hfloat. }
  split; [exact H|].
  intros Hin. rewrite forallb_forall in H. apply H in Hin. discriminate.
Qed.

End LineFacts.

(** * What [run] prints *)

Section RunFacts.
Context {F : Type} {RT : PyRuntime F}.
Local Notation json := (json F).
Import Server.
Local Notation server := (@server F).

Ltac quiet :=
  exists []; intros srv; cbn [snd stdout running];
  split; [rewrite List.app_nil_r; reflexivity
         | rewrite ?andb_true_r; reflexivity].

(** What handling a line does to standard output and to [running], in
    any state. *)
Lemma dispatch_step (request_str : pystr) :
  exists logs, forall srv : server,
    stdout (snd (dispatch request_str srv)) = stdout srv ++ logs /\
    running (snd (dispatch request_str srv))
    = running srv && negb (stops request_str).
Proof.
  unfold dispatch, and_then, lift, stops.
  destruct (json_loads request_str) as [request|e]; [|quiet].
  destruct request as [| | | | | |items];
    try (cbn [py_in type_of]; quiet);
    try (destruct (py_in (py "method") _) as [[|]|e]; cbn [negb py_getitem py_get bind];
         quiet).
  cbn [py_in negb].
  destruct (dict_get items (py "method")) as [method|] eqn:Em; cbn [negb];
    [|cbn [py_get bind]; quiet].
  cbn [py_getitem py_get]. rewrite Em.
  destruct (dict_get items (py "id")) as [id|]; [|quiet].
  unfold route.
  destruct (py_eq_str method (py "initialize")) eqn:E1.
  { assert (E2 : py_eq_str method (py "shutdown") = false).
    { destruct method; try reflexivity. unfold py_eq_str in *.
      apply pystr_eqb_eq in E1. subst. reflexivity. }
    rewrite E2. unfold handle_initialize.
    match goal with
    | |- context [match ?m with Return _ => _ | Raise _ => _ end] =>
        destruct m as [[[c n] v]|e]
    end; [|quiet].
    eexists [_; _]. intros srv. cbn [snd stdout running print].
    rewrite <- app_assoc. split; [reflexivity|].
    rewrite andb_true_r. reflexivity. }
  destruct (py_eq_str method (py "shutdown")) eqn:E2.
  { exists []. intros srv. cbn [snd handle_shutdown stdout running set_running negb].
    rewrite List.app_nil_r, andb_false_r. split; reflexivity. }
  repeat match goal with
         | |- context [if ?b then _ else _] => destruct b
         end; quiet.
Qed.

Lemma handle_request_step (request_str : pystr) :
  exists logs, forall srv : server,
    stdout (snd (handle_request request_str srv)) = stdout srv ++ logs /\
    running (snd (handle_request request_str srv))
    = running srv && negb (stops request_str).
Proof.
  destruct (dispatch_step request_str) as (logs & H).
  exists logs. intros srv. rewrite handle_request_state. apply H.
Qed.

Lemma printed_for_tables (request_str : pystr) (srv srv' : server) :
  same_tables srv srv' ->
  printed_for srv' request_str = printed_for srv request_str.
Proof.
  intros H. unfold printed_for.
  rewrite <- (handle_request_response_tables request_str srv srv' H).
  f_equal.
  destruct (handle_request_step request_str) as (logs & Hs).
  destruct (Hs srv) as [-> _]. destruct (Hs srv') as [-> _].
  rewrite !skipn_app, !skipn_all, !Nat.sub_diag. reflexivity.
Qed.

Lemma run_loop_transcript (stdin : list pystr) (srv0 srv : server) :
  same_tables srv0 srv -> running srv = true ->
  stdout (fst (run_loop srv stdin))
  = stdout srv ++ flat_map (printed_for srv0) (until_stop stdin) /\
  stdin = until_stop stdin ++ snd (run_loop srv stdin) /\
  running (fst (run_loop srv stdin)) = negb (existsb stops stdin).
Proof.
  revert srv. induction stdin as [|line stdin IH]; intros srv Ht Hrun.
  - cbn [run_loop until_stop flat_map existsb]. rewrite Hrun. cbn [fst snd].
    rewrite List.app_nil_r. auto.
  - rewrite (run_loop_step srv line stdin Hrun).
    cbn [until_stop flat_map existsb].
    rewrite <- (printed_for_tables line srv0 srv Ht).
    pose proof (handle_request_tables line srv) as Ht'.
    destruct (handle_request_step line) as (logs & Hs).
    destruct (Hs srv) as [Hout Hr]. rewrite Hrun in Hr. cbn [andb] in Hr.
    unfold printed_for. rewrite Hout.
    rewrite skipn_app, skipn_all, Nat.sub_diag. cbn [skipn List.app].
    set (response := fst (handle_request line srv)) in *.
    set (srv' := snd (handle_request line srv)) in *.
    destruct (stops line) eqn:E; cbn [negb orb] in *.
    + rewrite run_loop_stopped by exact Hr. cbn [fst snd stdout running print flat_map].
      rewrite Hout, List.app_nil_r, <- app_assoc. auto.
    + destruct (IH (print response srv')) as (H1 & H2 & H3).
      * eapply same_tables_trans; [exact Ht|].
        eapply same_tables_trans; [exact Ht'|]. apply same_tables_print.
      * exact Hr.
      * rewrite H1, H3. cbn [stdout print]. rewrite Hout.
        rewrite <- !app_assoc. cbn [List.app].
        repeat split; auto. cbn [List.app]. f_equal. exact H2.
Qed.

(** X12.  What [run] prints, all of it: the two lines of its banner, then
    for each line read what the handler logs and the response, in the
    order of the input, then that it stopped.  It reads up to and
    including the first shutdown request that carries an id, and leaves
    the rest; each response is the one the server would give to that line
    alone. *)
Theorem run_prints_responses_in_order (stdin : list pystr) (srv : server) :
  running srv = true ->
  stdout (fst (run srv stdin))
  = stdout srv ++
    [py "Simple MCP Server started"; py "Waiting for requests..."] ++
    flat_map (printed_for srv) (until_stop stdin) ++
    [py "Simple MCP Server stopped"] /\
  stdin = until_stop stdin ++ snd (run srv stdin) /\
  running (fst (run srv stdin)) = negb (existsb stops stdin).
Proof.
  intros Hrun. unfold run.
  set (srv0 := print _ (print _ srv)).
  destruct (run_loop_transcript stdin srv srv0) as (H1 & H2 & H3).
  { repeat split. }
  { exact Hrun. }
  destruct (run_loop srv0 stdin) as [srv1 unread]. cbn [fst snd] in *.
  cbn [stdout print running]. rewrite H1. subst srv0. cbn [stdout print].
  rewrite <- !app_assoc. cbn [List.app]. auto.
Qed.

End RunFacts.

(** * Further properties of the client *)

Section ClientCalls.
Context {F : Type} {RT : PyRuntime F}.
Local Notation json := (json F).
Import Client.
Local Notation client := (@client F).

(** On the stdio transport [send_request] returns, having written one
    line and taken one. *)
Lemma send_request_stdio (request : json) (c : client) :
  transport c = py "stdio" ->
  exists answer,
    send_request request c
    = (Return answer,
       set_streams (writer c ++ [json_dumps request ++ [10]]) (tl (reader c)) c).
Proof.
  intros Ht. unfold send_request. rewrite Ht, pystr_eqb_refl.
  destruct (reader c) as [|line incoming]; [eauto|].
  destruct line as [|ch line']; [eauto|]. cbn [tl].
  destruct (json_loads_outcome (F := F) (ch :: line')) as [[v ->]| ->]; eauto.
Qed.

Ltac split_matches :=
  repeat match goal with
         | |- context [match ?x with _ => _ end] => destruct x
         end.

Lemma list_call_state (method member : string) (c : client) :
  connected c = true ->
  snd (list_call method member c)
  = snd (send_request (make_request (request_id c + 1) method (JDict []))
           (set_request_id (request_id c + 1) c)).
Proof.
  intros Hc. unfold list_call. rewrite Hc. cbn [negb next_id request_id set_request_id].
  destruct (send_request _ _) as [[response|e] c2]; cbn [snd]; [|reflexivity].
  split_matches; reflexivity.
Qed.

Lemma result_call_state (method : string) (params : json) (c : client) :
  connected c = true ->
  snd (result_call method params c)
  = snd (send_request (make_request (request_id c + 1) method params)
           (set_request_id (request_id c + 1) c)).
Proof.
  intros Hc. unfold result_call. rewrite Hc. cbn [negb next_id request_id set_request_id].
  destruct (send_request _ _) as [[response|e] c2]; cbn [snd]; [|reflexivity].
  split_matches; reflexivity.
Qed.

Lemma execute_tool_as_result_call (id : pystr) (args : option json) (c : client) :
  execute_tool id args c
  = result_call "tools/execute"
      (JDict [(py "id", JStr id); (py "args", args_or_empty args)]) c.
Proof. reflexivity. Qed.

(** A call on a connected client over stdio: one id, one line out, one
    line in, and the connection kept unless the call is [shutdown]. *)
Lemma after_connected (a : api) (c : client) :
  transport c = py "stdio" -> connected c = true ->
  transport (after a c) = py "stdio" /\
  request_id (after a c) = (request_id c + 1)%Z /\
  writer (after a c)
  = writer c ++ [json_dumps (request_of a (request_id c + 1)) ++ [10]] /\
  reader (after a c) = tl (reader c) /\
  connected (after a c) = negb (is_shutdown_call a) /\
  same_session c (set_connected true (server_capabilities (after a c)) (after a c)).
Proof.
  intros Ht Hc.
  assert (Ht' : transport (set_request_id (request_id c + 1) c) = py "stdio")
    by exact Ht.
  assert (Hstep : forall request,
            snd (send_request request (set_request_id (request_id c + 1) c))
            = set_streams (writer c ++ [json_dumps request ++ [10]])
                (tl (reader c)) (set_request_id (request_id c + 1) c)).
  { intros request.
    destruct (send_request_stdio request _ Ht') as (answer & ->). reflexivity. }
  destruct a; cbn [after request_of is_shutdown_call negb];
    unfold list_resources, list_prompts, list_tools, get_resource, execute_prompt;
    rewrite ?execute_tool_as_result_call;
    rewrite ?list_call_state, ?result_call_state by exact Hc;
    rewrite ?Hstep;
    try solve [cbn [transport request_id writer reader connected set_streams
                      set_request_id];
               repeat split; auto].
  unfold shutdown. rewrite Hc. cbn [negb next_id request_id set_request_id].
  destruct (send_request_stdio (make_request (request_id c + 1) "shutdown"
                                  (JDict []))
              _ Ht') as (answer & ->).
  cbn [snd transport request_id writer reader connected set_streams
         set_request_id set_connected].
  repeat split; auto.
Qed.

Lemma after_disconnected (a : api) (c : client) :
  connected c = false -> after a c = c.
Proof.
  intros Hc. destruct a; cbn [after];
    unfold list_resources, list_prompts, list_tools, get_resource,
      execute_prompt, execute_tool, list_call, result_call, shutdown;
    rewrite Hc; reflexivity.
Qed.

Lemma disconnected_calls (c : client) :
  connected c = false ->
  list_resources c = (Reply (JList []), c) /\
  list_prompts c = (Reply (JList []), c) /\
  list_tools c = (Reply (JList []), c) /\
  (forall uri, get_resource uri c = (Return None, c)) /\
  (forall id args, execute_prompt id args c = (Return None, c)) /\
  (forall id args, execute_tool id args c = (Return None, c)) /\
  shutdown c = (Return tt, c).
Proof.
  intros Hc.
  unfold list_resources, list_prompts, list_tools, get_resource,
    execute_prompt, execute_tool, list_call, result_call, shutdown.
  rewrite Hc. repeat split.
Qed.

(** X13.  On a client that is not connected no method sends anything:
    the list methods return the empty list, the others None, and the
    client with its counter and its streams is left as it was. *)
Theorem disconnected_calls_do_nothing (c : client) :
  connected c = false ->
  list_resources c = (Reply (JList []), c) /\
  list_prompts c = (Reply (JList []), c) /\
  list_tools c = (Reply (JList []), c) /\
  (forall uri, get_resource uri c = (Return None, c)) /\
  (forall id args, execute_prompt id args c = (Return None, c)) /\
  (forall id args, execute_tool id args c = (Return None, c)) /\
  shutdown c = (Return tt, c).
Proof. exact (disconnected_calls c). Qed.

Lemma after_all_disconnected (calls : list api) (c : client) :
  connected c = false -> after_all calls c = c.
Proof.
  intros Hc. induction calls as [|a calls IH]; [reflexivity|].
  cbn [after_all fold_left]. rewrite (after_disconnected a c Hc). exact IH.
Qed.

Lemma after_all_connected (calls : list api) (c : client) :
  transport c = py "stdio" -> connected c = true ->
  writer (after_all calls c) = writer c ++ lines_of (sent calls) (request_id c) /\
  request_id (after_all calls c)
  = (request_id c + Z.of_nat (List.length (sent calls)))%Z /\
  reader (after_all calls c) = skipn (List.length (sent calls)) (reader c) /\
  connected (after_all calls c) = negb (existsb is_shutdown_call calls).
Proof.
  revert c. induction calls as [|a calls IH]; intros c Ht Hc.
  - cbn. rewrite List.app_nil_r, Z.add_0_r. auto.
  - destruct (after_connected a c Ht Hc) as (Ht1 & Hn & Hw & Hr & Hcon & _).
    change (after_all (a :: calls) c) with (after_all calls (after a c)).
    cbn [sent existsb lines_of].
    destruct (is_shutdown_call a) eqn:Ea; cbn [negb orb] in *.
    + rewrite (after_all_disconnected calls _ Hcon).
      rewrite Hw, Hn, Hr. cbn [lines_of List.length skipn].
      repeat split; auto.
    + destruct (IH (after a c) Ht1 Hcon) as (H1 & H2 & H3 & H4).
      rewrite H1, H2, H3, H4, Hw, Hn, Hr. cbn [List.length].
      rewrite <- app_assoc. cbn [List.app].
      repeat split; auto; try lia.
      destruct (reader c) as [|l r]; [|reflexivity].
      cbn [tl skipn]. destruct (List.length (sent calls)); reflexivity.
Qed.


Lemma dict_get_nonempty (items : list (pystr * json)) (k : pystr) (v : json) :
  dict_get items k = Some v -> py_truth (JDict items) = true.
Proof. destruct items; [discriminate | reflexivity]. Qed.

(** The handshake: the request goes out under the next id, and the client
    is connected or not. *)
Lemma initialize_step (c : client) :
  transport c = py "stdio" ->
  let c2 :=
    set_streams
      (writer c ++ [json_dumps (initialize_request c (request_id c + 1)) ++ [10]])
      (tl (reader c)) (set_request_id (request_id c + 1) c) in
  (exists caps, initialize c = (Return true, set_connected true (Some caps) c2)) \/
  (exists o, o <> Return true /\ initialize c = (o, c2)).
Proof.
  intros Ht c2. unfold initialize. cbn [next_id request_id set_request_id].
  assert (Ht' : transport (set_request_id (request_id c + 1) c) = py "stdio")
    by exact Ht.
  destruct (send_request_stdio (initialize_request c (request_id c + 1)) _ Ht')
    as (answer & E).
  unfold initialize_request in E. rewrite E. fold c2.
  destruct (has_result answer) as [[|]|e].
  - destruct answer as [r|].
    + destruct (_ <- py_getitem r (py "result") ;; _) as [caps|e].
      * left. eauto.
      * right. eexists. split; [|reflexivity]. discriminate.
    + right. eexists. split; [|reflexivity]. discriminate.
  - right. eexists. split; [|reflexivity]. discriminate.
  - right. eexists. split; [|reflexivity]. discriminate.
Qed.


Lemma lines_of_length (calls : list api) (n : Z) :
  List.length (lines_of calls n) = List.length calls.
Proof.
  revert n. induction calls as [|a calls IH]; intros n; [reflexivity|].
  cbn [lines_of List.length]. rewrite IH. reflexivity.
Qed.

Lemma shutdown_connected (c : client) :
  transport c = py "stdio" -> connected c = true ->
  shutdown c = (Return tt, after Shutdown c).
Proof.
  intros Ht Hc. cbn [after]. unfold shutdown. rewrite Hc.
  cbn [negb next_id request_id set_request_id].
  assert (Ht' : transport (set_request_id (request_id c + 1) c) = py "stdio")
    by exact Ht.
  destruct (send_request_stdio (make_request (request_id c + 1) "shutdown"
                                  (JDict []))
              _ Ht') as (answer & ->).
  reflexivity.
Qed.


(** X17.  [main] on another transport than stdio raises
    NotImplementedError from [connect] having written and printed
    nothing; the shutdown of its [finally] clause sends nothing either. *)
Theorem main_other_transport (server_url : option pystr) (transport : pystr)
  (incoming : list pystr) :
  transport <> py "stdio" ->
  main server_url transport incoming
  = (Fail (Exn (NotImplementedError
                  (py "HTTP/SSE transport not yet implemented"))),
     [], init server_url transport incoming).
Proof.
  intros H. apply pystr_eqb_neq in H.
  unfold main, connect. cbv zeta. cbn [Client.transport init].
  rewrite H. reflexivity.
Qed.

End ClientCalls.

(** * The client and the server, end to end *)

Section EndToEnd.
Context {F : Type} {RT : PyRuntime F}.
Local Notation json := (json F).
Local Notation server := (@Server.server F).
Local Notation client := (@Client.client F).

Lemma run_loop_stdout_prefix (stdin : list pystr) (srv : server) :
  exists logs,
    Server.stdout (fst (Server.run_loop srv stdin)) = Server.stdout srv ++ logs.
Proof.
  revert srv. induction stdin as [|line stdin IH]; intros srv.
  - exists []. cbn [Server.run_loop]. rewrite List.app_nil_r.
    destruct (Server.running srv); reflexivity.
  - cbn [Server.run_loop]. destruct (Server.running srv).
    + destruct (handle_request_effect line srv) as (_ & (logs & Ho) & _).
      destruct (Server.handle_request line srv) as [response srv'].
      cbn [snd] in Ho.
      destruct (IH (Server.print response srv')) as (logs' & E).
      rewrite E. cbn [Server.stdout Server.print]. rewrite Ho.
      exists (logs ++ [response] ++ logs'). rewrite <- !app_assoc. reflexivity.
    + exists []. rewrite List.app_nil_r. reflexivity.
Qed.

(** X18.  The client of [main] reading what [run] prints does not get
    connected: the first thing a fresh server prints is its banner, which
    is not JSON, so the handshake returns False; [main] then sends nothing
    after the initialize request, not even the shutdown, and prints three
    empty listings. *)
Theorem banner_fails_handshake (srv : server) (stdin rest : list pystr)
  (server_url : option pystr) :
  Server.stdout srv = [] ->
  exists first,
    hd_error (Server.stdout (fst (Server.run srv stdin))) = Some first /\
    Client.main server_url (py "stdio") ((first ++ [10]) :: rest)
    = (Client.Reply tt,
       [py "Resources:"; py "[]"; 10 :: py "Prompts:"; py "[]";
        10 :: py "Tools:"; py "[]"],
       Client.set_streams
         [json_dumps
            (initialize_request
               (Client.init server_url (py "stdio") ((first ++ [10]) :: rest)) 1)
          ++ [10]]
         rest
         (Client.set_request_id 1
            (Client.init server_url (py "stdio") ((first ++ [10]) :: rest)))).
Proof.
  intros Hout. exists (py "Simple MCP Server started"). split.
  - unfold Server.run.
    destruct (run_loop_stdout_prefix stdin
                (Server.print (py "Waiting for requests...")
                   (Server.print (py "Simple MCP Server started") srv)))
      as (logs & E).
    destruct (Server.run_loop _ stdin) as [srv1 unread]. cbn [fst] in *.
    cbn [Server.stdout Server.print] in *. rewrite E, Hout. reflexivity.
  - vm_compute. reflexivity.
Qed.



Lemma error_response_read_back (id : json) (code : Z) (message : pystr) :
  wire_safe id = true -> valid_str message = true ->
  json_loads (Server.create_error_response id code message ++ [10])
  = Return (JDict [(py "jsonrpc", JStr (py "2.0")); (py "id", id);
                   (py "error", JDict [(py "code", JInt code);
                                       (py "message", JStr message)])]).
Proof.
  intros Hid Hmsg. apply json_loads_dumps; [|right; reflexivity].
  rewrite wire_safe_dict.
  apply andb_true_iff. split; [reflexivity|].
  cbn [forallb fst snd]. rewrite Hid.
  change (valid_str (py "jsonrpc")) with true.
  change (valid_str (py "id")) with true.
  change (valid_str (py "error")) with true.
  change (wire_safe (JStr (py "2.0"))) with true.
  cbn [andb]. rewrite andb_true_r.
  rewrite wire_safe_dict.
  apply andb_true_iff. split; [reflexivity|].
  cbn [forallb fst snd wire_safe]. rewrite Hmsg. reflexivity.
Qed.


(** X21.  Every request the client writes is one line: the handshake and
    each call write printable ASCII characters followed by one line feed,
    whatever the arguments hold, given that the interpreter writes floats
    so. *)
Theorem requests_are_single_lines (c : client) (calls : list api) (n : Z) :
  (forall f, forallb printable (float_dumps f) = true) ->
  one_line (json_dumps (initialize_request c n) ++ [10]) /\
  Forall one_line (lines_of calls n).
Proof.
  intros Hfloat. split.
  - eexists. split; [reflexivity|]. apply json_dumps_printable. exact Hfloat.
  - revert n. induction calls as [|a calls IH]; intros n; constructor.
    + eexists. split; [reflexivity|]. apply json_dumps_printable. exact Hfloat.
    + apply IH.
Qed.

End EndToEnd.

(** * The further properties, checked on the examples *)

Section Checks.
Import Examples Sessions.

(** Two lines, neither a shutdown request: both are read. *)
Lemma run_loop_stops_on_shutdown_only_witness :
  let stdin := [json_dumps nonexistent; garbage] in
  snd (Server.run_loop (F := unit) Server.init stdin) = [] /\
  Server.running (fst (Server.run_loop Server.init stdin)) = true /\
  (List.length (Server.stdout (Server.init (F := unit))) + List.length stdin
   <= List.length (Server.stdout (fst (Server.run_loop Server.init stdin))))%nat.
Proof.
  cbv zeta.
  refine (proj2 (proj2 (run_loop_stops_on_shutdown_only
                          [json_dumps nonexistent; garbage] Server.init)) _ _).
  - reflexivity.
  - repeat constructor; intros H; vm_compute in H; discriminate.
Defined.


Lemma echo_and_reverse_witness :
  Server.handle_request (json_dumps echo_hello) Server.init
  = (Server.result_response (JInt 8 : J)
       (JDict [(py "result", JStr (py "hello"))]),
     Server.init).
Proof.
  refine (proj1 (echo_and_reverse Server.init (json_dumps echo_hello)
                   (members echo_hello)
                   [(py "id", JStr (py "echo"));
                    (py "args", JDict [(py "text", JStr (py "hello"))])]
                   [(py "text", JStr (py "hello"))]
                   (JInt 8) (JStr (py "hello")) (py "echo") echo_entry
                   _ _ _ _ _ _ _ _ _) _);
    vm_compute; reflexivity.
Defined.

Lemma resources_get_found_or_not_witness :
  Server.handle_request (json_dumps get_sample_text) Server.init
  = (Server.result_response (JInt 9 : J)
       (JDict [(py "uri", JStr (py "sample_text"));
               (py "type", JStr (py "text/plain"));
               (py "content", JStr (py "This is a sample text resource."))]),
     Server.init).
Proof.
  refine (proj1 (resources_get_found_or_not Server.init
                   (json_dumps get_sample_text) (members get_sample_text)
                   [(py "uri", JStr (py "sample_text"))] (JInt 9) _ _ _ _)
            (py "sample_text") sample_text _ _ _);
    try (vm_compute; reflexivity).
  discriminate.
Defined.

Lemma execute_unknown_entry_witness :
  Server.handle_request (json_dumps divide) Server.init
  = (Server.create_error_response (JInt 10 : J) (-32602)
       (py "Tool not found: divide"),
     Server.init).
Proof.
  refine (execute_unknown_entry Tools Server.init (json_dumps divide)
            (members divide)
            [(py "id", JStr (py "divide")); (py "args", JDict [])]
            (JInt 10) _ _ _ _ _);
    try (vm_compute; reflexivity).
  right. reflexivity.
Defined.

Lemma params_must_be_object_witness :
  Server.handle_request (json_dumps get_with_list) Server.init
  = (Server.create_error_response (JNull : J) (-32603)
       (py "Internal error: " ++ exn_str (AttributeError TList (py "get"))),
     Server.init).
Proof.
  refine (params_must_be_object Server.init (json_dumps get_with_list)
            (members get_with_list) (py "resources/get") (JInt 11) (JList [])
            _ _ _ _ _ _);
    try (vm_compute; reflexivity).
  - right. left. reflexivity.
  - discriminate.
Defined.

Lemma params_ignored_by_listings_witness :
  Server.handle_request (json_dumps (list_tools_with (JDict []))) Server.init
  = Server.handle_request (json_dumps (list_tools_with (JInt 7))) Server.init.
Proof.
  refine (params_ignored_by_listings Server.init _ _
            (members (list_tools_with (JDict [])))
            (members (list_tools_with (JInt 7)))
            (py "tools/list") (JInt 12) _ _ _ _ _ _ _);
    try (vm_compute; reflexivity).
  do 3 right. left. reflexivity.
Defined.


Lemma response_is_one_line_witness :
  forallb printable (fst (Server.handle_request (F := unit) garbage Server.init))
  = true /\
  ~ In 10 (fst (Server.handle_request (F := unit) garbage Server.init)).
Proof.
  refine (response_is_one_line garbage Server.init _).
  intros []. reflexivity.
Defined.

(** Three lines, the second a shutdown request: the third is left. *)
Lemma run_prints_responses_in_order_witness :
  let stdin := [json_dumps add_2_3; json_dumps shutdown; garbage] in
  Server.stdout (fst (Server.run (F := unit) Server.init stdin))
  = Server.stdout (Server.init (F := unit)) ++
    [py "Simple MCP Server started"; py "Waiting for requests..."] ++
    flat_map (printed_for Server.init) (until_stop stdin) ++
    [py "Simple MCP Server stopped"] /\
  stdin = until_stop stdin ++ snd (Server.run (F := unit) Server.init stdin) /\
  Server.running (fst (Server.run (F := unit) Server.init stdin))
  = negb (existsb (stops (F := unit)) stdin).
Proof.
  cbv zeta.
  refine (run_prints_responses_in_order
            [json_dumps add_2_3; json_dumps shutdown; garbage] Server.init _).
  reflexivity.
Defined.

Lemma disconnected_calls_do_nothing_witness :
  Client.list_tools (fresh []) = (Client.Reply (JList []), fresh []) /\
  Client.shutdown (fresh []) = (Return tt, fresh []).
Proof.
  pose proof (disconnected_calls_do_nothing (fresh []) eq_refl) as H.
  split; [exact (proj1 (proj2 (proj2 H))) | exact (proj2 (proj2 (proj2 (proj2 (proj2 (proj2 H))))))].
Defined.



Lemma main_other_transport_witness :
  Client.main (F := unit) None (py "http") []
  = (Client.Fail (Client.Exn (NotImplementedError
                                (py "HTTP/SSE transport not yet implemented"))),
     [], Client.init None (py "http") []).
Proof.
  refine (main_other_transport None (py "http") [] _). discriminate.
Defined.

Lemma banner_fails_handshake_witness :
  exists first,
    hd_error (Server.stdout (fst (Server.run (F := unit) Server.init []))) = Some first /\
    Client.main None (py "stdio") [first ++ [10]]
    = (Client.Reply tt,
       [py "Resources:"; py "[]"; 10 :: py "Prompts:"; py "[]";
        10 :: py "Tools:"; py "[]"],
       Client.set_streams
         [json_dumps
            (initialize_request
               (Client.init None (py "stdio") [first ++ [10]]) 1)
          ++ [10]]
         []
         (Client.set_request_id 1
            (Client.init None (py "stdio") [first ++ [10]]))).
Proof.
  refine (banner_fails_handshake Server.init [] [] None _). reflexivity.
Defined.




Lemma requests_are_single_lines_witness :
  one_line (json_dumps hello ++ [10]) /\
  Forall one_line
    (lines_of [ListTools; ExecuteTool (py "add") (Some (JFloat tt : J))] 1).
Proof.
  refine (requests_are_single_lines (fresh [])
            [ListTools; ExecuteTool (py "add") (Some (JFloat tt))] 1 _).
  intros []. reflexivity.
Defined.

End Checks.
